(* ===== verification/_CoqProject ===== *)
-Q . S2P
Prelude.v
JsObject.v
I18nPreferences.v
RosTime.v
SchemaResolver.v
Rosbag2.v
RosDb3Source.v
BlockCache.v
Pipeline.v
H264.v
DecodeImage.v
MapTileSets.v
NodePlayground.v
Uptime.v
WebMain.v
Stories.v
