(* ===== verification/Prelude.v ===== *)
(** * Verification development of the sviz log viewer

    This library models, in Rocq, the parts of the sviz repository (a
    robotics log viewer) that carry program logic: the ROS 2 [.db3]
    iterable source with the schema resolver it runs during
    initialisation, the block cache that the Plot panel flattens, the
    image/video decode pipeline of the 3D panel, the 3D panel's map-tile
    layers, the user-script editor panel, the app bar's uptime label and
    the web entry point that boots the app.
    Pure functions of the TypeScript sources are Rocq functions; the
    mutable fields of a class, or the state of a React component, are a
    [Record] threaded through each method or event; a thrown [Error] is
    the [Err] branch of the [result] type of this file; an asynchronous
    generator is the finite list of the events it yields.  Components
    talk through interfaces: the source is proved against the typeclass
    [Rosbag2] with its laws, the video path against [VideoPlayer].

    ** Files, in dependency order (see _CoqProject)

    - [Prelude] (this file): the [result] error monad (JavaScript
      [throw new Error(msg)] is [Err msg]), the [sviz_scope] notations,
      the [sviz] hint databases, the tactics [inv_bind], [concrete] and
      [case_string_eqb], and the list / option / map lemmas the components
      share; [map_of_entries] models [new Map(entries)] (a later entry
      overrides an earlier one).
    - [JsObject]: a plain JS object (or a JS [Map]) used as a map, as an
      insertion-ordered association list: get, set in place or append,
      delete, keys, values, with their lookup and no-duplicate lemmas.
    - [I18nPreferences]: src/.../i18n/en/preferences.ts, the English
      [preferences] resource as a JS object, with i18next's lookup.
    - [RosTime]: [Time = {sec; nsec}] of [@foxglove/rostime] with
      [fixTime], [add], [toNanoSec], [toMicroSec] (exact rationals).
    - [SchemaResolver]: lines 89-105 of
      src/.../rosdb3/RosDb3IterableSource.ts: the breadth-first worklist
      that collects the complex sub-types of a topic's datatype, as a
      fuel-driven loop, with the [@foxglove/rosmsg] [stringify] it feeds.
    - [Rosbag2]: the typeclass [Rosbag2] (with its laws [Rosbag2Laws]) of
      the [@foxglove/rosbag2-web] reader, modelled from the contract the
      spec states, and an in-memory instance [MemBag] that discharges it.
    - [RosDb3Source]: the class [RosDb3IterableSource]: its state
      ([#files], [#bag], [#start], [#end]), [initialize],
      [messageIterator] and [getBackfillMessages].
    - [BlockCache]: the message-block cache and the per-topic flattening
      of [useAllFramesByTopic] (spec) with the scenario of
      src/.../Plot/useAllFramesByTopic.test.tsx: a reference [flatten]
      and an incremental cursor-based version proved equal to it.
    - [Pipeline]: the spec's data flow from the source to the cache: the
      events of a [messageIterator] run, sealed block by block (the
      player's loader, from spec 4.3), then flattened per topic.
    - [H264]: Annex-B NAL unit scanning of [@foxglove/den/video] (IDR and
      SPS detection, the [avc1.PPCCLL] codec string), from the spec.
    - [DecodeImage]: src/.../Images/decodeImage.ts: [decodeRawImage]'s
      dispatch on the encoding string, [isVideoKeyframe],
      [getVideoDecoderConfig], [emptyVideoFrame],
      [decodeCompressedImageToBitmap] and [decodeCompressedVideoToBitmap]
      against [VideoPlayer], with an explicit store of live [VideoFrame]s.
    - [MapTileSets]: src/.../ThreeDeeRender/renderables/MapTileSets.ts.
      The class state and the renderer parts it touches are the record
      [World]; every method ([_updateMapTileSet], [_createRenderable],
      [settingsNodes], [handleSettingsAction], [handleAddMapTileSet],
      the constructor [newMapTileSets], [dispose]) is a function on it;
      [step]/[reachable] is the state machine of the renderer's calls.
    - [NodePlayground]: src/.../panels/NodePlayground/index.tsx.  The
      component state, the layout's user nodes and the panel config are
      the record [Panel]; each callback is a function on it, and
      [dispatch] runs a callback and then the layout effects React runs
      (which fire on object identity, kept as [un_uid]); the panel's
      settings tree is [buildSettingsTree], its handler [actionHandler].
    - [Uptime]: src/.../AppBar/Uptime.tsx: the selectors, the effect that
      writes the label and [formatDurationCustom] with moment's
      components and the template formatter modelled from their docs.
    - [WebMain]: src/packages/studio-web/src/index.tsx.  [main] is the
      trace of effects it performs (log, [window.onerror], imports,
      fonts, i18n, [getParams], [ReactDOM.render], [LogAfterRender]'s
      ["App rendered"]) in the writer-and-error monad [TraceM], over an
      [Env] that fixes the [#root] lookup, the user agent,
      [canRenderApp()] and the outcome of every awaited promise.  The
      user-agent pattern [/Chrome\/(\d+)\./] is the scanner
      [regexMatch]; [parseInt] is [parseInt10].
    - [Stories]: the [MockPanelCatalog] of src/.../Workspace.stories.tsx
      as an instance of the typeclass [PanelCatalog]; it answers lookups
      soundly exactly for the story layout's panel type ["Fake"].

    ** What the theorems show

    - Time: [add t 1ns] moves the nanosecond count by exactly one, so the
      source's exclusive query [ts < end + 1ns] is the inclusive
      [ts <= end] on integer nanosecond timestamps.
    - Schema resolution: termination with the stated fuel; the result is
      a duplicate-free set of exactly the reachable complex types, closed
      under complex fields; a missing sub-type is an error naming it; the
      root type itself is not part of the serialised closure (a finding).
    - Source: [initialize] fails exactly when every count is zero, and
      keeps [#bag] set when it fails; unsupported topics become warnings
      and are dropped from [topics]; [messageIterator] yields nothing for
      an empty topic set and otherwise exactly the bag's messages of the
      requested topics in the inclusive window, in time order.
    - Block cache: flattening restricts to sub-topic-sets and distributes
      over appended blocks; the incremental cache refines the reference.
    - Pipeline: whatever the cut into blocks, the flattened view of a
      requested topic is exactly the bag's messages of that topic in the
      inclusive window, in time order.
    - Decode: the raw dispatch's if-chain is equivalent to a lookup in
      the table of the switch's 18 cases, calling each decoder with exactly
      the arguments its signature takes (min/max only to the 16-bit
      decoder); the video path
      never leaks a decoded [VideoFrame]; an uninitialised player yields
      the blank placeholder; frame timestamps are whole microseconds only
      when the frame's nanoseconds are a multiple of 1000.
    - Map tiles: an invariant of the scene (renderables keyed by name,
      children and config layers in step, every line list disposed at
      most once and either disposed or owned) holds in every reachable
      state; [dispose] releases every line list exactly once; adding,
      deleting and updating layers do what the settings tree promises.
    - Script editor: the name input always shows the current script's
      title; the backstack's depth limit, go-back round trip, saving
      and deleting nodes; going back always ends, after one click per
      script above the bottom, at the node's own script (liveness);
      unmounting saves the node's unsaved edit; the settings tree's
      auto-format toggle round-trips through the config; a node deleted
      by another panel of the layout leaves this panel with a stale
      selection that shows neither the welcome screen nor a savable node
      (a finding); renaming drops unsaved edits and saving
      from an override script overwrites the node (findings).
    - Uptime: whole days are formatted with seconds only (a finding).
    - i18n: the English preferences resource has 39 distinct keys, each
      with a non-empty string different from the key.
    - Web entry point: the version scanner is equivalent to the
      leftmost-match semantics of the pattern; [isChrome] holds exactly
      for a non-zero version; [main] rejects without [#root], renders the
      banner alone when the app cannot render, renders at most once and
      resolves exactly when it rendered, renders [Root] only after every
      initialisation step, and passes well-formed props.

    ** Bounds and fuel

    The schema worklist runs with fuel [S (size datatypes)]: each round
    adds one new registry key or empties the queue, so this fuel always
    suffices (theorem [typesForMessage_terminates]); no other definition
    uses fuel.  Integers are [Z]: ROS times and frame timestamps do not
    wrap; JS numbers used as layer orders are integers.  [parseInt10] is
    exact; JavaScript rounds digit strings above 2^53, which never turns
    a non-zero version into 0, so [isChrome] is unaffected.

    ** Not modelled (see PROJECT.json)

    The fetch of the SQLite wasm and the SQLite page format (I/O), the
    den pixel decoders' loops, [createImageBitmap]'s resampling, Three.js
    geometry, React rendering and styling; of the i18n resource only the
    lookup is modelled, not the other locales (not in the repository).  The
    Storybook stories' decorators and render functions
    (Workspace.stories.tsx, CustomBackgroundColor.stories.tsx) are JSX
    fixtures for visual tests; only the panel catalog mock is modelled.  In
    the web entry point, [CompatibilityBanner], [canRenderApp] and
    [Root] are not under src/; only the props they receive and the
    boolean [canRenderApp()] returns are modelled, and
    [window.onerror]'s body ([console.error]) is not traced.
*)

From stdpp Require Export base list gmap strings.
From Stdlib Require Export ZArith Lia.

Declare Scope sviz_scope.
Delimit Scope sviz_scope with sviz.
Open Scope sviz_scope.

(** ** Errors: a JavaScript [throw new Error(msg)] is [Err msg]. *)

Inductive result (A : Type) : Type :=
| Ok (a : A)
| Err (msg : string).
Arguments Ok {A} a.
Arguments Err {A} msg.

#[export] Instance result_ret : MRet result := fun _ a => Ok a.
#[export] Instance result_bind : MBind result :=
  fun _ _ f r => match r with Ok a => f a | Err m => Err m end.
#[export] Instance result_fmap : FMap result :=
  fun _ _ f r => match r with Ok a => Ok (f a) | Err m => Err m end.

Definition is_ok {A} (r : result A) : bool :=
  match r with Ok _ => true | Err _ => false end.

(** [x ?? d] is JavaScript's nullish coalescing [x ?? d]. *)
Notation "x ?? d" := (default d x) (at level 50, left associativity) : sviz_scope.

(** [new Map(entries)]: entries are inserted from left to right, so a later
    entry for the same key wins. *)
Definition map_of_entries {K V} `{Countable K} (l : list (K * V)) : gmap K V :=
  foldl (fun m kv => <[kv.1 := kv.2]> m) ∅ l.

Create HintDb sviz discriminated.
Create Rewrite HintDb sviz_rw.

Section ResultLemmas.
Context {A B : Type}.

Lemma bind_Ok (a : A) (f : A -> result B) : (Ok a ≫= f) = f a.
Proof. reflexivity. Qed.

Lemma bind_Err (m : string) (f : A -> result B) : (Err m ≫= f) = Err m.
Proof. reflexivity. Qed.

Lemma bind_eq_Ok (r : result A) (f : A -> result B) b :
  (r ≫= f) = Ok b -> exists a, r = Ok a /\ f a = Ok b.
Proof. destruct r; simpl; [eauto | discriminate]. Qed.

Lemma bind_eq_Err (r : result A) (f : A -> result B) m :
  (r ≫= f) = Err m -> r = Err m \/ exists a, r = Ok a /\ f a = Err m.
Proof. destruct r as [a|m']; simpl; [eauto | intros [= ->]; auto]. Qed.
End ResultLemmas.

#[export] Hint Rewrite @bind_Ok @bind_Err : sviz_rw.

(** Destructs hypotheses [r ≫= f = Ok b] into their two steps. *)
Ltac inv_bind :=
  repeat match goal with
  | H : (_ ≫= _) = Ok _ |- _ =>
      let a := fresh "a" in let Ha := fresh "Ha" in
      apply bind_eq_Ok in H as (a & Ha & H)
  | H : Ok _ = Ok _ |- _ => injection H as H; subst
  | H : Ok _ = Err _ |- _ => discriminate H
  | H : Err _ = Ok _ |- _ => discriminate H
  end.

(** ** Generic lemmas on [map_of_entries] *)

Section MapOfEntries.
Context {K V : Type} `{Countable K}.

Lemma foldl_insert_lookup_notin (l : list (K * V)) (m : gmap K V) k :
  k ∉ l.*1 ->
  foldl (fun m kv => <[kv.1 := kv.2]> m) m l !! k = m !! k.
Proof.
  revert m. induction l as [|[k' v'] l IH]; intros m Hk; simpl; [done|].
  rewrite IH; [|set_solver]. apply lookup_insert_ne. set_solver.
Qed.

Lemma foldl_insert_lookup_in (l : list (K * V)) (m1 m2 : gmap K V) k :
  k ∈ l.*1 ->
  foldl (fun m kv => <[kv.1 := kv.2]> m) m1 l !! k =
  foldl (fun m kv => <[kv.1 := kv.2]> m) m2 l !! k.
Proof.
  revert m1 m2. induction l as [|[k' v'] l IH]; intros m1 m2 Hk; simpl.
  - set_solver.
  - destruct (decide (k ∈ l.*1)) as [Hin|Hnin]; [by apply IH|].
    rewrite !foldl_insert_lookup_notin by done.
    assert (k = k') as -> by set_solver.
    by rewrite !lookup_insert_eq.
Qed.

Lemma foldl_insert_lookup_is_Some (l : list (K * V)) (m : gmap K V) k :
  k ∈ l.*1 -> is_Some (foldl (fun m kv => <[kv.1 := kv.2]> m) m l !! k).
Proof.
  revert m. induction l as [|[k' v'] l IH]; intros m Hk; simpl; [set_solver|].
  destruct (decide (k ∈ l.*1)) as [Hin|Hnin]; [by apply IH|].
  rewrite foldl_insert_lookup_notin by done.
  assert (k = k') as -> by set_solver. rewrite lookup_insert_eq. eauto.
Qed.

(** The later list wins: [new Map([...l1, ...l2])]. *)
Lemma map_of_entries_app_lookup (l1 l2 : list (K * V)) k :
  map_of_entries (l1 ++ l2) !! k =
  match map_of_entries l2 !! k with
  | Some v => Some v
  | None => map_of_entries l1 !! k
  end.
Proof.
  unfold map_of_entries. rewrite foldl_app.
  destruct (decide (k ∈ l2.*1)) as [Hin|Hnin].
  - rewrite (foldl_insert_lookup_in _ _ ∅ k Hin).
    destruct (foldl_insert_lookup_is_Some l2 ∅ k Hin) as [v ->]. done.
  - rewrite (foldl_insert_lookup_notin l2 (foldl _ ∅ l1)), (foldl_insert_lookup_notin l2 ∅) by done.
    by rewrite lookup_empty.
Qed.

Lemma foldl_insert_lookup_Some (l : list (K * V)) (m : gmap K V) k v :
  foldl (fun m kv => <[kv.1 := kv.2]> m) m l !! k = Some v ->
  (k, v) ∈ l \/ m !! k = Some v.
Proof.
  revert m. induction l as [|[k' v'] l IH]; intros m Hl; simpl in *; [auto|].
  destruct (IH _ Hl) as [Hin|Hm]; [left; set_solver|].
  rewrite lookup_insert in Hm. case_decide; simplify_eq; [left; set_solver|auto].
Qed.

Lemma map_of_entries_lookup_Some (l : list (K * V)) k v :
  map_of_entries l !! k = Some v -> (k, v) ∈ l.
Proof.
  intros Hl. apply foldl_insert_lookup_Some in Hl as [Hin|Hm]; [done|].
  by rewrite lookup_empty in Hm.
Qed.
End MapOfEntries.

(** ** Generic list lemmas *)

Lemma elem_of_filter_bool {A} (p : A -> bool) (l : list A) x :
  x ∈ List.filter p l <-> x ∈ l /\ p x = true.
Proof.
  rewrite !list_elem_of_In. apply filter_In.
Qed.

#[export] Hint Resolve bind_eq_Ok : sviz.

(** ** Sortedness and folds *)

From Stdlib Require Export Sorted.

Lemma StronglySorted_filter {A} (R : A -> A -> Prop) (p : A -> bool) (l : list A) :
  StronglySorted R l -> StronglySorted R (List.filter p l).
Proof.
  induction 1 as [|x l Hs IH Hall]; simpl; [constructor|].
  destruct (p x); [|done]. constructor; [done|].
  apply List.Forall_forall. intros y [Hy _]%filter_In.
  exact (proj1 (List.Forall_forall _ _) Hall y Hy).
Qed.

Lemma StronglySorted_map {A B} (R : A -> A -> Prop) (S : B -> B -> Prop) (f : A -> B)
    (l : list A) :
  (forall x y, R x y -> S (f x) (f y)) ->
  StronglySorted R l -> StronglySorted S (map f l).
Proof.
  intros HRS. induction 1 as [|x l Hs IH Hall]; simpl; constructor; [done|].
  apply List.Forall_forall. intros y (z & <- & Hz)%in_map_iff.
  apply HRS. exact (proj1 (List.Forall_forall _ _) Hall z Hz).
Qed.

Section ZFolds.
Local Open Scope Z_scope.

Lemma foldr_min_le {A} (f : A -> Z) (a : Z) (l : list A) :
foldr Z.min a (map f l) <= a /\ forall x, x ∈ l -> foldr Z.min a (map f l) <= f x.
Proof.
induction l as [|y l [IH1 IH2]]; simpl; [split; [lia|set_solver]|].
split; [lia|]. intros x [->|Hx]%elem_of_cons; [lia|]. specialize (IH2 x Hx). lia.
Qed.

Lemma foldr_max_ge {A} (f : A -> Z) (a : Z) (l : list A) :
a <= foldr Z.max a (map f l) /\ forall x, x ∈ l -> f x <= foldr Z.max a (map f l).
Proof.
induction l as [|y l [IH1 IH2]]; simpl; [split; [lia|set_solver]|].
split; [lia|]. intros x [->|Hx]%elem_of_cons; [lia|]. specialize (IH2 x Hx). lia.
Qed.

End ZFolds.

(** [new TextEncoder().encode(s)] for the ASCII strings of this
    development: one byte per character. *)
Definition textEncode (s : string) : list Z :=
  map (fun b => Z.of_N (Byte.to_N b)) (String.list_byte_of_string s).

(** A one-character string holding a double quote. *)
Definition dq : string := String.String (Ascii.ascii_of_nat 34) String.EmptyString.

(** Closes a goal about concrete values by evaluation. *)
Ltac concrete :=
  vm_compute; first [reflexivity | discriminate | (intros ?; discriminate) | lia | set_solver].

(** Case analysis on the [String.eqb] tests of a string switch: each test of
    the variable against a literal is split, substituting on success. *)
Ltac case_string_eqb :=
  repeat (cbn [orb andb negb] in *;
          match goal with
          | |- context [String.eqb ?a ?b] => is_var a; destruct (String.eqb_spec a b) as [->|?]
          end);
  cbn in *.
