(* ===== verification/JsObject.v ===== *)
(** * JsObject: plain JavaScript objects used as string-keyed maps

    [Object.entries], [Object.values] and [for ... of Object.entries(o)]
    visit the own properties of an object in insertion order (for the
    non-integer-like keys the sources use: layer instance ids); assigning
    an existing key keeps its position, a new key goes last, and [delete]
    removes the key.  This file models such an object as an association
    list with those operations and proves the lemmas the components share:
    lookups after set and delete, and that the keys stay duplicate-free. *)

From S2P Require Import Prelude.

Abbreviation JsObj V := (list (string * V)).

Section JsObject.
Context {V : Type}.

(** [o[k]] ([undefined] is [None]). *)
Fixpoint objGet (o : JsObj V) (k : string) : option V :=
  match o with
  | [] => None
  | (k', v) :: o' => if bool_decide (k = k') then Some v else objGet o' k
  end.

(** [o[k] = v]: in place when [k] is a key, appended otherwise. *)
Fixpoint objSet (o : JsObj V) (k : string) (v : V) : JsObj V :=
  match o with
  | [] => [(k, v)]
  | (k', v') :: o' => if bool_decide (k = k') then (k, v) :: o' else (k', v') :: objSet o' k v
  end.

(** [delete o[k]]. *)
Definition objDelete (o : JsObj V) (k : string) : JsObj V :=
  List.filter (fun kv => negb (bool_decide (kv.1 = k))) o.

Definition objKeys (o : JsObj V) : list string := o.*1.
Definition objValues (o : JsObj V) : list V := o.*2.

Lemma objGet_set_eq o k v : objGet (objSet o k v) k = Some v.
Proof.
  induction o as [|[k' v'] o IH]; simpl; [by rewrite bool_decide_true|].
  case_bool_decide; simpl; [by rewrite bool_decide_true|]. by rewrite bool_decide_false.
Qed.

Lemma objGet_set_ne o k k' v : k' ≠ k -> objGet (objSet o k v) k' = objGet o k'.
Proof.
  intros Hne. induction o as [|[k0 v0] o IH]; simpl.
  - by rewrite bool_decide_false.
  - case_bool_decide as E; simpl.
    + by rewrite !bool_decide_false by congruence.
    + by rewrite IH.
Qed.

Lemma objGet_delete_eq o k : objGet (objDelete o k) k = None.
Proof.
  induction o as [|[k' v'] o IH]; simpl; [done|].
  case_bool_decide; simpl; [done|]. by rewrite bool_decide_false.
Qed.

Lemma objGet_delete_ne o k k' : k' ≠ k -> objGet (objDelete o k) k' = objGet o k'.
Proof.
  intros Hne. induction o as [|[k0 v0] o IH]; simpl; [done|].
  case_bool_decide as E; simpl in *; subst.
  - rewrite IH. by rewrite bool_decide_false.
  - by rewrite IH.
Qed.

Lemma objGet_keys o k : is_Some (objGet o k) <-> k ∈ objKeys o.
Proof.
  unfold objKeys. induction o as [|[k' v'] o IH]; simpl.
  - split; [by intros []|set_solver].
  - rewrite elem_of_cons, <-IH. case_bool_decide as E; [subst; split; eauto|]. split; [by right|]. intros [->|?]; done.
Qed.

Lemma objGet_In o k v : objGet o k = Some v -> (k, v) ∈ o.
Proof.
  induction o as [|[k' v'] o IH]; simpl; [done|].
  case_bool_decide; [intros [= ->]; subst; left|intros; right; auto].
Qed.

Lemma objGet_elem_of o k v : NoDup (objKeys o) -> (k, v) ∈ o -> objGet o k = Some v.
Proof.
  unfold objKeys. induction o as [|[k' v'] o IH]; simpl; [set_solver|].
  intros [Hnin Hnd]%NoDup_cons [[= -> ->]|Hin]%elem_of_cons.
  - by rewrite bool_decide_true.
  - rewrite bool_decide_false; [by apply IH|].
    intros ->. apply Hnin. apply list_elem_of_fmap. by exists (k', v).
Qed.

Lemma objKeys_set o k v : objKeys (objSet o k v) ≡ₚ
  (if bool_decide (k ∈ objKeys o) then objKeys o else objKeys o ++ [k]).
Proof.
  unfold objKeys. induction o as [|[k' v'] o IH]; simpl; [done|].
  destruct (decide (k = k')) as [->|Hne].
  - rewrite bool_decide_true by done. simpl. by rewrite bool_decide_true by set_solver.
  - rewrite bool_decide_false by done. simpl. rewrite IH.
    destruct (decide (k ∈ o.*1)).
    + by rewrite !bool_decide_true by set_solver.
    + rewrite !bool_decide_false by set_solver. done.
Qed.

Lemma elem_of_objKeys_set o k v k' : k' ∈ objKeys (objSet o k v) <-> k' = k \/ k' ∈ objKeys o.
Proof. rewrite objKeys_set. case_bool_decide; set_solver. Qed.

Lemma objSet_NoDup o k v : NoDup (objKeys o) -> NoDup (objKeys (objSet o k v)).
Proof.
  rewrite objKeys_set. case_bool_decide; [done|].
  intros. apply NoDup_app. split_and!; [done| |apply NoDup_singleton]. set_solver.
Qed.

Lemma elem_of_objKeys_delete o k k' : k' ∈ objKeys (objDelete o k) <-> k' ≠ k /\ k' ∈ objKeys o.
Proof.
  unfold objKeys, objDelete. rewrite !list_elem_of_fmap.
  setoid_rewrite elem_of_filter_bool. split.
  - intros ([k0 v0] & -> & Hin & Hne). simpl in *. split; [|by exists (k0, v0)].
    intros ->. by rewrite bool_decide_true in Hne.
  - intros [Hne ([k0 v0] & -> & Hin)]. exists (k0, v0). simpl. by rewrite bool_decide_false.
Qed.

Lemma objDelete_NoDup o k : NoDup (objKeys o) -> NoDup (objKeys (objDelete o k)).
Proof.
  induction o as [|[k' v'] o IH]; [constructor|].
  unfold objKeys, objDelete in *; simpl.
  intros [Hnin Hnd]%NoDup_cons. destruct (negb _); simpl; [|by apply IH].
  constructor; [|by apply IH]. intros Hin. apply Hnin.
  apply (proj2 (proj1 (elem_of_objKeys_delete o k k') Hin)).
Qed.

Lemma objGet_set o k v k' :
  objGet (objSet o k v) k' = if bool_decide (k' = k) then Some v else objGet o k'.
Proof.
  case_bool_decide; subst; [apply objGet_set_eq|by apply objGet_set_ne].
Qed.

Lemma objGet_delete o k k' :
  objGet (objDelete o k) k' = if bool_decide (k' = k) then None else objGet o k'.
Proof.
  case_bool_decide; subst; [apply objGet_delete_eq|by apply objGet_delete_ne].
Qed.

Lemma objSet_objSet o k v v' : objSet (objSet o k v) k v' = objSet o k v'.
Proof.
  induction o as [|[k0 v0] o IH]; simpl; [by rewrite bool_decide_true|].
  case_bool_decide; simpl; [by rewrite bool_decide_true|]. rewrite bool_decide_false by done.
  by rewrite IH.
Qed.

Lemma objKeys_set_in o k v : k ∈ objKeys o -> objKeys (objSet o k v) = objKeys o.
Proof.
  unfold objKeys. induction o as [|[k0 v0] o IH]; simpl; [set_solver|].
  case_bool_decide; simpl; [by subst|]. intros Hk. f_equal. apply IH. set_solver.
Qed.

Lemma elem_of_objValues o v : v ∈ objValues o <-> exists k, (k, v) ∈ o.
Proof.
  unfold objValues. rewrite list_elem_of_fmap. split.
  - intros ([k v'] & -> & Hin). by exists k.
  - intros [k Hin]. by exists (k, v).
Qed.

Lemma NoDup_objValues_fmap {B} (f : V -> B) o :
  NoDup (objKeys o) ->
  (forall i j vi vj, objGet o i = Some vi -> objGet o j = Some vj -> f vi = f vj -> i = j) ->
  NoDup (f <$> objValues o).
Proof.
  intros Hnd Hinj.
  assert (Hm : forall i j vi vj, (i, vi) ∈ o -> (j, vj) ∈ o -> f vi = f vj -> i = j).
  { intros i j vi vj Hi Hj. apply Hinj; by apply objGet_elem_of. }
  clear Hinj. unfold objKeys, objValues in *.
  induction o as [|[k v] o IH]; simpl; [constructor|].
  apply NoDup_cons in Hnd as [Hnin Hnd]. constructor.
  - intros Hin. apply list_elem_of_fmap in Hin as (v' & Heq & Hv').
    apply list_elem_of_fmap in Hv' as ([k' v''] & -> & Hkv). simpl in *.
    assert (k = k') as ->.
    { apply (Hm k k' v v''); [by left|by right|done]. }
    apply Hnin. apply list_elem_of_fmap. by exists (k', v'').
  - apply IH; [done|]. intros i j vi vj Hi Hj. apply Hm; by right.
Qed.
End JsObject.
