(* ===== verification/I18nPreferences.v ===== *)
(** * I18nPreferences: the English strings of the preferences screen

    src/packages/studio-base/src/i18n/en/preferences.ts exports the object
    [preferences] that i18next serves as the English resource of the
    "preferences" namespace.  It is a plain JS object used as a map, so it
    is the association list [preferences] in the order of its literal.
    [translate] is i18next's [t] on one namespace (a library, modelled
    from its documented behaviour): the key's string when the resource has
    it, the key itself otherwise.  The lemmas show the table is a
    well-formed resource: its 39 keys are distinct, so every lookup is
    determined, and every string is non-empty and differs from its key,
    so a missing translation (which shows the raw key) is never mistaken
    for a present one. *)

From S2P Require Import Prelude JsObject.

(** Lines 5-45. *)
Definition preferences : JsObj string :=
  [("preferences", "Preferences");
   ("colorScheme", "Color scheme");
   ("dark", "Dark");
   ("light", "Light");
   ("followSystem", "Follow system");
   ("language", "Language");
   ("displayTimestampsIn", "Display timestamps in");
   ("timestampFormat", "Timestamp format");
   ("messageRate", "Message rate");
   ("openLinksIn", "Open links in");
   ("webApp", "Web app");
   ("desktopApp", "Desktop app");
   ("askEachTime", "Ask each time");
   ("general", "General");
   ("ros", "ROS");
   ("privacy", "Privacy");
   ("privacyDescription", "Changes will take effect the next time sviz is launched.");
   ("extensions", "Extensions");
   ("about", "About");
   ("sendAnonymizedUsageData", "Send anonymized usage data to help us improve sviz");
   ("sendAnonymizedCrashReports", "Send anonymized crash reports");
   ("experimentalFeatures", "Experimental features");
   ("experimentalFeaturesDescription", "These features are unstable and not recommended for daily use.");
   ("noExperimentalFeatures", "Currently there are no experimental features.");
   ("studioDebugPanels", "Studio debug panels");
   ("studioDebugPanelsDescription", "Show sviz debug panels in the “Add panel” list.");
   ("legacyPlotPanel", "Legacy Plot panel");
   ("legacyPlotPanelDescription", "Enable the Legacy Plot panel.");
   ("memoryUseIndicator", "Memory use indicator");
   ("memoryUseIndicatorDescription", "Show the app memory use in the sidebar.");
   ("newNavigation", "New navigation");
   ("newNavigationDescription", "New top navigation bar.");
   ("restartTheAppForChangesToTakeEffect", " Restart the app for changes to take effect.");
   ("ros2NativeConnection", "ROS 2 native connection");
   ("ros2NativeConnectionDescription", "Enable the deprecated ROS 2 native connector.");
   ("layoutDebugging", "Layout debugging");
   ("layoutDebuggingDescription", "Show extra controls for developing and debugging layout storage.");
   ("newImagePanel", "New Image panel");
   ("newImagePanelDescription", "Enable the experimental Image panel.")].

(** i18next's [t(key)] on a single resource. *)
Definition translate (resource : JsObj string) (key : string) : string :=
  default key (objGet resource key).

Lemma preferences_keys_NoDup : NoDup (objKeys preferences).
Proof. apply (bool_decide_unpack _). vm_compute. reflexivity. Qed.

Lemma preferences_length : length preferences = 39%nat.
Proof. reflexivity. Qed.

(** Every string of the table is non-empty and differs from its key. *)
Lemma preferences_values_wf :
  Forall (fun kv => kv.2 <> String.EmptyString /\ kv.2 <> kv.1) preferences.
Proof. apply Forall_forall. intros kv Hin. repeat (apply elem_of_cons in Hin as [->|Hin]; [split; discriminate|]). by apply elem_of_nil in Hin. Qed.

(** [translate] returns the table's string exactly for the keys it has. *)
Lemma translate_preferences k :
  k ∈ objKeys preferences -> exists v, (k, v) ∈ preferences /\ translate preferences k = v /\ v <> k.
Proof.
  intros Hk. apply objGet_keys in Hk as [v Hv]. exists v.
  pose proof (objGet_In _ _ _ Hv) as Hin. split_and!; [done|by unfold translate; rewrite Hv|].
  pose proof (proj1 (Forall_forall _ _) preferences_values_wf _ Hin) as [_ Hne]. done.
Qed.

Lemma translate_missing k : k ∉ objKeys preferences -> translate preferences k = k.
Proof.
  intros Hk. unfold translate. destruct (objGet preferences k) eqn:Hv; [|done].
  exfalso. apply Hk, objGet_keys. by eexists.
Qed.

Example translate_restart :
  translate preferences "restartTheAppForChangesToTakeEffect" = " Restart the app for changes to take effect.".
Proof. reflexivity. Qed.
