(* ===== verification/RosTime.v ===== *)
(** * RosTime: [Time] of [@foxglove/rostime]

    [Time = {sec; nsec}] with the library's [fixTime], [add],
    [toNanoSec], [fromNanoSec] and [toMicroSec], which
    RosDb3IterableSource.ts (line 146: [addTime(end, {sec: 0, nsec: 1})])
    and decodeImage.ts (line 68: [toMicroSec(frameMsg.timestamp)]) call.
    The library is not under src/; its functions are modelled from their
    documented behaviour: [fixTime] carries whole seconds out of [nsec]
    with a floor division and throws on a negative result; [toMicroSec]
    computes [(sec * 1e9 + nsec) / 1000] in binary64 floating point,
    modelled by [roundDouble], round to nearest even, on each operation. *)

From S2P Require Import Prelude.
From Stdlib Require Import QArith Qcanon.

Local Open Scope Z_scope.

Record Time := mkTime { sec : Z; nsec : Z }.

Definition NSEC_PER_SEC : Z := 1000000000.

(** A normalised time, as every time the library returns is. *)
Definition normalized (t : Time) : Prop := 0 <= nsec t < NSEC_PER_SEC.

(** [fixTime(t)] (allowNegative = false). *)
Definition fixTime (t : Time) : result Time :=
  let newSecs := sec t + nsec t / NSEC_PER_SEC in
  let newNanos := nsec t mod NSEC_PER_SEC in
  if newSecs <? 0 then Err "Cannot normalize invalid time"%string
  else Ok (mkTime newSecs newNanos).

(** [add(a, b)]. *)
Definition add (t1 t2 : Time) : result Time :=
  fixTime (mkTime (sec t1 + sec t2) (nsec t1 + nsec t2)).

(** [toNanoSec(t)] = [BigInt(sec) * 1e9n + BigInt(nsec)]. *)
Definition toNanoSec (t : Time) : Z := sec t * NSEC_PER_SEC + nsec t.

(** [fromNanoSec(ns)] with BigInt (truncating) division. *)
Definition fromNanoSec (ns : Z) : Time :=
  mkTime (Z.quot ns NSEC_PER_SEC) (Z.rem ns NSEC_PER_SEC).

(** ** JavaScript numbers

    A [number] is an IEEE 754 binary64 value: the exact result of each
    arithmetic operation is rounded to the nearest value [m * 2^e] with
    [|m| < 2^53], ties to the even [m].  [roundDouble q] is that value,
    as a rational; the exponent is found from the bit lengths of the
    numerator and denominator, and bounded below by the subnormal exponent
    [-1074].  Results of magnitude [2^1024] and beyond (infinities) do not
    occur in the computations modelled. *)

(** [m * 2^e] as a rational. *)
Definition scale2 (m e : Z) : Q :=
  if 0 <=? e then inject_Z (m * 2 ^ e) else Qmake m (Z.to_pos (2 ^ (- e))).

(** The numerator and denominator of [a / d / 2^e]. *)
Definition shiftDown (a d e : Z) : Z * Z :=
  if 0 <=? e then (a, d * 2 ^ e) else (a * 2 ^ (- e), d).

(** Round half to even of [x / y] ([y > 0]). *)
Definition roundHalfEven (x y : Z) : Z :=
  let m := x / y in let r := x mod y in
  if 2 * r <? y then m else if y <? 2 * r then m + 1 else if Z.even m then m else m + 1.

Definition roundDouble (q : Q) : Q :=
  let q := Qred q in
  let n := Qnum q in
  let d := Zpos (Qden q) in
  if n =? 0 then 0 else
  let a := Z.abs n in
  let e0 := Z.max (Z.log2 a - Z.log2 d - 52) (-1074) in
  let e := if (let '(x, y) := shiftDown a d e0 in x / y <? 2 ^ 52) && (-1074 <? e0) then e0 - 1 else e0 in
  let '(x, y) := shiftDown a d e in
  Qred (scale2 (Z.sgn n * roundHalfEven x y) e).

(** [Number(n)] of a BigInt. *)
Definition numberOfBigInt (n : Z) : Q := roundDouble (inject_Z n).

(** [toMicroSec(t)] = [(sec * 1e9 + nsec) / 1000] in [number]s: the
    product, the sum and the quotient are each rounded. *)
Definition toMicroSec (t : Time) : Q :=
  roundDouble (roundDouble (roundDouble (inject_Z (sec t) * inject_Z NSEC_PER_SEC) + inject_Z (nsec t))
               / inject_Z 1000).

Definition one_nsec : Time := mkTime 0 1.

(** ** Lemmas *)

Lemma fixTime_spec t t' :
  fixTime t = Ok t' -> toNanoSec t' = toNanoSec t /\ normalized t' /\ 0 <= sec t'.
Proof.
  unfold fixTime, toNanoSec, normalized, NSEC_PER_SEC.
  destruct (Z.ltb_spec (sec t + nsec t / 1000000000) 0); [discriminate|].
  intros [= <-]; simpl.
  pose proof (Z.div_mod (nsec t) 1000000000).
  pose proof (Z.mod_pos_bound (nsec t) 1000000000). lia.
Qed.

Lemma fixTime_ok_iff t : is_ok (fixTime t) = true <-> 0 <= toNanoSec t.
Proof.
  unfold fixTime, toNanoSec, NSEC_PER_SEC.
  pose proof (Z.div_mod (nsec t) 1000000000).
  pose proof (Z.mod_pos_bound (nsec t) 1000000000).
  destruct (Z.ltb_spec (sec t + nsec t / 1000000000) 0); simpl;
    split; intros; try discriminate; try reflexivity; lia.
Qed.

Lemma add_toNanoSec t1 t2 t :
  add t1 t2 = Ok t -> toNanoSec t = toNanoSec t1 + toNanoSec t2.
Proof.
  unfold add. intros H. apply fixTime_spec in H as [-> _].
  unfold toNanoSec; simpl. lia.
Qed.

Lemma add_ok t1 t2 :
  0 <= toNanoSec t1 + toNanoSec t2 -> exists t, add t1 t2 = Ok t.
Proof.
  unfold add. intros H.
  assert (Hok : is_ok (fixTime (mkTime (sec t1 + sec t2) (nsec t1 + nsec t2))) = true).
  { apply fixTime_ok_iff. unfold toNanoSec in *; simpl. lia. }
  destruct (fixTime _); [eauto | discriminate].
Qed.

Lemma toNanoSec_fromNanoSec ns : toNanoSec (fromNanoSec ns) = ns.
Proof.
  unfold toNanoSec, fromNanoSec, NSEC_PER_SEC; simpl.
  pose proof (Z.quot_rem' ns 1000000000). lia.
Qed.

(** A normalised time with non-negative seconds survives the trip
    through its nanosecond count ([fromNanoSec (toNanoSec t) = t]). *)
Lemma fromNanoSec_toNanoSec t :
  normalized t -> 0 <= sec t -> fromNanoSec (toNanoSec t) = t.
Proof.
  unfold normalized, fromNanoSec, toNanoSec, NSEC_PER_SEC. intros Hn Hs.
  destruct t as [s n]; simpl in *.
  rewrite Z.quot_div_nonneg, Z.rem_mod_nonneg by lia.
  f_equal.
  - rewrite Z.add_comm, Z.div_add by lia. rewrite Z.div_small by lia. lia.
  - rewrite Z.add_comm, Z.mod_add by lia. apply Z.mod_small. lia.
Qed.

Lemma fromNanoSec_normalized ns : 0 <= ns -> normalized (fromNanoSec ns).
Proof.
  unfold normalized, fromNanoSec, NSEC_PER_SEC; simpl. intros.
  rewrite Z.rem_mod_nonneg by lia. apply Z.mod_pos_bound. lia.
Qed.

#[export] Hint Resolve fixTime_spec add_toNanoSec toNanoSec_fromNanoSec : sviz.

Lemma toNanoSec_one_nsec : toNanoSec one_nsec = 1.
Proof. reflexivity. Qed.

(** Adding [one_nsec] moves the nanosecond count by exactly one. *)
Lemma add_one_nsec_toNanoSec e c : add e one_nsec = Ok c -> toNanoSec c = toNanoSec e + 1.
Proof. intros Hc. rewrite (add_toNanoSec _ _ _ Hc). by rewrite toNanoSec_one_nsec. Qed.

#[export] Hint Rewrite toNanoSec_one_nsec toNanoSec_fromNanoSec : sviz_rw.

(** Claim C5: adding one nanosecond to an end time succeeds exactly when
    the end time is at least -1 ns, and then the exclusive bound
    [ts < end + 1ns] is the inclusive bound [ts <= end] on integer
    nanosecond timestamps. *)
Theorem inclusive_end_exact e :
  (is_ok (add e one_nsec) = true <-> -1 <= toNanoSec e) /\
  forall c, add e one_nsec = Ok c -> forall ts, ts < toNanoSec c <-> ts <= toNanoSec e.
Proof.
  split.
  - unfold add. rewrite fixTime_ok_iff. unfold toNanoSec; simpl. lia.
  - intros c Hc ts. rewrite (add_one_nsec_toNanoSec _ _ Hc). lia.
Qed.


(** ** Exact [number] arithmetic on integers below 2^53 *)

Lemma Qred_inject_Z z : Qred (inject_Z z) = inject_Z z.
Proof. apply Qred_identity. simpl. apply Z.gcd_1_r. Qed.

(** Rounding depends on the value only. *)
Lemma roundDouble_Qeq x y : (x == y)%Q -> roundDouble x = roundDouble y.
Proof. intros H. unfold roundDouble. by rewrite (Qred_complete x y H). Qed.

Lemma roundHalfEven_1 x : roundHalfEven x 1 = x.
Proof. unfold roundHalfEven. by rewrite Z.div_1_r, Z.mod_1_r. Qed.

Lemma shiftDown_int a e : e <= 0 -> shiftDown a 1 e = (a * 2 ^ (- e), 1).
Proof.
  intros He. unfold shiftDown. destruct (Z.leb_spec 0 e); [|done].
  assert (e = 0) as -> by lia. simpl. f_equal; lia.
Qed.

Lemma scale2_int m e : e <= 0 -> (scale2 (m * 2 ^ (- e)) e == inject_Z m)%Q.
Proof.
  intros He. unfold scale2. destruct (Z.leb_spec 0 e).
  - assert (e = 0) as -> by lia. simpl. by rewrite !Z.mul_1_r.
  - unfold Qeq, inject_Z. simpl. rewrite Z2Pos.id by (apply Z.pow_pos_nonneg; lia). lia.
Qed.

(** An integer of magnitude below 2^53 is a [number]: rounding keeps it. *)
Lemma roundDouble_Z z : Z.abs z < 2 ^ 53 -> roundDouble (inject_Z z) = inject_Z z.
Proof.
  intros Hz. unfold roundDouble. rewrite Qred_inject_Z. cbn [Qnum Qden inject_Z].
  destruct (Z.eqb_spec z 0) as [->|Hnz]; [reflexivity|].
  assert (Ha : 0 < Z.abs z) by lia.
  pose proof (Z.log2_spec _ Ha) as [HL _]. pose proof (Z.log2_nonneg (Z.abs z)).
  assert (HL52 : Z.log2 (Z.abs z) < 53) by (apply Z.log2_lt_pow2; lia).
  set (L := Z.log2 (Z.abs z)) in *. change (Z.log2 1) with 0.
  rewrite Z.sub_0_r, Z.max_l by lia. rewrite (shiftDown_int (Z.abs z) (L - 52)) by lia.
  assert (Hp : 2 ^ L * 2 ^ (- (L - 52)) = 2 ^ 52) by (rewrite <- Z.pow_add_r by lia; f_equal; lia).
  assert (H52 : 2 ^ 52 <= Z.abs z * 2 ^ (- (L - 52))) by (pose proof (Z.pow_nonneg 2 (- (L - 52))); nia).
  rewrite Z.div_1_r, (proj2 (Z.ltb_ge _ _) H52). cbn [andb].
  rewrite shiftDown_int by lia. rewrite roundHalfEven_1.
  rewrite Z.mul_assoc, (Z.mul_comm (Z.sgn z)), Z.abs_sgn.
  rewrite (Qred_complete _ _ (scale2_int z (L - 52) ltac:(lia))). apply Qred_inject_Z.
Qed.

Lemma numberOfBigInt_Z z : Z.abs z < 2 ^ 53 -> numberOfBigInt z = inject_Z z.
Proof. apply roundDouble_Z. Qed.

(** [toMicroSec] is exact for a whole number of microseconds below 2^53
    nanoseconds. *)
Lemma toMicroSec_exact t :
  0 <= sec t -> 0 <= nsec t -> toNanoSec t < 2 ^ 53 -> toNanoSec t mod 1000 = 0 ->
  toMicroSec t = inject_Z (toNanoSec t / 1000).
Proof.
  unfold toMicroSec, toNanoSec, NSEC_PER_SEC. intros Hs Hn Hlt Hm.
  rewrite (roundDouble_Qeq (inject_Z (sec t) * inject_Z 1000000000) (inject_Z (sec t * 1000000000)))
    by (rewrite inject_Z_mult; reflexivity).
  rewrite roundDouble_Z by lia.
  rewrite (roundDouble_Qeq (inject_Z (sec t * 1000000000) + inject_Z (nsec t))
             (inject_Z (sec t * 1000000000 + nsec t))) by (rewrite inject_Z_plus; reflexivity).
  rewrite roundDouble_Z by lia.
  set (T := sec t * 1000000000 + nsec t) in *.
  rewrite (roundDouble_Qeq (inject_Z T / inject_Z 1000) (inject_Z (T / 1000))).
  - apply roundDouble_Z. pose proof (Z.div_pos T 1000).
    assert (T / 1000 < 2 ^ 53) by (apply Z.div_lt_upper_bound; lia). lia.
  - unfold Qeq, Qdiv, Qmult, Qinv, inject_Z. simpl. pose proof (Z.div_mod T 1000). lia.
Qed.

Example exRound :
  roundDouble (inject_Z (2 ^ 53 + 1)) = inject_Z (2 ^ 53) /\
  roundDouble (inject_Z (2 ^ 53 + 3)) = inject_Z (2 ^ 53 + 4) /\
  roundDouble (1 # 10) = 3602879701896397 # 36028797018963968 /\
  roundDouble (inject_Z 12345) = inject_Z 12345 /\
  toMicroSec (mkTime 1700000000 16000) = 6800000000000063 # 4 /\
  toMicroSec (mkTime 1700000000 100) = inject_Z 1700000000000000.
Proof. vm_compute. split_and!; reflexivity. Qed.
