(* ===== verification/SchemaResolver.v ===== *)
(** * SchemaResolver: the sub-type closure built by [initialize]

    Models lines 81-109 of
    src/packages/studio-base/src/players/IterablePlayer/rosdb3/RosDb3IterableSource.ts:
    for a topic whose datatype is a well-known ROS 2 type, the source walks
    the complex fields breadth-first ([typesToProcess] is a FIFO queue,
    [typesForMessage] an insertion-ordered [Map]) and throws when a
    referenced sub-type is missing from the registry.  The [while] loop is
    [resolveLoop] with fuel; [typesForMessage] runs it with fuel
    [S (size datatypes)], which the theorems show is always enough.
    The message-definition records and [stringify] belong to the
    [@foxglove/message-definition] and [@foxglove/rosmsg] libraries and are
    modelled from their documented shape. *)

From S2P Require Import Prelude.
From stdpp Require Import pretty.
From Stdlib Require Import Ascii.

(** ** Data: [MessageDefinitionField] and [MessageDefinition] *)

Record MessageDefinitionField := mkField {
  fd_type : string;
  fd_name : string;
  fd_isComplex : option bool;
  fd_isArray : option bool;
  fd_arrayLength : option nat;
  fd_isConstant : option bool;
  fd_valueText : option string;
}.

Record MessageDefinition := mkMsgDef {
  md_name : option string;
  md_definitions : list MessageDefinitionField;
}.

(** [RosDatatypes = Map<string, MessageDefinition>]; [typesForMessage] is
    kept as its entry list, because [stringify] reads it in insertion
    order. *)
Abbreviation RosDatatypes := (gmap string MessageDefinition).
Abbreviation TypeEntries := (list (string * MessageDefinition)).

(** [typesForMessage.has(type)] *)
Definition has (acc : TypeEntries) (k : string) : bool := bool_decide (k ∈ acc.*1).

(** [isComplex === true] *)
Definition isComplexTrue (f : MessageDefinitionField) : bool :=
  match fd_isComplex f with Some true => true | _ => false end.

(** The message of line 99; a template literal prints a missing name as
    "undefined". *)
Definition subtypeNotFound (type : string) (rosType : MessageDefinition) : string :=
  "invariant: Subtype " +:+ type +:+ " of type " +:+
  default "undefined" (md_name rosType) +:+ " not found.".

(** The inner [for] loop of lines 94-104 over [rosType.definitions]. *)
Fixpoint visitFields (datatypes : RosDatatypes) (rosType : MessageDefinition)
    (fields : list MessageDefinitionField) (queue : list MessageDefinition)
    (acc : TypeEntries) : result (list MessageDefinition * TypeEntries) :=
  match fields with
  | [] => Ok (queue, acc)
  | f :: fs =>
      if isComplexTrue f && negb (has acc (fd_type f)) then
        match datatypes !! fd_type f with
        | None => Err (subtypeNotFound (fd_type f) rosType)
        | Some newComplexType =>
            visitFields datatypes rosType fs (queue ++ [newComplexType])
              (acc ++ [(fd_type f, newComplexType)])
        end
      else visitFields datatypes rosType fs queue acc
  end.

(** The [while (typesToProcess.length > 0)] loop of lines 92-105; [None]
    means the fuel ran out. *)
Fixpoint resolveLoop (fuel : nat) (datatypes : RosDatatypes)
    (queue : list MessageDefinition) (acc : TypeEntries) : option (result TypeEntries) :=
  match queue with
  | [] => Some (Ok acc)
  | rosType :: rest =>
      match fuel with
      | O => None
      | S fuel' =>
          match visitFields datatypes rosType (md_definitions rosType) rest acc with
          | Err m => Some (Err m)
          | Ok (queue', acc') => resolveLoop fuel' datatypes queue' acc'
          end
      end
  end.

(** Lines 90-105: the closure of [parsedMsgdef], starting from
    [typesToProcess = [parsedMsgdef]] and an empty [typesForMessage]. *)
Definition resolveFuel (datatypes : RosDatatypes) : nat := S (size datatypes).

Definition typesForMessage (datatypes : RosDatatypes) (parsedMsgdef : MessageDefinition)
    : result TypeEntries :=
  match resolveLoop (resolveFuel datatypes) datatypes [parsedMsgdef] [] with
  | Some r => r
  | None => Err "resolveLoop: out of fuel"
  end.

(** ** [stringify] of [@foxglove/rosmsg] (reduced: no bounds or defaults) *)

Definition stringifyField (def : MessageDefinitionField) : string :=
  let arrayLength := match fd_arrayLength def with Some n => pretty n | None => "" end in
  let array := match fd_isArray def with Some true => "[" +:+ arrayLength +:+ "]" | _ => "" end in
  fd_type def +:+ array +:+ " " +:+ fd_name def +:+ "
".

Definition isConstantTrue (f : MessageDefinitionField) : bool :=
  match fd_isConstant f with Some true => true | _ => false end.

Definition stringifyDef (first : bool) (out : string) (msgDef : MessageDefinition) : string :=
  let constants := List.filter isConstantTrue (md_definitions msgDef) in
  let variables := List.filter (fun f => negb (isConstantTrue f)) (md_definitions msgDef) in
  let out := if first then out else
    out +:+ "
================================================================================
" +:+
    "MSG: " +:+ default "" (md_name msgDef) +:+ "
" in
  let out := foldl (fun o c => o +:+ fd_type c +:+ " " +:+ fd_name c +:+ " = " +:+
                                  default "" (fd_valueText c) +:+ "
") out constants in
  match variables with
  | [] => out
  | _ => foldl (fun o v => o +:+ stringifyField v)
           (if String.eqb out "" then out else out +:+ "
") variables
  end.

Definition isSpace (c : Ascii.ascii) : bool :=
  match c with
  | " "%char | "010"%char | "013"%char | "009"%char => true
  | _ => false
  end.

Fixpoint dropWhile (p : Ascii.ascii -> bool) (l : list Ascii.ascii) : list Ascii.ascii :=
  match l with
  | c :: l' => if p c then dropWhile p l' else l
  | [] => []
  end.

(** [String.prototype.trimEnd] *)
Definition trimEnd (s : string) : string :=
  String.string_of_list_ascii
    (rev (dropWhile isSpace (rev (String.list_ascii_of_string s)))).

(** [stringify(msgDefs)]: the first definition is printed without a
    header, every later one after a separator and an [MSG:] line. *)
Definition stringify (msgDefs : list MessageDefinition) : string :=
  trimEnd (snd (foldl (fun '(first, out) d => (false, stringifyDef first out d))
                      (true, ""%string) msgDefs)).

(** ** Concrete registry used by the examples *)

Definition primField (ty nm : string) : MessageDefinitionField :=
  mkField ty nm (Some false) (Some false) None None None.
Definition complexField (ty nm : string) : MessageDefinitionField :=
  mkField ty nm (Some true) (Some false) None None None.

Definition ex_Time := mkMsgDef (Some "builtin_interfaces/Time")
  [primField "int32" "sec"; primField "uint32" "nanosec"].
Definition ex_Header := mkMsgDef (Some "std_msgs/Header")
  [complexField "builtin_interfaces/Time" "stamp"; primField "string" "frame_id"].
Definition ex_Point := mkMsgDef (Some "geometry_msgs/Point")
  [primField "float64" "x"; primField "float64" "y"; primField "float64" "z"].
Definition ex_PointStamped := mkMsgDef (Some "geometry_msgs/PointStamped")
  [complexField "std_msgs/Header" "header"; complexField "geometry_msgs/Point" "point"].
Definition ex_Broken := mkMsgDef (Some "custom/Broken")
  [complexField "custom/Missing" "m"].

Definition ex_entries : TypeEntries :=
  [("builtin_interfaces/Time", ex_Time); ("std_msgs/Header", ex_Header);
   ("geometry_msgs/Point", ex_Point); ("geometry_msgs/PointStamped", ex_PointStamped);
   ("custom/Broken", ex_Broken)].

Definition ex_datatypes : RosDatatypes := map_of_entries ex_entries.

Example typesForMessage_PointStamped :
  typesForMessage ex_datatypes ex_PointStamped =
  Ok [("std_msgs/Header", ex_Header); ("geometry_msgs/Point", ex_Point);
      ("builtin_interfaces/Time", ex_Time)].
Proof. vm_compute. reflexivity. Qed.

Example typesForMessage_Broken :
  typesForMessage ex_datatypes ex_Broken =
  Err "invariant: Subtype custom/Missing of type custom/Broken not found.".
Proof. vm_compute. reflexivity. Qed.

Example stringify_Header :
  stringify [ex_Header; ex_Time] =
  "builtin_interfaces/Time stamp
string frame_id

================================================================================
MSG: builtin_interfaces/Time

int32 sec
uint32 nanosec".
Proof. vm_compute. reflexivity. Qed.

(** ** Theory of the closure *)

Section Closure.
Context (datatypes : RosDatatypes).

(** Every entry of [typesForMessage] is the registry's definition. *)
Definition sound (acc : TypeEntries) : Prop :=
  forall k d, (k, d) ∈ acc -> datatypes !! k = Some d.

Definition wf_acc (acc : TypeEntries) : Prop := NoDup acc.*1 /\ sound acc.

(** All complex fields of [d] are already in [acc]. *)
Definition closedIn (acc : TypeEntries) (d : MessageDefinition) : Prop :=
  forall f, f ∈ md_definitions d -> isComplexTrue f = true -> fd_type f ∈ acc.*1.

(** The types reachable from [root] through complex fields resolved in
    the registry. *)
Inductive reachable (root : MessageDefinition) : MessageDefinition -> Prop :=
| reachable_root : reachable root root
| reachable_step d f d' :
    reachable root d -> f ∈ md_definitions d -> isComplexTrue f = true ->
    datatypes !! fd_type f = Some d' -> reachable root d'.

(** A key that some reachable type names in a complex field. *)
Definition referenced (root : MessageDefinition) (k : string) : Prop :=
  exists d0 f, reachable root d0 /\ f ∈ md_definitions d0 /\
               isComplexTrue f = true /\ fd_type f = k.

Lemma has_spec acc k : has acc k = true <-> k ∈ acc.*1.
Proof. unfold has. apply bool_decide_eq_true. Qed.

Lemma visitFields_Ok r fields q acc q' acc' :
  visitFields datatypes r fields q acc = Ok (q', acc') ->
  exists new, q' = q ++ new.*2 /\ acc' = acc ++ new /\
    (wf_acc acc -> wf_acc acc') /\
    (forall f, f ∈ fields -> isComplexTrue f = true -> fd_type f ∈ acc'.*1) /\
    (forall k d, (k, d) ∈ new -> exists f, f ∈ fields /\ isComplexTrue f = true /\ fd_type f = k).
Proof.
  revert q acc. induction fields as [|f fs IH]; intros q acc; simpl.
  - intros [= <- <-]. exists []. rewrite !app_nil_r. set_solver.
  - destruct (isComplexTrue f && negb (has acc (fd_type f))) eqn:Hc.
    + apply andb_true_iff in Hc as [Hc Hn]. apply negb_true_iff in Hn.
      destruct (datatypes !! fd_type f) as [d|] eqn:Hd; [|discriminate].
      intros Hv. destruct (IH _ _ Hv) as (new & Hq & Hacc & Hwf & Hcl & Hnew). subst q' acc'.
      rewrite <- !app_assoc in *.
      exists ((fd_type f, d) :: new). split_and!; [done|done|..].
      * intros [Hnd Hs]. apply Hwf. split.
        -- rewrite fmap_app, NoDup_app. split_and!; [done| |simpl; apply NoDup_singleton].
           intros x Hx ->%list_elem_of_singleton. apply not_true_iff_false in Hn.
           apply Hn, has_spec. done.
        -- intros k d'. rewrite elem_of_app, list_elem_of_singleton.
           intros [Hin|[= -> ->]]; [by apply Hs|done].
      * intros g [->|Hg]%elem_of_cons Hg'; [|by apply Hcl].
        rewrite !fmap_app. set_solver.
      * intros k d'. rewrite elem_of_cons. intros [[= -> ->]|Hin]; [exists f; set_solver|].
        destruct (Hnew k d' Hin) as (g & ? & ? & ?). exists g. set_solver.
    + intros Hv. destruct (IH _ _ Hv) as (new & Hq & Hacc & Hwf & Hcl & Hnew). subst q' acc'.
      exists new. split_and!; auto.
      * intros g [->|Hg]%elem_of_cons Hg'; [|by apply Hcl].
        rewrite Hg' in Hc. simpl in Hc. apply negb_false_iff, has_spec in Hc.
        rewrite fmap_app. set_solver.
      * intros k d' Hin. destruct (Hnew k d' Hin) as (g & ? & ? & ?). exists g. set_solver.
Qed.

Lemma visitFields_Err r fields q acc m :
  visitFields datatypes r fields q acc = Err m ->
  exists f, f ∈ fields /\ isComplexTrue f = true /\ datatypes !! fd_type f = None /\
            m = subtypeNotFound (fd_type f) r.
Proof.
  revert q acc. induction fields as [|f fs IH]; intros q acc; simpl; [discriminate|].
  destruct (isComplexTrue f && negb (has acc (fd_type f))) eqn:Hc.
  - apply andb_true_iff in Hc as [Hc _].
    destruct (datatypes !! fd_type f) eqn:Hd.
    + intros (g & ? & ? & ? & ?)%IH. exists g. set_solver.
    + intros [= <-]. exists f. set_solver.
  - intros (g & ? & ? & ? & ?)%IH. exists g. set_solver.
Qed.

Lemma wf_acc_length acc : wf_acc acc -> length acc <= size datatypes.
Proof.
  intros [Hnd Hs].
  transitivity (size (list_to_set (C:=gset string) acc.*1)).
  { rewrite size_list_to_set by done. by rewrite length_fmap. }
  rewrite <- size_dom. apply subseteq_size.
  intros k [[k' d] [-> Hin]]%elem_of_list_to_set%list_elem_of_fmap.
  apply elem_of_dom. exists d. by apply Hs.
Qed.

(** The worklist loop returns within [length q + (size datatypes - length acc)]
    iterations: each pass pops one type and pushes only types not yet
    in [acc], each of which grows [acc]. *)
Lemma resolveLoop_total fuel q acc :
  wf_acc acc -> length q + (size datatypes - length acc) <= fuel ->
  is_Some (resolveLoop fuel datatypes q acc).
Proof.
  revert q acc. induction fuel as [|fuel IH]; intros [|r rest] acc Hwf Hle; simpl; eauto.
  - simpl in Hle. lia.
  - destruct (visitFields _ _ _ _ _) as [[q' acc']|m] eqn:Hv; [|eauto].
    apply visitFields_Ok in Hv as (new & -> & -> & Hwf' & _).
    specialize (Hwf' Hwf). pose proof (wf_acc_length _ Hwf').
    apply IH; [done|]. rewrite length_app, length_fmap in *.
    rewrite length_app in *. simpl in Hle. lia.
Qed.

(** The loop invariant: the entries are sound and distinct; every type
    met so far is either still queued or has all its complex fields in
    [acc]; queued types are reachable; every key is referenced. *)
Definition loopInv (root : MessageDefinition) (q : list MessageDefinition)
    (acc : TypeEntries) : Prop :=
  wf_acc acc /\
  (forall d, d ∈ root :: acc.*2 -> d ∈ q \/ closedIn acc d) /\
  (forall d, d ∈ q -> reachable root d) /\
  (forall k d, (k, d) ∈ acc -> referenced root k).

Lemma loopInv_init root : loopInv root [root] [].
Proof.
  split_and!.
  - split; [constructor|]. intros k d Hin. set_solver.
  - intros d Hd. left. set_solver.
  - intros d ->%list_elem_of_singleton. constructor.
  - intros k d Hin. set_solver.
Qed.

Lemma loopInv_step root r rest acc q' acc' :
  loopInv root (r :: rest) acc ->
  visitFields datatypes r (md_definitions r) rest acc = Ok (q', acc') ->
  loopInv root q' acc'.
Proof.
  intros (Hwf & Hcl & Hreach & Href) Hv.
  apply visitFields_Ok in Hv as (new & -> & -> & Hwf' & Hclr & Hnew).
  specialize (Hwf' Hwf). destruct Hwf' as [Hnd Hs].
  assert (Hr : reachable root r) by (apply Hreach; set_solver).
  split_and!; [by split| | |].
  - intros d Hd. rewrite fmap_app in Hd.
    assert (d ∈ root :: acc.*2 \/ d ∈ new.*2) as [Hold|Hnew'] by set_solver.
    + destruct (Hcl d Hold) as [[->|Hq]%elem_of_cons|Hc].
      * right. exact Hclr.
      * left. set_solver.
      * right. intros f Hf Hcf. rewrite fmap_app. specialize (Hc f Hf Hcf). set_solver.
    + left. set_solver.
  - intros d [Hq|Hn]%elem_of_app; [apply Hreach; set_solver|].
    apply list_elem_of_fmap in Hn as [[k d'] [-> Hkd]].
    destruct (Hnew k d' Hkd) as (f & Hf & Hcf & <-).
    eapply reachable_step; [exact Hr|exact Hf|exact Hcf|].
    apply Hs. set_solver.
  - intros k d [Hin|Hin]%elem_of_app; [by eapply Href|].
    destruct (Hnew k d Hin) as (f & ? & ? & ?). exists r, f. auto.
Qed.

Lemma resolveLoop_inv fuel root q acc res :
  loopInv root q acc -> resolveLoop fuel datatypes q acc = Some res ->
  match res with
  | Ok acc' => loopInv root [] acc'
  | Err m => exists d f, reachable root d /\ f ∈ md_definitions d /\
      isComplexTrue f = true /\ datatypes !! fd_type f = None /\
      m = subtypeNotFound (fd_type f) d
  end.
Proof.
  revert q acc. induction fuel as [|fuel IH]; intros [|r rest] acc Hinv; simpl;
    try discriminate; try (intros [= <-]; exact Hinv).
  destruct (visitFields _ _ _ _ _) as [[q' acc']|m] eqn:Hv.
  - apply IH. by eapply loopInv_step.
  - intros [= <-]. apply visitFields_Err in Hv as (f & ? & ? & ? & ?).
    exists r, f. split_and!; auto. destruct Hinv as (_ & _ & Hr & _). apply Hr. set_solver.
Qed.

Lemma reachable_in_closure root acc d :
  loopInv root [] acc -> reachable root d -> d ∈ root :: acc.*2.
Proof.
  intros (Hwf & Hcl & _ & _). induction 1 as [|d f d' _ IH Hf Hcf Hd'].
  - set_solver.
  - destruct (Hcl d IH) as [Hq|Hc]; [set_solver|].
    pose proof (Hc f Hf Hcf) as Hk'. apply list_elem_of_fmap in Hk' as [[k d''] [Hk Hin]].
    simpl in Hk. subst k. destruct Hwf as [_ Hs].
    rewrite (Hs _ _ Hin) in Hd'. injection Hd' as ->.
    apply elem_of_cons. right. apply list_elem_of_fmap. by exists (fd_type f, d').
Qed.

(** More fuel never changes a result the loop has returned. *)
Lemma resolveLoop_more_fuel fuel k q acc r :
  resolveLoop fuel datatypes q acc = Some r -> resolveLoop (fuel + k) datatypes q acc = Some r.
Proof.
  revert q acc. induction fuel as [|fuel IH]; intros [|x rest] acc.
  - by destruct k.
  - done.
  - by destruct k.
  - simpl. destruct (visitFields datatypes x (md_definitions x) rest acc) as [[q' acc']|m];
      [apply IH|done].
Qed.

Lemma reachable_trans root d e :
  reachable root d -> reachable d e -> reachable root e.
Proof. intros Hd. induction 1; [done|]. by eapply reachable_step. Qed.

Lemma visitFields_noncomplex r fields q acc :
  (forall f, f ∈ fields -> isComplexTrue f = false) ->
  visitFields datatypes r fields q acc = Ok (q, acc).
Proof.
  induction fields as [|f fs IH]; intros Hf; simpl; [done|].
  rewrite (Hf f) by set_solver. apply IH. set_solver.
Qed.

Lemma typesForMessage_loop root :
  resolveLoop (resolveFuel datatypes) datatypes [root] [] =
  Some (typesForMessage datatypes root).
Proof.
  unfold typesForMessage.
  destruct (resolveLoop_total (resolveFuel datatypes) [root] [])
    as [r ->]; [by destruct (loopInv_init root)|unfold resolveFuel; simpl; lia|done].
Qed.

Lemma typesForMessage_inv root res :
  typesForMessage datatypes root = res ->
  match res with
  | Ok acc' => loopInv root [] acc'
  | Err m => exists d f, reachable root d /\ f ∈ md_definitions d /\
      isComplexTrue f = true /\ datatypes !! fd_type f = None /\
      m = subtypeNotFound (fd_type f) d
  end.
Proof.
  intros <-. eapply resolveLoop_inv; [apply loopInv_init|apply typesForMessage_loop].
Qed.
End Closure.

Section ClosureTheorems.
Context (datatypes : RosDatatypes).

Lemma typesForMessage_Ok_spec root acc :
  typesForMessage datatypes root = Ok acc ->
  NoDup acc.*1 /\
  forall k d, (k, d) ∈ acc <-> datatypes !! k = Some d /\ referenced datatypes root k.
Proof.
  intros Hok. pose proof (typesForMessage_inv datatypes root _ Hok) as Hinv.
  pose proof Hinv as ([Hnd Hs] & Hcl & _ & Href).
  split; [done|]. intros k d. split; [intros Hin; split; [by apply Hs|by eapply Href]|].
  intros [Hd (d0 & f & Hr & Hf & Hcf & <-)].
  apply (reachable_in_closure _ _ _ _ Hinv) in Hr.
  destruct (Hcl d0 Hr) as [Hq|Hc]; [set_solver|].
  pose proof (Hc f Hf Hcf) as Hk. apply list_elem_of_fmap in Hk as [[k d'] [Hk Hin]].
  simpl in Hk. subst k. rewrite (Hs _ _ Hin) in Hd. by injection Hd as ->.
Qed.

(** Claim C2: on success, [typesForMessage] holds each key once, and holds
    exactly the registry entries of the types named in a complex field of
    a type reachable from the root. *)
Theorem typesForMessage_Ok_iff root acc :
  typesForMessage datatypes root = Ok acc ->
  NoDup acc.*1 /\
  forall k d, (k, d) ∈ acc <-> datatypes !! k = Some d /\ referenced datatypes root k.
Proof. apply typesForMessage_Ok_spec. Qed.

(** Claim C6: the worklist loop terminates: with any fuel of at least
    [S (size datatypes)] it returns, and always the same result, so the
    out-of-fuel branch of [typesForMessage] is unreachable. *)
Theorem typesForMessage_terminates root fuel :
  (resolveFuel datatypes <= fuel)%nat ->
  resolveLoop fuel datatypes [root] [] = Some (typesForMessage datatypes root).
Proof.
  intros Hle. replace fuel with (resolveFuel datatypes + (fuel - resolveFuel datatypes))%nat by lia.
  apply resolveLoop_more_fuel, typesForMessage_loop.
Qed.

(** When resolution fails, the message names a complex field's
    type that is missing from the registry and the reachable type that
    references it (line 99). *)
Theorem typesForMessage_Err_names_missing root m :
  typesForMessage datatypes root = Err m ->
  exists d f, reachable datatypes root d /\ f ∈ md_definitions d /\
    isComplexTrue f = true /\ datatypes !! fd_type f = None /\
    m = subtypeNotFound (fd_type f) d.
Proof. intros H. exact (typesForMessage_inv datatypes root _ H). Qed.

(** Claim C3: a reachable complex field whose type is not in the registry
    makes the resolution fail: it is never skipped. *)
Theorem typesForMessage_missing_fails root d f :
  reachable datatypes root d -> f ∈ md_definitions d -> isComplexTrue f = true ->
  datatypes !! fd_type f = None ->
  exists m, typesForMessage datatypes root = Err m.
Proof.
  intros Hr Hf Hcf Hmiss.
  destruct (typesForMessage datatypes root) as [acc|m] eqn:E; [|eauto].
  pose proof (typesForMessage_inv datatypes root _ E) as Hinv.
  pose proof (reachable_in_closure _ _ _ _ Hinv Hr) as Hd.
  destruct Hinv as ([_ Hs] & Hcl & _ & _).
  destruct (Hcl d Hd) as [Hq|Hc]; [set_solver|].
  pose proof (Hc f Hf Hcf) as Hk. apply list_elem_of_fmap in Hk as [[k d'] [Hk Hin]].
  simpl in Hk. subst k. by rewrite (Hs _ _ Hin) in Hmiss.
Qed.

(** Claim C28: the root type itself is not collected: a datatype whose
    fields are all primitive resolves to an empty closure, so the schema
    text of such a topic is empty. *)
Theorem typesForMessage_primitive_root root :
  (forall f, f ∈ md_definitions root -> isComplexTrue f = false) ->
  typesForMessage datatypes root = Ok [].
Proof.
  intros Hf. unfold typesForMessage, resolveFuel. cbn [resolveLoop].
  rewrite (visitFields_noncomplex _ _ _ _ _ Hf). by destruct (size datatypes).
Qed.

(** Resolving a type of the closure yields entries that are all
    in the closure: the closure is closed under resolution. *)
Theorem typesForMessage_closed root acc k d acc_d :
  typesForMessage datatypes root = Ok acc -> (k, d) ∈ acc ->
  typesForMessage datatypes d = Ok acc_d ->
  forall e, e ∈ acc_d -> e ∈ acc.
Proof.
  intros Hroot Hin Hd [k' d'] He.
  apply (typesForMessage_Ok_spec root acc Hroot).
  apply (typesForMessage_Ok_spec d acc_d Hd) in He as [Hk' (d0 & f & Hr & ? & ? & ?)].
  apply (typesForMessage_Ok_spec root acc Hroot) in Hin as [Hkd (e0 & g & He0 & ? & ? & <-)].
  split; [done|]. exists d0, f. split_and!; auto.
  eapply reachable_trans; [|exact Hr]. by eapply reachable_step.
Qed.
End ClosureTheorems.

(** Witnesses on the example registry. *)

Lemma typesForMessage_Ok_iff_witness :
  typesForMessage ex_datatypes ex_PointStamped =
    Ok [("std_msgs/Header", ex_Header); ("geometry_msgs/Point", ex_Point);
        ("builtin_interfaces/Time", ex_Time)] /\
  NoDup ["std_msgs/Header"; "geometry_msgs/Point"; "builtin_interfaces/Time"].
Proof.
  split; [vm_compute; reflexivity|].
  exact (proj1 (typesForMessage_Ok_iff ex_datatypes ex_PointStamped _ typesForMessage_PointStamped)).
Defined.

Lemma typesForMessage_Err_names_missing_witness :
  exists d f, reachable ex_datatypes ex_Broken d /\ f ∈ md_definitions d /\
    isComplexTrue f = true /\ ex_datatypes !! fd_type f = None /\
    "invariant: Subtype custom/Missing of type custom/Broken not found."%string =
      subtypeNotFound (fd_type f) d.
Proof.
  exact (typesForMessage_Err_names_missing ex_datatypes ex_Broken _ typesForMessage_Broken).
Defined.

Lemma typesForMessage_missing_fails_witness :
  exists m, typesForMessage ex_datatypes ex_Broken = Err m.
Proof.
  apply (typesForMessage_missing_fails ex_datatypes ex_Broken ex_Broken
           (complexField "custom/Missing" "m")).
  - constructor.
  - simpl. set_solver.
  - reflexivity.
  - vm_compute. reflexivity.
Defined.

Lemma typesForMessage_primitive_root_witness :
  typesForMessage ex_datatypes ex_Point = Ok [] /\ stringify [] = ""%string.
Proof.
  split; [|vm_compute; reflexivity].
  apply typesForMessage_primitive_root. intros f Hf.
  repeat (apply elem_of_cons in Hf as [->|Hf]; [reflexivity|]). set_solver.
Defined.

Lemma typesForMessage_terminates_witness :
  resolveLoop 100 ex_datatypes [ex_PointStamped] [] =
    Some (typesForMessage ex_datatypes ex_PointStamped).
Proof. apply typesForMessage_terminates. vm_compute. lia. Defined.

Lemma typesForMessage_closed_witness :
  ("builtin_interfaces/Time", ex_Time) ∈
    [("std_msgs/Header", ex_Header); ("geometry_msgs/Point", ex_Point);
     ("builtin_interfaces/Time", ex_Time)].
Proof.
  apply (typesForMessage_closed ex_datatypes ex_PointStamped _ "std_msgs/Header" ex_Header
           [("builtin_interfaces/Time", ex_Time)]).
  - exact typesForMessage_PointStamped.
  - set_solver.
  - vm_compute. reflexivity.
  - set_solver.
Defined.
