(* ===== verification/Rosbag2.v ===== *)
(** * Rosbag2: the interface of the [@foxglove/rosbag2-web] reader

    RosDb3IterableSource.ts calls [bag.timeRange()], [bag.readTopics()],
    [bag.messageCounts()] and [bag.readMessages(opts)] on a [Rosbag2]
    opened over the SQLite segment files.  That library is not part of the
    repository; its contract is stated here as the typeclass [Rosbag2] and
    its laws [Rosbag2Laws], as the spec describes it: [readMessages]
    returns the bag's messages, in time order, whose topic is requested and
    whose timestamp [t] satisfies [start <= t < end] (end exclusive);
    [messageCounts] counts the messages of each topic that has some;
    [timeRange] bounds every timestamp.  The source's theorems are proved
    against these laws.  [MemBag] is an in-memory bag that implements the
    interface and discharges the laws; the witnesses run on it. *)

From S2P Require Import Prelude RosTime.

Local Open Scope Z_scope.

Record TopicDefinition := mkTopicDef {
  td_name : string;
  td_type : string;
  td_serializationFormat : string;
}.

(** A message as [readMessages({rawMessages: true})] yields it. *)
Record RawMessage := mkRawMessage {
  rm_topic : TopicDefinition;
  rm_timestamp : Time;
  rm_data : list Z;
}.

Record MessageReadOptions := mkReadOpts {
  ro_startTime : option Time;
  ro_endTime : option Time;
  ro_topics : option (list string);
  ro_rawMessages : bool;
}.

Definition msgNanos (m : RawMessage) : Z := toNanoSec (rm_timestamp m).
Definition timeLe (m1 m2 : RawMessage) : Prop := msgNanos m1 <= msgNanos m2.

(** The query of one [readMessages] call: topic filter, inclusive start,
    exclusive end. *)
Definition selects (o : MessageReadOptions) (m : RawMessage) : bool :=
  match ro_topics o with
  | Some ts => bool_decide (td_name (rm_topic m) ∈ ts)
  | None => true
  end &&
  match ro_startTime o with Some s => bool_decide (toNanoSec s <= msgNanos m) | None => true end &&
  match ro_endTime o with Some e => bool_decide (msgNanos m < toNanoSec e) | None => true end.

Definition countTopic (name : string) (l : list RawMessage) : nat :=
  length (List.filter (fun m => bool_decide (td_name (rm_topic m) = name)) l).

Class Rosbag2 (B : Type) := {
  timeRange : B -> Time * Time;
  readTopics : B -> list TopicDefinition;
  messageCounts : B -> gmap string nat;
  readMessages : B -> MessageReadOptions -> list RawMessage;
  (** The messages stored in the segments, in the order the reader yields *)
  bagMessages : B -> list RawMessage;
}.

Class Rosbag2Laws (B : Type) `{Rosbag2 B} := {
  readMessages_filter b o : readMessages b o = List.filter (selects o) (bagMessages b);
  bagMessages_sorted b : StronglySorted timeLe (bagMessages b);
  messageCounts_spec b k n : messageCounts b !! k = Some n -> n = countTopic k (bagMessages b);
  messageCounts_complete b k :
    (0 < countTopic k (bagMessages b))%nat -> is_Some (messageCounts b !! k);
  timeRange_bounds b m : m ∈ bagMessages b ->
    toNanoSec (timeRange b).1 <= msgNanos m <= toNanoSec (timeRange b).2;
  timeRange_nonneg b : 0 <= toNanoSec (timeRange b).1 <= toNanoSec (timeRange b).2;
}.

(** ** An in-memory bag *)

Fixpoint sortedb (l : list RawMessage) : bool :=
  match l with
  | [] => true
  | m :: l' => forallb (fun m' => bool_decide (msgNanos m <= msgNanos m')) l' && sortedb l'
  end.

Lemma sortedb_sound l : sortedb l = true -> StronglySorted timeLe l.
Proof.
  induction l as [|m l IH]; simpl; [constructor|].
  intros [Hall Hs]%andb_true_iff. constructor; [by apply IH|].
  apply List.Forall_forall. intros m' Hm'. rewrite forallb_forall in Hall.
  apply (bool_decide_eq_true_1 _ (Hall m' Hm')).
Qed.

Record MemBag := mkMemBag {
  mb_topics : list TopicDefinition;
  mb_messages : list RawMessage;
  mb_sorted : sortedb mb_messages = true;
  mb_nonneg : forallb (fun m => bool_decide (0 <= msgNanos m)) mb_messages = true;
}.

Definition countMap (l : list RawMessage) : gmap string nat :=
  foldr (fun m acc => <[td_name (rm_topic m) := S (default 0%nat (acc !! td_name (rm_topic m)))]> acc) ∅ l.

Definition memTimeRange (l : list RawMessage) : Time * Time :=
  match l with
  | [] => (mkTime 0 0, mkTime 0 0)
  | m :: rest => (fromNanoSec (foldr Z.min (msgNanos m) (map msgNanos rest)),
                  fromNanoSec (foldr Z.max (msgNanos m) (map msgNanos rest)))
  end.

#[export] Instance MemBag_Rosbag2 : Rosbag2 MemBag := {
  timeRange b := memTimeRange (mb_messages b);
  readTopics := mb_topics;
  messageCounts b := countMap (mb_messages b);
  readMessages b o := List.filter (selects o) (mb_messages b);
  bagMessages := mb_messages;
}.

Lemma countMap_lookup l k :
  countMap l !! k = if decide (countTopic k l = 0%nat) then None else Some (countTopic k l).
Proof.
  unfold countTopic. induction l as [|m l IH]; simpl; [done|].
  destruct (decide (td_name (rm_topic m) = k)) as [<-|Hne].
  - rewrite lookup_insert_eq, IH, bool_decide_eq_true_2 by done. simpl.
    destruct (decide _) as [E|E]; simpl; [by rewrite E|done].
  - rewrite lookup_insert_ne, IH, bool_decide_eq_false_2 by done. done.
Qed.

Lemma foldr_min_ge {A} (f : A -> Z) (lo a : Z) (l : list A) :
  lo <= a -> (forall x, x ∈ l -> lo <= f x) -> lo <= foldr Z.min a (map f l).
Proof.
  intros Ha Hl. induction l as [|y l IH]; simpl; [done|].
  apply Z.min_glb; [apply Hl; set_solver|apply IH; set_solver].
Qed.

Lemma memTimeRange_bounds l m :
  m ∈ l -> toNanoSec (memTimeRange l).1 <= msgNanos m <= toNanoSec (memTimeRange l).2.
Proof.
  destruct l as [|m0 rest]; [set_solver|]. simpl. rewrite !toNanoSec_fromNanoSec.
  destruct (foldr_min_le msgNanos (msgNanos m0) rest) as [Hmin1 Hmin2].
  destruct (foldr_max_ge msgNanos (msgNanos m0) rest) as [Hmax1 Hmax2].
  intros [->|Hm]%elem_of_cons; [lia|]. specialize (Hmin2 m Hm). specialize (Hmax2 m Hm). lia.
Qed.

Lemma memTimeRange_nonneg l :
  forallb (fun m => bool_decide (0 <= msgNanos m)) l = true ->
  0 <= toNanoSec (memTimeRange l).1 <= toNanoSec (memTimeRange l).2.
Proof.
  rewrite forallb_forall. intros Hnn.
  destruct l as [|m0 rest]; simpl; [unfold toNanoSec; simpl; lia|].
  rewrite !toNanoSec_fromNanoSec.
  assert (Hnn' : forall x, x ∈ m0 :: rest -> 0 <= msgNanos x).
  { intros x Hx%list_elem_of_In. exact (bool_decide_eq_true_1 _ (Hnn x Hx)). }
  split.
  - apply foldr_min_ge; [apply Hnn'; set_solver|]. intros x Hx. apply Hnn'. set_solver.
  - destruct (foldr_min_le msgNanos (msgNanos m0) rest) as [? _].
    destruct (foldr_max_ge msgNanos (msgNanos m0) rest) as [? _]. lia.
Qed.

#[export] Instance MemBag_laws : Rosbag2Laws MemBag.
Proof.
  split.
  - reflexivity.
  - intros b. apply sortedb_sound, mb_sorted.
  - intros b k n. simpl. rewrite countMap_lookup. destruct (decide _); congruence.
  - intros b k Hk. simpl in *. rewrite countMap_lookup. destruct (decide _); [lia|by eexists].
  - intros b m. apply memTimeRange_bounds.
  - intros b. apply memTimeRange_nonneg, mb_nonneg.
Qed.
