(* ===== verification/RosDb3Source.v ===== *)
(** * RosDb3Source: the class [RosDb3IterableSource]

    Models src/packages/studio-base/src/players/IterablePlayer/rosdb3/RosDb3IterableSource.ts.
    The private fields [#files], [#bag], [#start], [#end] are the record
    [SourceState]; each method takes the state and returns the new state
    with its result (an [Err] is a thrown [Error]).  The asynchronous
    generator [messageIterator] is the finite list of [IteratorResult]s it
    yields.  The bag is any [Rosbag2] (see Rosbag2.v); opening it from the
    files (fetching the SQLite wasm, [new Rosbag2(dbs)], [bag.open()]) is
    I/O and is the section variable [openBag].  The datatype tables
    [ROS2_TO_DEFINITIONS] and [basicDatatypes] are library constants and
    are section variables too. *)

From S2P Require Import Prelude RosTime SchemaResolver Rosbag2.

Local Open Scope Z_scope.

(** ** Data of [players/types] and [IIterableSource] *)

Inductive ProblemSeverity := SeverityWarn | SeverityError.

Record PlayerProblem := mkProblem {
  pp_severity : ProblemSeverity;
  pp_message : string;
  pp_tip : option string;
}.

Record TopicWithDecodingInfo := mkTopic {
  tp_name : string;
  tp_schemaName : string;
  tp_messageEncoding : string;
  tp_schemaData : option (list Z);
  tp_schemaEncoding : option string;
}.

Record TopicStats := mkTopicStats { numMessages : nat }.

Record Initialization := mkInitialization {
  init_topics : list TopicWithDecodingInfo;
  init_topicStats : gmap string TopicStats;
  init_start : Time;
  init_end : Time;
  init_problems : list PlayerProblem;
  init_profile : string;
  init_datatypes : RosDatatypes;
  init_publishersByTopic : gmap string (gset string);
}.

Record SubscribePayload := mkSubscribe { sp_topic : string }.

Record MessageIteratorArgs := mkIterArgs {
  it_topics : gmap string SubscribePayload;
  it_start : option Time;
  it_end : option Time;
}.

Record MessageEvent := mkMessageEvent {
  me_topic : string;
  me_receiveTime : Time;
  me_message : list Z;
  me_sizeInBytes : nat;
  me_schemaName : string;
}.

Inductive IteratorResult :=
| IterMessageEvent (msgEvent : MessageEvent)
| IterProblem (connectionId : nat) (problem : PlayerProblem)
| IterStamp (stamp : Time).

Record GetBackfillMessagesArgs := mkBackfillArgs {
  bf_topics : gmap string SubscribePayload;
  bf_time : Time;
}.

(** The warning of lines 83-87. *)
Definition unsupportedTip : string :=
  "ROS 2 .db3 files do not contain message definitions, so only well-known ROS types are supported in sviz. As a workaround, you can convert the db3 file to mcap using the mcap CLI.".

Definition unsupportedProblem (td : TopicDefinition) : PlayerProblem :=
  mkProblem SeverityWarn
    ("Topic " +:+ dq +:+ td_name td +:+ dq +:+ " has unsupported datatype " +:+
     dq +:+ td_type td +:+ dq)
    (Some unsupportedTip).

(** Lines 51-57: does any topic have a positive count? *)
Definition hasAnyMessages (counts : gmap string nat) : bool :=
  existsb (fun kv => bool_decide (0 < kv.2)%nat) (map_to_list counts).

(** Lines 106-110: attach the serialised closure to the topic. *)
Definition withSchema (td : TopicDefinition) (closure : TypeEntries) : TopicWithDecodingInfo :=
  mkTopic (td_name td) (td_type td) (td_serializationFormat td)
    (Some (textEncode (stringify closure.*2))) (Some "ros2msg").

(** Lines 77-79: [topicStats.set] when the count is defined. *)
Definition recordStats (counts : gmap string nat) (td : TopicDefinition)
    (stats : gmap string TopicStats) : gmap string TopicStats :=
  match counts !! td_name td with
  | Some n => <[td_name td := mkTopicStats n]> stats
  | None => stats
  end.

(** The [for (const topicDef of topicDefs)] loop of lines 68-112. *)
Fixpoint processTopics (datatypes : RosDatatypes) (counts : gmap string nat)
    (topicDefs : list TopicDefinition) (problems : list PlayerProblem)
    (topics : list TopicWithDecodingInfo) (stats : gmap string TopicStats)
    : result (list PlayerProblem * list TopicWithDecodingInfo * gmap string TopicStats) :=
  match topicDefs with
  | [] => Ok (problems, topics, stats)
  | td :: rest =>
      let stats := recordStats counts td stats in
      match datatypes !! td_type td with
      | None => processTopics datatypes counts rest (problems ++ [unsupportedProblem td]) topics stats
      | Some parsedMsgdef =>
          closure ← typesForMessage datatypes parsedMsgdef;
          processTopics datatypes counts rest problems (topics ++ [withSchema td closure]) stats
      end
  end.

Section Source.
Context {B : Type} `{Rosbag2 B}.
Context {File : Type}.
(** Lines 36-46: fetch the wasm, open every file as one [Rosbag2]. *)
Context (openBag : list File -> result B).
Context (ROS2_TO_DEFINITIONS basicDatatypes : list (string * MessageDefinition)).

Record SourceState := mkSource {
  src_files : list File;
  src_bag : option B;
  src_start : Time;
  src_end : Time;
}.

(** The constructor (lines 25-33). *)
Definition newSource (files : list File) : SourceState :=
  mkSource files None (mkTime 0 0) (mkTime 0 0).

(** Line 66: [new Map([...ROS2_TO_DEFINITIONS, ...basicDatatypes])]. *)
Definition sourceDatatypes : RosDatatypes :=
  map_of_entries (ROS2_TO_DEFINITIONS ++ basicDatatypes).

(** [initialize()] (lines 35-127).  [#bag] is assigned (line 46) before
    the checks that may throw, so a failed initialisation leaves it set. *)
Definition initialize (st : SourceState) : SourceState * result Initialization :=
  match openBag (src_files st) with
  | Err m => (st, Err m)
  | Ok bag =>
      let st1 := mkSource (src_files st) (Some bag) (src_start st) (src_end st) in
      let '(start, end_) := timeRange bag in
      let counts := messageCounts bag in
      if negb (hasAnyMessages counts) then (st1, Err "Bag contains no messages")
      else
        match processTopics sourceDatatypes counts (readTopics bag) [] [] ∅ with
        | Err m => (st1, Err m)
        | Ok (problems, topics, topicStats) =>
            (mkSource (src_files st) (Some bag) start end_,
             Ok (mkInitialization topics topicStats start end_ problems "ros2"
                   sourceDatatypes ∅))
        end
  end.

(** Lines 155-162: the message event built for one raw message. *)
Definition toMessageEvent (msg : RawMessage) : MessageEvent :=
  mkMessageEvent (td_name (rm_topic msg)) (rm_timestamp msg)
    (rm_data msg) (length (rm_data msg)) (td_type (rm_topic msg)).

(** Lines 153-164: one yielded event per raw message. *)
Definition toIteratorResult (msg : RawMessage) : IteratorResult :=
  IterMessageEvent (toMessageEvent msg).

(** [messageIterator(opt)] (lines 129-165). *)
Definition messageIterator (st : SourceState) (opt : MessageIteratorArgs)
    : result (list IteratorResult) :=
  match src_bag st with
  | None => Err "Rosbag2DataProvider is not initialized"
  | Some bag =>
      if bool_decide (size (it_topics opt) = 0%nat) then Ok []
      else
        let start := it_start opt ?? src_start st in
        let end_ := it_end opt ?? src_end st in
        inclusiveEndTime ← add end_ one_nsec;
        Ok (map toIteratorResult
              (readMessages bag (mkReadOpts (Some start) (Some inclusiveEndTime)
                 (Some (map_to_list (it_topics opt)).*1) true)))
  end.

(** [getBackfillMessages(_args)] (lines 167-171). *)
Definition getBackfillMessages (st : SourceState) (args : GetBackfillMessagesArgs)
    : list MessageEvent := [].
End Source.

(** ** Lemmas on the initialisation loop *)

Section ProcessTopics.
Context (dt : RosDatatypes) (counts : gmap string nat).

Lemma processTopics_mono tds ps ts st ps' ts' st' :
  processTopics dt counts tds ps ts st = Ok (ps', ts', st') ->
  (forall p, p ∈ ps -> p ∈ ps') /\ (forall t, t ∈ ts -> t ∈ ts').
Proof.
  revert ps ts st. induction tds as [|td tds IH]; intros ps ts st; simpl.
  - intros [= <- <- _]. done.
  - destruct (dt !! td_type td); intros Hp; [inv_bind|];
      apply IH in Hp as [Hps Hts]; split; intros; [apply Hps| apply Hts|apply Hps|apply Hts];
      set_solver.
Qed.

Lemma processTopics_problems tds ps ts st ps' ts' st' td :
  processTopics dt counts tds ps ts st = Ok (ps', ts', st') ->
  td ∈ tds -> dt !! td_type td = None -> unsupportedProblem td ∈ ps'.
Proof.
  revert ps ts st. induction tds as [|td0 tds IH]; intros ps ts st; simpl; [set_solver|].
  destruct (dt !! td_type td0) as [d|] eqn:Hd; intros Hp.
  - inv_bind. intros [->|Htd]%elem_of_cons Hn; [congruence|]. by eapply IH.
  - intros [->|Htd]%elem_of_cons Hn; [|by eapply IH].
    apply processTopics_mono in Hp as [Hps _]. apply Hps. set_solver.
Qed.

Lemma processTopics_topics_sound tds ps ts st ps' ts' st' t :
  processTopics dt counts tds ps ts st = Ok (ps', ts', st') -> t ∈ ts' ->
  t ∈ ts \/ exists td d closure, td ∈ tds /\ dt !! td_type td = Some d /\
    typesForMessage dt d = Ok closure /\ t = withSchema td closure.
Proof.
  revert ps ts st. induction tds as [|td0 tds IH]; intros ps ts st; simpl.
  - intros [= <- <- _]. auto.
  - destruct (dt !! td_type td0) as [d|] eqn:Hd; intros Hp Ht.
    + inv_bind. destruct (IH _ _ _ Hp Ht) as [[Hin|Hs]%elem_of_app|
        (td & d' & c & ? & ? & ? & ->)].
      * auto.
      * apply list_elem_of_singleton in Hs as ->. right. exists td0, d, a. set_solver.
      * right. exists td, d', c. set_solver.
    + destruct (IH _ _ _ Hp Ht) as [Hin|(td & d' & c & ? & ? & ? & ->)]; [auto|].
      right. exists td, d', c. set_solver.
Qed.

Lemma processTopics_topics_complete tds ps ts st ps' ts' st' td d :
  processTopics dt counts tds ps ts st = Ok (ps', ts', st') ->
  td ∈ tds -> dt !! td_type td = Some d ->
  exists closure, typesForMessage dt d = Ok closure /\ withSchema td closure ∈ ts'.
Proof.
  revert ps ts st. induction tds as [|td0 tds IH]; intros ps ts st; simpl; [set_solver|].
  destruct (dt !! td_type td0) as [d0|] eqn:Hd0; intros Hp.
  - inv_bind. intros [->|Htd]%elem_of_cons Hd; [|by eapply IH].
    rewrite Hd in Hd0. injection Hd0 as ->. exists a. split; [done|].
    apply processTopics_mono in Hp as [_ Hts]. apply Hts. set_solver.
  - intros [->|Htd]%elem_of_cons Hd; [congruence|by eapply IH].
Qed.

Lemma processTopics_Err tds ps ts st m :
  processTopics dt counts tds ps ts st = Err m ->
  exists td d, td ∈ tds /\ dt !! td_type td = Some d /\ typesForMessage dt d = Err m.
Proof.
  revert ps ts st. induction tds as [|td0 tds IH]; intros ps ts st; simpl; [discriminate|].
  destruct (dt !! td_type td0) as [d0|] eqn:Hd0; intros Hp.
  - destruct (typesForMessage dt d0) as [c|m'] eqn:Hc; simpl in Hp.
    + destruct (IH _ _ _ Hp) as (td & d & ? & ? & ?). exists td, d. set_solver.
    + injection Hp as ->. exists td0, d0. set_solver.
  - destruct (IH _ _ _ Hp) as (td & d & ? & ? & ?). exists td, d. set_solver.
Qed.
End ProcessTopics.

(** No resolution error carries the message of the empty-bag check. *)
Lemma subtypeNotFound_ne s d : subtypeNotFound s d <> "Bag contains no messages"%string.
Proof. unfold subtypeNotFound. simpl. discriminate. Qed.

#[export] Hint Resolve processTopics_mono processTopics_problems : sviz.

(** ** The end bound made inclusive *)

(** The selection the iterator promises: requested topic, and a time in
    the closed window [[start, end]]. *)
Definition inclusiveSelect (ts : list string) (s e : Time) (m : RawMessage) : bool :=
  bool_decide (td_name (rm_topic m) ∈ ts) &&
  bool_decide (toNanoSec s <= msgNanos m <= toNanoSec e).

Lemma selects_inclusive ts s e c m :
  toNanoSec c = toNanoSec e + 1 ->
  selects (mkReadOpts (Some s) (Some c) (Some ts) true) m = inclusiveSelect ts s e m.
Proof.
  intros Hc. unfold selects, inclusiveSelect; simpl. rewrite Hc.
  destruct (bool_decide (_ ∈ ts)); [|done]. simpl.
  repeat case_bool_decide; try done; lia.
Qed.

(** Ordering of yielded events by receive time. *)
Definition evLe (e1 e2 : IteratorResult) : Prop :=
  match e1, e2 with
  | IterMessageEvent a, IterMessageEvent b =>
      toNanoSec (me_receiveTime a) <= toNanoSec (me_receiveTime b)
  | _, _ => True
  end.

Section SourceTheorems.
Context {B : Type} `{Rosbag2Laws B}.
Context {File : Type} (openBag : list File -> result B).
Context (ROS2_TO_DEFINITIONS basicDatatypes : list (string * MessageDefinition)).

Local Abbreviation initialize := (initialize openBag ROS2_TO_DEFINITIONS basicDatatypes).
Local Abbreviation datatypes := (sourceDatatypes ROS2_TO_DEFINITIONS basicDatatypes).

Lemma hasAnyMessages_iff b :
  hasAnyMessages (messageCounts b) = true <-> bagMessages b <> [].
Proof.
  unfold hasAnyMessages. rewrite existsb_exists. split.
  - intros ([k n] & Hin%list_elem_of_In & Hn) Hnil.
    apply elem_of_map_to_list, messageCounts_spec in Hin.
    rewrite Hnil in Hin. simpl in *. subst n. apply bool_decide_eq_true_1 in Hn. unfold countTopic in Hn. simpl in Hn. lia.
  - destruct (bagMessages b) as [|m rest] eqn:Hb; [done|intros _].
    assert (Hc : (0 < countTopic (td_name (rm_topic m)) (bagMessages b))%nat).
    { rewrite Hb. unfold countTopic. simpl. rewrite bool_decide_eq_true_2 by done. simpl. lia. }
    destruct (messageCounts_complete b _ Hc) as [n Hn].
    exists (td_name (rm_topic m), n). split; [apply list_elem_of_In, elem_of_map_to_list, Hn|].
    apply messageCounts_spec in Hn. simpl. apply bool_decide_eq_true_2. lia.
Qed.

Lemma initialize_Ok st bag init :
  openBag (src_files st) = Ok bag -> (initialize st).2 = Ok init ->
  (initialize st).1 = mkSource (src_files st) (Some bag) (timeRange bag).1 (timeRange bag).2 /\
  bagMessages bag <> [] /\
  exists ps ts stats, processTopics datatypes (messageCounts bag) (readTopics bag) [] [] ∅ =
    Ok (ps, ts, stats) /\ init_topics init = ts /\ init_problems init = ps /\
    init_start init = (timeRange bag).1 /\ init_end init = (timeRange bag).2.
Proof.
  intros Hopen. unfold RosDb3Source.initialize. rewrite Hopen.
  destruct (timeRange bag) as [s e]. simpl.
  destruct (hasAnyMessages (messageCounts bag)) eqn:Hany; simpl; [|discriminate].
  destruct (processTopics _ _ _ _ _ _) as [[[ps ts] stats]|m] eqn:Hp; [|discriminate].
  intros [= <-]. split; [done|]. split; [by apply hasAnyMessages_iff|].
  exists ps, ts, stats. done.
Qed.
End SourceTheorems.

Section SourceClaims.
Context {B : Type} `{Rosbag2Laws B}.
Context {File : Type} (openBag : list File -> result B).
Context (ROS2_TO_DEFINITIONS basicDatatypes : list (string * MessageDefinition)).

Local Abbreviation initialize := (initialize openBag ROS2_TO_DEFINITIONS basicDatatypes).
Local Abbreviation datatypes := (sourceDatatypes ROS2_TO_DEFINITIONS basicDatatypes).
Local Abbreviation State := (@SourceState B File).

(** Claim C4: once the bag is open, [initialize] fails with "Bag contains
    no messages" exactly when the bag holds no message. *)
Theorem initialize_no_messages_iff (st : State) bag :
  openBag (src_files st) = Ok bag ->
  ((initialize st).2 = Err "Bag contains no messages" <-> bagMessages bag = []).
Proof.
  intros Hopen. unfold RosDb3Source.initialize. rewrite Hopen.
  destruct (timeRange bag) as [s e]. simpl.
  destruct (hasAnyMessages (messageCounts bag)) eqn:Hany; simpl.
  - apply hasAnyMessages_iff in Hany. split; [|done]. intros Herr.
    destruct (processTopics _ _ _ _ _ _) as [[[ps ts] stats]|m] eqn:Hp; [discriminate|].
    injection Herr as ->.
    apply processTopics_Err in Hp as (td & d & _ & _ & Hd).
    apply typesForMessage_inv in Hd as (d' & f & _ & _ & _ & _ & Hm).
    exfalso. by apply (subtypeNotFound_ne (fd_type f) d').
  - split; [intros _|done]. destruct (bagMessages bag) eqn:Hb; [done|].
    exfalso. assert (Hne : bagMessages bag <> []) by congruence.
    apply hasAnyMessages_iff in Hne. congruence.
Qed.

(** Claim C29: a failed initialisation after the bag opened leaves [#bag]
    assigned and [#start]/[#end] at their previous values. *)
Theorem initialize_failure_keeps_bag (st : State) bag m :
  openBag (src_files st) = Ok bag -> (initialize st).2 = Err m ->
  (initialize st).1 = mkSource (src_files st) (Some bag) (src_start st) (src_end st).
Proof.
  intros Hopen. unfold RosDb3Source.initialize. rewrite Hopen.
  destruct (timeRange bag) as [s e]. simpl.
  destruct (hasAnyMessages (messageCounts bag)); simpl; [|done].
  by destruct (processTopics _ _ _ _ _ _) as [[[ps ts] stats]|m'].
Qed.

(** Claim C7: a topic whose datatype is not in the registry yields a
    [warn] problem and no topic of the result has its datatype: the
    topic is dropped from [topics], not kept without schema. *)
Theorem initialize_unsupported_topic (st : State) bag init td :
  openBag (src_files st) = Ok bag -> (initialize st).2 = Ok init ->
  td ∈ readTopics bag -> datatypes !! td_type td = None ->
  unsupportedProblem td ∈ init_problems init /\
  forall t, t ∈ init_topics init -> tp_schemaName t <> td_type td.
Proof.
  intros Hopen Hinit Htd Hnone.
  destruct (initialize_Ok _ _ _ _ _ _ Hopen Hinit)
    as (_ & _ & ps & ts & stats & Hp & -> & -> & _).
  split; [by eapply processTopics_problems|].
  intros t Ht Heq. destruct (processTopics_topics_sound _ _ _ _ _ _ _ _ _ _ Hp Ht)
    as [Hin|(td' & d & c & _ & Hd & _ & ->)]; [set_solver|].
  simpl in Heq. rewrite Heq in Hd. congruence.
Qed.

(** A topic whose datatype is in the registry is reported with
    the serialised closure of its datatype as [ros2msg] schema. *)
Theorem initialize_supported_topic (st : State) bag init td d :
  openBag (src_files st) = Ok bag -> (initialize st).2 = Ok init ->
  td ∈ readTopics bag -> datatypes !! td_type td = Some d ->
  exists closure, typesForMessage datatypes d = Ok closure /\
    mkTopic (td_name td) (td_type td) (td_serializationFormat td)
      (Some (textEncode (stringify closure.*2))) (Some "ros2msg") ∈ init_topics init.
Proof.
  intros Hopen Hinit Htd Hd.
  destruct (initialize_Ok _ _ _ _ _ _ Hopen Hinit)
    as (_ & _ & ps & ts & stats & Hp & -> & _).
  exact (processTopics_topics_complete _ _ _ _ _ _ _ _ _ _ _ Hp Htd Hd).
Qed.

Lemma messageIterator_window (st : State) opt b :
  src_bag st = Some b -> size (it_topics opt) <> 0%nat ->
  -1 <= toNanoSec (it_end opt ?? src_end st) ->
  messageIterator st opt =
    Ok (map toIteratorResult
          (List.filter (inclusiveSelect (map_to_list (it_topics opt)).*1
                          (it_start opt ?? src_start st) (it_end opt ?? src_end st))
             (bagMessages b))).
Proof.
  intros Hb Hsz Hend. unfold messageIterator. rewrite Hb, bool_decide_eq_false_2 by done.
  destruct (add_ok (it_end opt ?? src_end st) one_nsec) as [c Hc];
    [rewrite toNanoSec_one_nsec; lia|].
  rewrite Hc. simpl. rewrite readMessages_filter. do 2 f_equal.
  apply filter_ext. intros m. apply selects_inclusive.
  by apply add_one_nsec_toNanoSec.
Qed.

(** Claim C1: with a non-empty topic set, the iterator yields exactly the
    bag's messages on the requested topics whose receive time lies in the
    closed window [[start, end]] (defaults: the source's bounds), in bag
    order; the 1 ns extension of line 146 makes the end inclusive. *)
Theorem messageIterator_inclusive_window (st : State) opt b :
  src_bag st = Some b -> size (it_topics opt) <> 0%nat ->
  -1 <= toNanoSec (it_end opt ?? src_end st) ->
  messageIterator st opt =
    Ok (map toIteratorResult
          (List.filter (inclusiveSelect (map_to_list (it_topics opt)).*1
                          (it_start opt ?? src_start st) (it_end opt ?? src_end st))
             (bagMessages b))).
Proof. apply messageIterator_window. Qed.

(** An empty topic set yields an empty sequence. *)
Theorem messageIterator_empty_topics (st : State) opt b :
  src_bag st = Some b -> size (it_topics opt) = 0%nat -> messageIterator st opt = Ok [].
Proof.
  intros Hb Hsz. unfold messageIterator. rewrite Hb. by rewrite bool_decide_eq_true_2.
Qed.

(** Claim C12: the yielded events are in non-decreasing receive-time order. *)
Theorem messageIterator_sorted (st : State) opt evs :
  messageIterator st opt = Ok evs -> StronglySorted evLe evs.
Proof.
  unfold messageIterator. destruct (src_bag st) as [b|]; [|discriminate].
  case_bool_decide; [intros [= <-]; constructor|].
  destruct (add _ _) as [c|m]; simpl; [|discriminate]. intros [= <-].
  apply (StronglySorted_map timeLe); [by intros x y Hxy|].
  rewrite readMessages_filter. apply StronglySorted_filter, bagMessages_sorted.
Qed.

(** Claim C26: after a successful [initialize], iterating a non-empty
    topic set with no bounds yields every message of those topics. *)
Theorem initialize_then_iterate_all (st : State) bag init topics :
  openBag (src_files st) = Ok bag -> (initialize st).2 = Ok init ->
  size topics <> 0%nat ->
  messageIterator (initialize st).1 (mkIterArgs topics None None) =
    Ok (map toIteratorResult
          (List.filter (fun m => bool_decide (td_name (rm_topic m) ∈ (map_to_list topics).*1))
             (bagMessages bag))).
Proof.
  intros Hopen Hinit Hsz.
  destruct (initialize_Ok _ _ _ _ _ _ Hopen Hinit) as (-> & _).
  pose proof (timeRange_nonneg bag) as Hnn.
  rewrite (messageIterator_window _ _ bag); simpl; [|done|done|lia].
  do 2 f_equal. apply filter_ext_in. intros m Hm%list_elem_of_In.
  pose proof (timeRange_bounds bag m Hm). unfold inclusiveSelect.
  rewrite (bool_decide_eq_true_2 (_ <= _ <= _)) by lia. apply andb_true_r.
Qed.
End SourceClaims.

(** ** A concrete bag for the witnesses *)

Definition exTopicPoint := mkTopicDef "/point" "geometry_msgs/PointStamped" "cdr".
Definition exTopicUnknown := mkTopicDef "/unknown" "UnknownType" "cdr".

Definition exMessages : list RawMessage :=
  [mkRawMessage exTopicPoint (mkTime 1 0) [1; 2];
   mkRawMessage exTopicUnknown (mkTime 2 5) [3];
   mkRawMessage exTopicPoint (mkTime 3 0) [4; 5; 6]].

Definition exBag : MemBag := mkMemBag [exTopicPoint; exTopicUnknown] exMessages eq_refl eq_refl.
Definition exEmptyBag : MemBag := mkMemBag [exTopicPoint] [] eq_refl eq_refl.

Definition exOpen (b : MemBag) : list unit -> result MemBag := fun _ => Ok b.
Definition exState : @SourceState MemBag unit := newSource [tt].
Definition exInitialize (b : MemBag) := initialize (exOpen b) ex_entries [] exState.
Definition exPointTopics : gmap string SubscribePayload := {[ "/point" := mkSubscribe "/point" ]}.

Example exInitialize_state :
  (exInitialize exBag).1 = mkSource [tt] (Some exBag) (mkTime 1 0) (mkTime 3 0).
Proof. vm_compute. reflexivity. Qed.

(** The message stamped exactly at the end bound is yielded. *)
Example messageIterator_end_inclusive_example :
  messageIterator (exInitialize exBag).1 (mkIterArgs exPointTopics None (Some (mkTime 3 0))) =
  Ok [IterMessageEvent (mkMessageEvent "/point" (mkTime 1 0) [1; 2] 2 "geometry_msgs/PointStamped");
      IterMessageEvent (mkMessageEvent "/point" (mkTime 3 0) [4; 5; 6] 3 "geometry_msgs/PointStamped")].
Proof. vm_compute. reflexivity. Qed.

Lemma initialize_no_messages_iff_witness :
  (exInitialize exEmptyBag).2 = Err "Bag contains no messages" /\ bagMessages exEmptyBag = [].
Proof.
  split; [|reflexivity].
  apply (initialize_no_messages_iff (exOpen exEmptyBag) ex_entries [] exState exEmptyBag eq_refl).
  reflexivity.
Defined.

Lemma initialize_failure_keeps_bag_witness :
  (exInitialize exEmptyBag).1 = mkSource [tt] (Some exEmptyBag) (mkTime 0 0) (mkTime 0 0).
Proof.
  apply (initialize_failure_keeps_bag (exOpen exEmptyBag) ex_entries [] exState exEmptyBag
           "Bag contains no messages"); reflexivity.
Defined.

Lemma initialize_unsupported_topic_witness :
  exists init, (exInitialize exBag).2 = Ok init /\
  unsupportedProblem exTopicUnknown ∈ init_problems init /\
  forall t, t ∈ init_topics init -> tp_schemaName t <> "UnknownType"%string.
Proof.
  eexists. split; [vm_compute; reflexivity|].
  apply (initialize_unsupported_topic (exOpen exBag) ex_entries [] exState exBag);
    [reflexivity|vm_compute; reflexivity|concrete|concrete].
Defined.

Lemma initialize_supported_topic_witness :
  exists init, (exInitialize exBag).2 = Ok init /\
  exists closure, typesForMessage (sourceDatatypes ex_entries []) ex_PointStamped = Ok closure /\
    mkTopic "/point" "geometry_msgs/PointStamped" "cdr"
      (Some (textEncode (stringify closure.*2))) (Some "ros2msg") ∈ init_topics init.
Proof.
  eexists. split; [vm_compute; reflexivity|].
  apply (initialize_supported_topic (exOpen exBag) ex_entries [] exState exBag _ exTopicPoint);
    [reflexivity|vm_compute; reflexivity|concrete|concrete].
Defined.

Lemma messageIterator_inclusive_window_witness :
  messageIterator (exInitialize exBag).1 (mkIterArgs exPointTopics None (Some (mkTime 3 0))) =
    Ok (map toIteratorResult
          (List.filter (inclusiveSelect (map_to_list exPointTopics).*1 (mkTime 1 0) (mkTime 3 0))
             (bagMessages exBag))).
Proof.
  rewrite exInitialize_state.
  refine (messageIterator_inclusive_window (mkSource [tt] (Some exBag) (mkTime 1 0) (mkTime 3 0))
           (mkIterArgs exPointTopics None (Some (mkTime 3 0))) exBag _ _ _); concrete.
Defined.

Lemma messageIterator_empty_topics_witness :
  messageIterator (exInitialize exBag).1 (mkIterArgs ∅ None None) = Ok [].
Proof.
  rewrite exInitialize_state.
  apply (messageIterator_empty_topics (mkSource [tt] (Some exBag) (mkTime 1 0) (mkTime 3 0))
           _ exBag); reflexivity.
Defined.

Lemma messageIterator_sorted_witness :
  StronglySorted evLe
    [IterMessageEvent (mkMessageEvent "/point" (mkTime 1 0) [1; 2] 2 "geometry_msgs/PointStamped");
     IterMessageEvent (mkMessageEvent "/point" (mkTime 3 0) [4; 5; 6] 3 "geometry_msgs/PointStamped")].
Proof.
  apply (messageIterator_sorted (exInitialize exBag).1
           (mkIterArgs exPointTopics None (Some (mkTime 3 0)))).
  exact messageIterator_end_inclusive_example.
Defined.

Lemma initialize_then_iterate_all_witness :
  messageIterator (exInitialize exBag).1 (mkIterArgs exPointTopics None None) =
    Ok (map toIteratorResult
          (List.filter (fun m => bool_decide (td_name (rm_topic m) ∈ (map_to_list exPointTopics).*1))
             (bagMessages exBag))).
Proof.
  eapply (initialize_then_iterate_all (exOpen exBag) ex_entries [] exState exBag);
    [reflexivity|vm_compute; reflexivity|concrete].
Defined.
