(* ===== verification/BlockCache.v ===== *)
(** * BlockCache: the message-block cache and its per-topic flattening

    The player fills [Progress.messageCache = {blocks; startTime}] block by
    block; a block is [{messagesByTopic; needTopics; sizeInBytes}] and an
    entry of [blocks] may still be [undefined] (not loaded).  The Plot
    panel's hook [useAllFramesByTopic(topics)] flattens the blocks into one
    message list per requested topic.  The hook's implementation is not
    under src/: it is modelled from the spec (section 4.3) as [flatten], the
    per-topic concatenation in block order, and as [incUpdate], the
    incremental version that keeps the already-flattened lists and only
    reads the blocks appended since the last call.  The worked example of
    src/packages/studio-base/src/panels/Plot/useAllFramesByTopic.test.tsx
    is [testInitialBlocks] / [testUpdatedBlocks]. *)

From S2P Require Import Prelude RosTime.

Section Blocks.
Context {M : Type}.

Record MessageBlock := mkBlock {
  messagesByTopic : gmap string (list M);
  needTopics : gmap string unit;
  sizeInBytes : nat;
}.

Record BlockCacheT := mkBlockCache {
  blocks : list (option MessageBlock);
  startTime : Time;
}.

(** The messages one (possibly unloaded) block holds for [topic]. *)
Definition blockTopicMessages (topic : string) (b : option MessageBlock) : option (list M) :=
  b ≫= fun blk => messagesByTopic blk !! topic.

(** The per-topic lists of every block that has an entry for [topic]. *)
Definition topicEntries (topic : string) (bs : list (option MessageBlock)) : list (list M) :=
  omap (blockTopicMessages topic) bs.

(** The reference flattening: a requested topic maps to the concatenation
    of its entries in block order; a topic with no entry is absent. *)
Definition flattenTopic (bs : list (option MessageBlock)) (topic : string)
    : option (string * list M) :=
  match topicEntries topic bs with
  | [] => None
  | es => Some (topic, concat es)
  end.

(** The value a requested topic maps to. *)
Definition flatValue (bs : list (option MessageBlock)) (topic : string) : option (list M) :=
  match topicEntries topic bs with
  | [] => None
  | es => Some (concat es)
  end.

Definition flatten (topics : list string) (bs : list (option MessageBlock)) : gmap string (list M) :=
  list_to_map (omap (flattenTopic bs) topics).

(** The incremental hook: append one block's entries to the lists kept so
    far. *)
Definition appendBlock (topics : list string) (frame : gmap string (list M))
    (b : option MessageBlock) : gmap string (list M) :=
  foldl (fun fr t =>
           match blockTopicMessages t b with
           | Some ms => <[t := default [] (fr !! t) ++ ms]> fr
           | None => fr
           end) frame topics.

Record IncState := mkIncState {
  inc_seen : nat;
  inc_frame : gmap string (list M);
}.

Definition incInit : IncState := mkIncState 0 ∅.

(** Read only the blocks after the [inc_seen] already consumed. *)
Definition incUpdate (topics : list string) (st : IncState) (bs : list (option MessageBlock))
    : IncState :=
  mkIncState (length bs) (foldl (appendBlock topics) (inc_frame st) (drop (inc_seen st) bs)).
End Blocks.

Arguments MessageBlock : clear implicits.

(** ** The scenario of useAllFramesByTopic.test.tsx *)

Record MockMessage := mkMock { mock_topic : string; mock_message : string }.

Definition mockMessage (msg topic : string) : MockMessage := mkMock topic msg.

Definition testInitialBlocks : list (option (MessageBlock MockMessage)) :=
  [Some (mkBlock {[ "topic_a" := [mockMessage "message" "topic_a"] ]} ∅ 1)].

Definition testUpdatedBlocks : list (option (MessageBlock MockMessage)) :=
  testInitialBlocks ++
  [Some (mkBlock {[ "topic_a" := [mockMessage "message" "topic_a"];
                    "topic_b" := [mockMessage "message" "topic_b"] ]} ∅ 1)].

Definition testTopics : list string := ["topic_a"; "topic_b"].

(** ** Lemmas *)

Section BlockLemmas.
Context {M : Type}.
Implicit Types (bs : list (option (MessageBlock M))) (topics : list string).

Lemma flattenTopic_flatValue bs t : flattenTopic bs t = (fun v => (t, v)) <$> flatValue bs t.
Proof. unfold flattenTopic, flatValue. by destruct (topicEntries t bs). Qed.

Lemma flatten_lookup topics bs t :
  flatten topics bs !! t = if decide (t ∈ topics) then flatValue bs t else None.
Proof.
  unfold flatten. induction topics as [|t0 ts IH]; [done|].
  change (omap (flattenTopic bs) (t0 :: ts)) with
    (match flattenTopic bs t0 with
     | Some y => y :: omap (flattenTopic bs) ts | None => omap (flattenTopic bs) ts end).
  rewrite flattenTopic_flatValue.
  destruct (flatValue bs t0) as [v|] eqn:Hv; simpl fmap; cbn match.
  - rewrite list_to_map_cons. simpl fst; simpl snd.
    destruct (decide (t0 = t)) as [<-|Hne].
    + rewrite lookup_insert_eq, decide_True by set_solver. done.
    + rewrite lookup_insert_ne, IH by done.
      destruct (decide (t ∈ ts)), (decide (t ∈ t0 :: ts)); set_solver.
  - rewrite IH. destruct (decide (t0 = t)) as [<-|Hne].
    + destruct (decide (t0 ∈ t0 :: ts)); [|set_solver]. rewrite Hv. by destruct (decide (t0 ∈ ts)).
    + destruct (decide (t ∈ ts)), (decide (t ∈ t0 :: ts)); set_solver.
Qed.

Lemma topicEntries_app t bs1 bs2 :
  topicEntries t (bs1 ++ bs2) = topicEntries t bs1 ++ topicEntries t bs2.
Proof. apply omap_app. Qed.

Lemma flatValue_app bs1 bs2 t :
  flatValue (bs1 ++ bs2) t =
  match flatValue bs1 t, flatValue bs2 t with
  | Some a, Some b => Some (a ++ b)
  | Some a, None => Some a
  | None, o => o
  end.
Proof.
  unfold flatValue. rewrite topicEntries_app.
  destruct (topicEntries t bs1) as [|e1 es1], (topicEntries t bs2) as [|e2 es2];
    [done|done|by rewrite app_nil_r|].
  simpl. f_equal. rewrite concat_app. simpl. by rewrite app_assoc.
Qed.

Lemma flatValue_single (b : option (MessageBlock M)) t : flatValue [b] t = blockTopicMessages t b.
Proof.
  unfold flatValue, topicEntries. cbn.
  destruct (blockTopicMessages t b); cbn; by rewrite ?app_nil_r.
Qed.

Lemma flatValue_snoc bs b t :
  flatValue (bs ++ [b]) t =
  match blockTopicMessages t b with
  | Some ms => Some (default [] (flatValue bs t) ++ ms)
  | None => flatValue bs t
  end.
Proof.
  rewrite flatValue_app, flatValue_single.
  by destruct (blockTopicMessages t b), (flatValue bs t).
Qed.

Lemma appendBlock_lookup topics (fr : gmap string (list M)) (b : option (MessageBlock M)) t :
  NoDup topics ->
  appendBlock topics fr b !! t =
  if decide (t ∈ topics) then
    match blockTopicMessages t b with
    | Some ms => Some (default [] (fr !! t) ++ ms)
    | None => fr !! t
    end
  else fr !! t.
Proof.
  unfold appendBlock. revert fr. induction topics as [|t0 ts IH]; intros fr Hnd; simpl; [done|].
  apply NoDup_cons in Hnd as [Hnin Hnd]. rewrite IH by done.
  destruct (decide (t0 = t)) as [<-|Hne].
  - rewrite decide_False by done. rewrite decide_True by set_solver.
    destruct (blockTopicMessages t0 b); [by rewrite lookup_insert_eq|done].
  - assert (Hfr : (match blockTopicMessages t0 b with
                   | Some ms => <[t0:=default [] (fr !! t0) ++ ms]> fr | None => fr end) !! t = fr !! t)
      by (destruct (blockTopicMessages t0 b); [by rewrite lookup_insert_ne|done]).
    rewrite Hfr. destruct (decide (t ∈ ts)), (decide (t ∈ t0 :: ts)); set_solver.
Qed.

(** One incremental step on the reference flattening is the reference
    flattening of the extended block list. *)
Lemma appendBlock_flatten topics bs b :
  NoDup topics -> appendBlock topics (flatten topics bs) b = flatten topics (bs ++ [b]).
Proof.
  intros Hnd. apply map_eq. intros t.
  rewrite appendBlock_lookup, !flatten_lookup, flatValue_snoc by done.
  by case_decide.
Qed.

Lemma foldl_appendBlock_flatten topics bs0 bs1 :
  NoDup topics ->
  foldl (appendBlock topics) (flatten topics bs0) bs1 = flatten topics (bs0 ++ bs1).
Proof.
  intros Hnd. revert bs0. induction bs1 as [|b bs1 IH]; intros bs0; simpl.
  - by rewrite app_nil_r.
  - rewrite appendBlock_flatten, IH by done. by rewrite <- app_assoc.
Qed.
End BlockLemmas.

Section BlockClaims.
Context {M : Type}.
Implicit Types (bs : list (option (MessageBlock M))) (topics : list string).

(** Blocks contribute in arrival order and appending blocks never
    changes what earlier blocks contributed: a topic's list over
    [bs1 ++ bs2] is its list over [bs1] followed by its list over [bs2]. *)
Theorem flatten_app topics bs1 bs2 t :
  flatten topics (bs1 ++ bs2) !! t =
  match flatten topics bs1 !! t, flatten topics bs2 !! t with
  | Some a, Some b => Some (a ++ b)
  | Some a, None => Some a
  | None, o => o
  end.
Proof.
  rewrite !flatten_lookup, flatValue_app.
  by destruct (decide (t ∈ topics)).
Qed.

(** Claim C8: the incremental hook refines the reference: from a state that
    holds the flattening of the blocks it has seen, reading only the new
    blocks yields the flattening of the whole list. *)
Theorem incUpdate_refines topics (st : IncState) bs :
  NoDup topics -> (inc_seen st <= length bs)%nat ->
  inc_frame st = flatten topics (take (inc_seen st) bs) ->
  inc_frame (incUpdate topics st bs) = flatten topics bs /\
  inc_seen (incUpdate topics st bs) = length bs.
Proof.
  intros Hnd Hle Hfr. unfold incUpdate. simpl. split; [|done].
  rewrite Hfr, foldl_appendBlock_flatten by done. by rewrite take_drop.
Qed.
End BlockClaims.

(** The scenario of useAllFramesByTopic.test.tsx: after the first
    block only [topic_a] is present, after the second block [topic_a] has
    both messages in block order and [topic_b] its one message; the
    incremental hook agrees. *)
Example useAllFramesByTopic_flattens_blocks :
  flatten testTopics testInitialBlocks = {[ "topic_a" := [mockMessage "message" "topic_a"] ]} /\
  flatten testTopics testUpdatedBlocks =
    {[ "topic_a" := [mockMessage "message" "topic_a"; mockMessage "message" "topic_a"];
       "topic_b" := [mockMessage "message" "topic_b"] ]} /\
  inc_frame (incUpdate testTopics (incUpdate testTopics incInit testInitialBlocks) testUpdatedBlocks) =
    flatten testTopics testUpdatedBlocks.
Proof. split_and!; vm_compute; reflexivity. Qed.

Lemma incUpdate_refines_witness :
  inc_frame (incUpdate testTopics (incUpdate testTopics incInit testInitialBlocks) testUpdatedBlocks) =
    flatten testTopics testUpdatedBlocks /\
  inc_seen (incUpdate testTopics (incUpdate testTopics incInit testInitialBlocks) testUpdatedBlocks) =
    length testUpdatedBlocks.
Proof.
  apply incUpdate_refines.
  - unfold testTopics. repeat constructor; set_solver.
  - vm_compute. lia.
  - vm_compute. reflexivity.
Defined.
