(* ===== verification/Pipeline.v ===== *)
(** * Pipeline: the log source feeding the block cache

    The spec's data flow runs "Log Source -> Block Cache -> flattened
    per-topic views": the player reads the source's message iterator and,
    at each read step, seals the events read so far into a block that it
    appends to [Progress.messageCache.blocks]; the Plot panel flattens the
    blocks per topic.  The block loader is not under src/; it is modelled
    from the spec (section 4.3: a block holds the step's messages indexed
    by topic in arrival order, [ingest] appends it).  The theorem of this
    file composes [RosDb3Source.messageIterator] with [BlockCache.flatten]:
    however the events are cut into read steps, the flattened view of a
    requested topic is exactly the bag's messages of that topic in the
    inclusive time window, in time order. *)

From S2P Require Import Prelude RosTime Rosbag2 SchemaResolver RosDb3Source BlockCache.

(** The message events of an iterator's results, in order. *)
Definition eventsOf (rs : list IteratorResult) : list MessageEvent :=
  omap (fun r => match r with IterMessageEvent e => Some e | _ => None end) rs.

(** A block's [messagesByTopic]: the step's events per topic, in order. *)
Definition groupByTopic (chunk : list MessageEvent) : gmap string (list MessageEvent) :=
  foldl (fun m ev => <[me_topic ev := default [] (m !! me_topic ev) ++ [ev]]> m) ∅ chunk.

(** Sealing the events of one read step into a block. *)
Definition sealBlock (chunk : list MessageEvent) : MessageBlock MessageEvent :=
  mkBlock (groupByTopic chunk) ∅ (sum_list (me_sizeInBytes <$> chunk)).

(** [ingest(newBlock)]: append-only. *)
Definition ingest (bs : list (option (MessageBlock MessageEvent))) (chunk : list MessageEvent)
    : list (option (MessageBlock MessageEvent)) :=
  bs ++ [Some (sealBlock chunk)].

Definition loadBlocks (chunks : list (list MessageEvent)) : list (option (MessageBlock MessageEvent)) :=
  foldl ingest [] chunks.

Definition topicEvents (t : string) (evs : list MessageEvent) : list MessageEvent :=
  List.filter (fun e => bool_decide (me_topic e = t)) evs.

(** A per-topic list as the flattened view reports it: absent when empty. *)
Definition nonEmpty {A} (l : list A) : option (list A) :=
  match l with [] => None | _ => Some l end.

(** ** Lemmas *)

Definition extend {A} (o : option (list A)) (l : list A) : option (list A) :=
  match o with None => nonEmpty l | Some a => Some (a ++ l) end.

Lemma groupByTopic_foldl chunk (m : gmap string (list MessageEvent)) t :
  foldl (fun m ev => <[me_topic ev := default [] (m !! me_topic ev) ++ [ev]]> m) m chunk !! t =
  extend (m !! t) (topicEvents t chunk).
Proof.
  revert m. induction chunk as [|ev chunk IH]; intros m; simpl.
  - destruct (m !! t); simpl; by rewrite ?app_nil_r.
  - rewrite IH. case_bool_decide as E; simpl.
    + subst. rewrite lookup_insert_eq. destruct (m !! me_topic ev); simpl; by rewrite <-?app_assoc.
    + by rewrite lookup_insert_ne by done.
Qed.

Lemma groupByTopic_lookup chunk t : groupByTopic chunk !! t = nonEmpty (topicEvents t chunk).
Proof. unfold groupByTopic. by rewrite groupByTopic_foldl, lookup_empty. Qed.

Lemma topicEvents_app t l1 l2 : topicEvents t (l1 ++ l2) = topicEvents t l1 ++ topicEvents t l2.
Proof. unfold topicEvents. by rewrite List.filter_app. Qed.

Lemma loadBlocks_snoc chunks c : loadBlocks (chunks ++ [c]) = loadBlocks chunks ++ [Some (sealBlock c)].
Proof. unfold loadBlocks. by rewrite foldl_app. Qed.

Lemma flatValue_loadBlocks chunks t :
  flatValue (loadBlocks chunks) t = nonEmpty (topicEvents t (concat chunks)).
Proof.
  induction chunks as [|c chunks IH] using rev_ind; [done|].
  rewrite loadBlocks_snoc, flatValue_snoc. cbn [blockTopicMessages mbind option_bind].
  simpl. rewrite groupByTopic_lookup, IH, concat_app, topicEvents_app. simpl. rewrite app_nil_r.
  destruct (topicEvents t (concat chunks)), (topicEvents t c); simpl; by rewrite ?app_nil_r.
Qed.

Lemma eventsOf_map msgs : eventsOf (map toIteratorResult msgs) = map toMessageEvent msgs.
Proof. induction msgs; simpl; by f_equal. Qed.

Lemma topicEvents_map t msgs :
  topicEvents t (map toMessageEvent msgs) =
  map toMessageEvent (List.filter (fun m => bool_decide (td_name (rm_topic m) = t)) msgs).
Proof.
  induction msgs as [|m msgs IH]; simpl; [done|]. unfold topicEvents in *.
  simpl. case_bool_decide; simpl; by rewrite IH.
Qed.

Lemma filter_filter_andb {A} (f g : A -> bool) (l : list A) :
  List.filter f (List.filter g l) = List.filter (fun x => g x && f x) l.
Proof. induction l as [|x l IH]; simpl; [done|]. destruct (g x); simpl; [destruct (f x)|]; simpl; by rewrite IH. Qed.

Lemma default_nonEmpty {A} (l : list A) : default [] (nonEmpty l) = l.
Proof. by destruct l. Qed.

(** Ordering of message events by receive time. *)
Definition eventLe (e1 e2 : MessageEvent) : Prop :=
  (toNanoSec (me_receiveTime e1) <= toNanoSec (me_receiveTime e2))%Z.

(** The bag's messages of topic [t] that the iterator selects. *)
Definition windowTopic (ts : list string) (s e : Time) (t : string) (msgs : list RawMessage)
    : list MessageEvent :=
  map toMessageEvent
    (List.filter (fun m => inclusiveSelect ts s e m && bool_decide (td_name (rm_topic m) = t)) msgs).

Section PipelineClaims.
Context {B : Type} `{Rosbag2Laws B} {File : Type}.

(** Claim C22: feeding the block cache from the source: when the events
    of a [messageIterator] run are cut into read steps in any way, sealed
    into blocks and flattened, every requested topic maps exactly to the
    bag's messages of that topic in the inclusive window (absent when
    there are none), in non-decreasing receive time. *)
Theorem source_blocks_flatten (st : @SourceState B File) opt b rs chunks topics t :
  src_bag st = Some b -> size (it_topics opt) <> 0%nat ->
  (-1 <= toNanoSec (it_end opt ?? src_end st))%Z ->
  messageIterator st opt = Ok rs -> concat chunks = eventsOf rs -> t ∈ topics ->
  flatten topics (loadBlocks chunks) !! t =
    nonEmpty (windowTopic (map_to_list (it_topics opt)).*1 (it_start opt ?? src_start st)
                (it_end opt ?? src_end st) t (bagMessages b)) /\
  StronglySorted eventLe (default [] (flatten topics (loadBlocks chunks) !! t)).
Proof.
  intros Hb Hsz Hend Hit Hchunks Ht.
  rewrite (messageIterator_window st opt b Hb Hsz Hend) in Hit. injection Hit as <-.
  rewrite flatten_lookup, decide_True, flatValue_loadBlocks, Hchunks, eventsOf_map,
    topicEvents_map, filter_filter_andb by done.
  split; [done|]. rewrite default_nonEmpty. unfold windowTopic.
  apply (StronglySorted_map timeLe); [by intros x y|].
  apply StronglySorted_filter, bagMessages_sorted.
Qed.
End PipelineClaims.

(** ** The scenario of the spec: two blocks over topics a and b *)

Local Open Scope Z_scope.

Definition exTopicA := mkTopicDef "a" "std_msgs/Empty" "cdr".
Definition exTopicB := mkTopicDef "b" "std_msgs/Empty" "cdr".

Definition exABMessages : list RawMessage :=
  [mkRawMessage exTopicA (mkTime 1 0) [1];
   mkRawMessage exTopicA (mkTime 2 0) [2];
   mkRawMessage exTopicB (mkTime 2 0) [3]].

Definition exABBag : MemBag := mkMemBag [exTopicA; exTopicB] exABMessages eq_refl eq_refl.
Definition exABState : @SourceState MemBag unit := mkSource [tt] (Some exABBag) (mkTime 1 0) (mkTime 2 0).
Definition exABArgs : MessageIteratorArgs :=
  mkIterArgs {[ "a" := mkSubscribe "a"; "b" := mkSubscribe "b" ]} None None.
Definition exABRun : list IteratorResult := map toIteratorResult exABMessages.
(** Block 1 holds a's first message, block 2 a's second and b's only one. *)
Definition exABChunks : list (list MessageEvent) :=
  [[toMessageEvent (mkRawMessage exTopicA (mkTime 1 0) [1])];
   [toMessageEvent (mkRawMessage exTopicA (mkTime 2 0) [2]);
    toMessageEvent (mkRawMessage exTopicB (mkTime 2 0) [3])]].

Example exAB_flatten :
  flatten ["a"; "b"] (loadBlocks exABChunks) !! "a" =
    Some [toMessageEvent (mkRawMessage exTopicA (mkTime 1 0) [1]);
          toMessageEvent (mkRawMessage exTopicA (mkTime 2 0) [2])] /\
  flatten ["a"; "b"] (loadBlocks exABChunks) !! "b" =
    Some [toMessageEvent (mkRawMessage exTopicB (mkTime 2 0) [3])].
Proof. vm_compute. split; reflexivity. Qed.

Lemma source_blocks_flatten_witness :
  flatten ["a"; "b"] (loadBlocks exABChunks) !! "a" =
    nonEmpty (windowTopic (map_to_list (it_topics exABArgs)).*1 (it_start exABArgs ?? src_start exABState)
                (it_end exABArgs ?? src_end exABState) "a" (bagMessages exABBag)) /\
  StronglySorted eventLe (default [] (flatten ["a"; "b"] (loadBlocks exABChunks) !! "a")).
Proof.
  apply (source_blocks_flatten exABState exABArgs exABBag exABRun exABChunks ["a"; "b"] "a");
    [reflexivity|vm_compute; lia|vm_compute; discriminate|vm_compute; reflexivity|
     vm_compute; reflexivity|set_solver].
Defined.
