(* ===== verification/H264.v ===== *)
(** * H264: Annex-B bitstream inspection of [@foxglove/den/video]

    decodeImage.ts calls [H264.IsKeyframe(data)] (line 39) and
    [H264.ParseDecoderConfig(data)] (line 49).  The [den] library is not
    part of the repository; following the spec (section 4.4), a frame is
    scanned for the Annex-B start code [00 00 01]; the NAL unit type is the
    low five bits of the byte after it ([Z.land b 0x1f]); type 5 is an IDR
    (instantaneous refresh) unit and type 7 a sequence parameter set whose
    first three payload bytes (profile_idc, constraint flags, level_idc)
    give the [avc1.PPCCLL] codec string.  Bytes are [Z] values in
    [[0, 256)].  The coded width and height that the library also decodes
    from the SPS (exp-Golomb fields) are not modelled. *)

From S2P Require Import Prelude.
From Stdlib Require Import Ascii.

Local Open Scope Z_scope.

Definition NAL_IDR : Z := 5.
Definition NAL_SPS : Z := 7.

(** The NAL unit type of the header byte. *)
Definition nalType (b : Z) : Z := Z.land b 31.

(** The types of the NAL units of [data], in stream order. *)
Fixpoint nalTypes (data : list Z) : list Z :=
  match data with
  | 0 :: 0 :: 1 :: ((b :: _) as tl) => nalType b :: nalTypes tl
  | _ :: rest => nalTypes rest
  | [] => []
  end.

(** [H264.IsKeyframe(data)] *)
Definition IsKeyframe (data : list Z) : bool :=
  existsb (fun t => t =? NAL_IDR) (nalTypes data).

(** The payload after the header byte of the first SPS unit. *)
Fixpoint findSps (data : list Z) : option (list Z) :=
  match data with
  | 0 :: 0 :: 1 :: ((b :: rest) as tl) =>
      if nalType b =? NAL_SPS then Some rest else findSps tl
  | _ :: rest => findSps rest
  | [] => None
  end.

Definition hexDigit (n : Z) : ascii :=
  match String.get (Z.to_nat n) "0123456789abcdef" with Some c => c | None => "0"%char end.

(** [b.toString(16).padStart(2, "0")] for a byte. *)
Definition hexByte (b : Z) : string :=
  String.String (hexDigit (Z.shiftr b 4)) (String.String (hexDigit (Z.land b 15)) String.EmptyString).

Record VideoDecoderConfig := mkDecoderConfig { vdc_codec : string }.

(** [H264.ParseDecoderConfig(data)] *)
Definition ParseDecoderConfig (data : list Z) : option VideoDecoderConfig :=
  match findSps data with
  | Some (profile :: constraints :: level :: _) =>
      Some (mkDecoderConfig ("avc1." +:+ hexByte profile +:+ hexByte constraints +:+ hexByte level))
  | _ => None
  end.

(** A NAL unit with header byte [b] starts somewhere in [data]. *)
Definition nalAt (data : list Z) (b : Z) : Prop :=
  exists pre rest, data = pre ++ 0 :: 0 :: 1 :: b :: rest.

Example IsKeyframe_idr : IsKeyframe [0; 0; 0; 1; 103; 66; 0; 0; 1; 101; 136] = true.
Proof. reflexivity. Qed.

Example ParseDecoderConfig_sps :
  ParseDecoderConfig [0; 0; 0; 1; 103; 66; 192; 30; 0; 0; 1; 101] =
  Some (mkDecoderConfig "avc1.42c01e").
Proof. reflexivity. Qed.

(** ** The scanner against its specification *)

(** Induction following the scanner: a start code, or one skipped byte. *)
Lemma nal_ind (P : list Z -> Prop) :
  P [] ->
  (forall b r, P (b :: r) -> P (0 :: 0 :: 1 :: b :: r)) ->
  (forall x r, P r -> (forall b r', x :: r <> 0 :: 0 :: 1 :: b :: r') -> P (x :: r)) ->
  forall l, P l.
Proof.
  intros Hnil Hstart Hother l.
  remember (length l) as n eqn:Hlen. revert l Hlen.
  induction n as [n IH] using lt_wf_ind. intros l Hlen.
  destruct l as [|x r]; [done|].
  destruct r as [|y [|z [|b r']]].
  - apply Hother; [done|]. intros ? ? [=].
  - apply Hother; [apply (IH 1%nat); simpl in *; lia|]. intros ? ? [=].
  - apply Hother; [apply (IH 2%nat); simpl in *; lia|]. intros ? ? [=].
  - destruct (decide (x = 0 /\ y = 0 /\ z = 1)) as [(-> & -> & ->)|Hne].
    + apply Hstart. eapply IH; [|reflexivity]. simpl in *. lia.
    + apply Hother; [eapply IH; [|reflexivity]; simpl in *; lia|].
      intros b' r'' [= -> -> -> _ _]. by apply Hne.
Qed.

Lemma nalTypes_other x r :
  (forall b r', x :: r <> 0 :: 0 :: 1 :: b :: r') -> nalTypes (x :: r) = nalTypes r.
Proof.
  intros Hn. destruct x as [|p|p]; try reflexivity.
  destruct r as [|y r]; [reflexivity|]. destruct y as [|q|q]; try reflexivity.
  destruct r as [|z r]; [reflexivity|]. destruct z as [|[q|q|]|q]; try reflexivity.
  destruct r as [|b r]; [reflexivity|]. exfalso. by eapply Hn.
Qed.

Lemma findSps_other x r :
  (forall b r', x :: r <> 0 :: 0 :: 1 :: b :: r') -> findSps (x :: r) = findSps r.
Proof.
  intros Hn. destruct x as [|p|p]; try reflexivity.
  destruct r as [|y r]; [reflexivity|]. destruct y as [|q|q]; try reflexivity.
  destruct r as [|z r]; [reflexivity|]. destruct z as [|[q|q|]|q]; try reflexivity.
  destruct r as [|b r]; [reflexivity|]. exfalso. by eapply Hn.
Qed.

(** A start code inside a prefix that itself starts with a start code lies
    after its first three bytes. *)
Lemma start_code_inside pre b0 r b rest :
  pre ++ 0 :: 0 :: 1 :: b :: rest = 0 :: 0 :: 1 :: b0 :: r ->
  pre = [] /\ b = b0 /\ rest = r \/
  exists pre', pre = 0 :: 0 :: 1 :: pre' /\ pre' ++ 0 :: 0 :: 1 :: b :: rest = b0 :: r.
Proof.
  destruct pre as [|p1 [|p2 [|p3 pre']]]; simpl; intros Heq; simplify_eq; auto.
  right. exists pre'. auto.
Qed.

Lemma nalTypes_spec data t :
  t ∈ nalTypes data <-> exists b, nalAt data b /\ nalType b = t.
Proof.
  induction data as [|b r IH|x r IH Hn] using nal_ind.
  - split; [set_solver|]. intros (b & (pre & rest & Heq) & _). by destruct pre.
  - change (nalTypes (0 :: 0 :: 1 :: b :: r)) with (nalType b :: nalTypes (b :: r)).
    rewrite elem_of_cons, IH. split.
    + intros [->|(b' & (pre & rest & Heq) & Ht)].
      * exists b. split; [|done]. by exists [], r.
      * exists b'. split; [|done]. exists (0 :: 0 :: 1 :: pre), rest. by rewrite Heq.
    + intros (b' & (pre & rest & Heq) & Ht).
      destruct (start_code_inside pre b r b' rest (eq_sym Heq)) as [(_ & -> & _)|(pre' & _ & Heq')].
      * by left.
      * right. exists b'. split; [|done]. by exists pre', rest.
  - rewrite nalTypes_other, IH by done. split.
    + intros (b & (pre & rest & Heq) & Ht). exists b. split; [|done].
      exists (x :: pre), rest. by rewrite Heq.
    + intros (b & (pre & rest & Heq) & Ht). exists b. split; [|done].
      destruct pre as [|p pre]; simpl in Heq; [by exfalso; eapply Hn|].
      injection Heq as -> ->. by exists pre, rest.
Qed.

Lemma findSps_sound data rest :
  findSps data = Some rest ->
  exists pre b, data = pre ++ 0 :: 0 :: 1 :: b :: rest /\ nalType b = NAL_SPS.
Proof.
  revert rest. induction data as [|b r IH|x r IH Hn] using nal_ind; intros rest; [done| |].
  - change (findSps (0 :: 0 :: 1 :: b :: r)) with
      (if nalType b =? NAL_SPS then Some r else findSps (b :: r)).
    destruct (Z.eqb_spec (nalType b) NAL_SPS) as [Hs|Hs].
    + intros [= <-]. by exists [], b.
    + intros (pre & b' & Heq & Hb)%IH. exists (0 :: 0 :: 1 :: pre), b'. by rewrite Heq.
  - rewrite findSps_other by done. intros (pre & b' & Heq & Hb)%IH.
    exists (x :: pre), b'. by rewrite Heq.
Qed.

Lemma findSps_none data :
  (forall b, nalAt data b -> nalType b <> NAL_SPS) -> findSps data = None.
Proof.
  induction data as [|b r IH|x r IH Hn] using nal_ind; intros Hno; [done| |].
  - change (findSps (0 :: 0 :: 1 :: b :: r)) with
      (if nalType b =? NAL_SPS then Some r else findSps (b :: r)).
    destruct (Z.eqb_spec (nalType b) NAL_SPS) as [Hs|Hs].
    + exfalso. apply (Hno b); [by exists [], r|done].
    + apply IH. intros b' (pre & rest & Heq). apply Hno. exists (0 :: 0 :: 1 :: pre), rest.
      by rewrite Heq.
  - rewrite findSps_other by done. apply IH. intros b' (pre & rest & Heq). apply Hno.
    exists (x :: pre), rest. by rewrite Heq.
Qed.

(** [IsKeyframe] holds exactly when some Annex-B start code of
    the frame is followed by an IDR unit header. *)
Theorem IsKeyframe_iff data :
  IsKeyframe data = true <-> exists b, nalAt data b /\ nalType b = NAL_IDR.
Proof.
  unfold IsKeyframe. rewrite existsb_exists. split.
  - intros (t & Ht%list_elem_of_In & Heq%Z.eqb_eq). apply nalTypes_spec in Ht as (b & ? & <-).
    by exists b.
  - intros (b & Hb & Ht). exists (nalType b). split; [|by apply Z.eqb_eq].
    apply list_elem_of_In, nalTypes_spec. by exists b.
Qed.

(** A decoder configuration comes from the first three payload
    bytes of an SPS unit of the frame, as the string [avc1.PPCCLL]. *)
Theorem ParseDecoderConfig_sound data cfg :
  ParseDecoderConfig data = Some cfg ->
  exists pre b p c l rest, data = pre ++ 0 :: 0 :: 1 :: b :: p :: c :: l :: rest /\
    nalType b = NAL_SPS /\
    cfg = mkDecoderConfig ("avc1." +:+ hexByte p +:+ hexByte c +:+ hexByte l).
Proof.
  unfold ParseDecoderConfig. destruct (findSps data) as [[|p [|c [|l rest]]]|] eqn:Hs;
    try discriminate.
  intros [= <-]. apply findSps_sound in Hs as (pre & b & Heq & Hb).
  by exists pre, b, p, c, l, rest.
Qed.

(** A frame with no SPS unit yields no decoder configuration. *)
Theorem ParseDecoderConfig_none data :
  (forall b, nalAt data b -> nalType b <> NAL_SPS) -> ParseDecoderConfig data = None.
Proof. intros Hno. unfold ParseDecoderConfig. by rewrite findSps_none. Qed.

Lemma IsKeyframe_iff_witness :
  IsKeyframe [0; 0; 0; 1; 103; 66; 0; 0; 1; 101; 136] = true /\
  exists b, nalAt [0; 0; 0; 1; 103; 66; 0; 0; 1; 101; 136] b /\ nalType b = NAL_IDR.
Proof.
  split; [reflexivity|]. apply IsKeyframe_iff. reflexivity.
Defined.

Lemma ParseDecoderConfig_sound_witness :
  exists pre b p c l rest,
    [0; 0; 0; 1; 103; 66; 192; 30; 0; 0; 1; 101] = pre ++ 0 :: 0 :: 1 :: b :: p :: c :: l :: rest /\
    nalType b = NAL_SPS /\
    mkDecoderConfig "avc1.42c01e" = mkDecoderConfig ("avc1." +:+ hexByte p +:+ hexByte c +:+ hexByte l).
Proof. apply ParseDecoderConfig_sound. reflexivity. Defined.

Lemma ParseDecoderConfig_none_witness : ParseDecoderConfig [0; 0; 1; 101; 136] = None.
Proof.
  apply ParseDecoderConfig_none. intros b (pre & rest & Heq).
  destruct pre as [|p1 [|p2 [|p3 [|p4 [|p5 pre]]]]]; simpl in Heq; simplify_eq.
  all: try (destruct pre; discriminate).
  vm_compute. congruence.
Defined.
