(* ===== verification/DecodeImage.v ===== *)
(** * DecodeImage: src/.../ThreeDeeRender/renderables/Images/decodeImage.ts

    [decodeRawImage] is the [switch] on the encoding string: it picks one
    pixel decoder of [@foxglove/den/image] and calls it with the raw data,
    the size, and for two of them the endianness flag and the options; the
    model returns that call ([DecoderCall]) or the thrown error.  The pixel
    loops of the decoders belong to the library and are not modelled.
    The video path runs against the typeclass [VideoPlayer] (the [den]
    player: [isInitialized], [codedSize], [decode]); the world
    [VideoWorld] holds the player state and the set of [VideoFrame]s that
    are still open, so that the [videoFrame.close()] of line 77 is
    observable.  [createImageBitmap] and [ImageData] are the browser's:
    the former rejects for a zero [resizeWidth] or an unusable source, the
    latter throws for a zero size; a rejected [await] skips the rest of the
    async function.  The timestamp handed to the decoder is computed in
    [number]s ([RosTime.roundDouble]). *)

From S2P Require Import Prelude RosTime H264.
From Stdlib Require Import QArith.

Local Open Scope Z_scope.

(** ** Raw images *)

Record RawImageOptions := mkRawOpts { minValue : option Q; maxValue : option Q }.

(** [RosImage | RawImage]; only the ROS message has [is_bigendian]. *)
Record RawImageMsg := mkImage {
  img_encoding : string;
  img_width : Z;
  img_height : Z;
  img_is_bigendian : option bool;
  img_data : list Z;
}.

Inductive RawDecoder :=
| DecodeUYVY | DecodeYUYV | DecodeRGB8 | DecodeRGBA8 | DecodeBGRA8 | DecodeBGR8
| DecodeFloat1c | DecodeBayerRGGB8 | DecodeBayerBGGR8 | DecodeBayerGBRG8 | DecodeBayerGRBG8
| DecodeMono8 | DecodeMono16.

(** The library call a branch of the switch makes. *)
Record DecoderCall := mkCall {
  call_decoder : RawDecoder;
  call_data : list Z;
  call_width : Z;
  call_height : Z;
  call_is_bigendian : option bool;
  call_options : option RawImageOptions;
}.

(** [decodeRawImage(image, options, output)] (lines 92-148). *)
Definition decodeRawImage (image : RawImageMsg) (options : RawImageOptions) : result DecoderCall :=
  let encoding := img_encoding image in
  let is_bigendian := default false (img_is_bigendian image) in
  let rawData := img_data image in
  let call d be o := Ok (mkCall d rawData (img_width image) (img_height image) be o) in
  if String.eqb encoding "yuv422" || String.eqb encoding "uyvy" then call DecodeUYVY None None
  else if String.eqb encoding "yuv422_yuy2" || String.eqb encoding "yuyv" then call DecodeYUYV None None
  else if String.eqb encoding "rgb8" then call DecodeRGB8 None None
  else if String.eqb encoding "rgba8" then call DecodeRGBA8 None None
  else if String.eqb encoding "bgra8" then call DecodeBGRA8 None None
  else if String.eqb encoding "bgr8" || String.eqb encoding "8UC3" then call DecodeBGR8 None None
  else if String.eqb encoding "32FC1" then call DecodeFloat1c (Some is_bigendian) None
  else if String.eqb encoding "bayer_rggb8" then call DecodeBayerRGGB8 None None
  else if String.eqb encoding "bayer_bggr8" then call DecodeBayerBGGR8 None None
  else if String.eqb encoding "bayer_gbrg8" then call DecodeBayerGBRG8 None None
  else if String.eqb encoding "bayer_grbg8" then call DecodeBayerGRBG8 None None
  else if String.eqb encoding "mono8" || String.eqb encoding "8UC1" then call DecodeMono8 None None
  else if String.eqb encoding "mono16" || String.eqb encoding "16UC1" then
    call DecodeMono16 (Some is_bigendian) (Some options)
  else Err ("Unsupported encoding " +:+ encoding).

(** The 18 encoding strings of the switch. *)
Definition supportedEncodings : list string :=
  ["yuv422"; "uyvy"; "yuv422_yuy2"; "yuyv"; "rgb8"; "rgba8"; "bgra8"; "bgr8"; "8UC3";
   "32FC1"; "bayer_rggb8"; "bayer_bggr8"; "bayer_gbrg8"; "bayer_grbg8";
   "mono8"; "8UC1"; "mono16"; "16UC1"].

(** ** Compressed images and video *)

Record CompressedImage := mkCompressedImage {
  ci_timestamp : Time;
  ci_frame_id : string;
  ci_data : list Z;
  ci_format : string;
}.

Record CompressedVideo := mkCompressedVideo {
  cv_timestamp : Time;
  cv_frame_id : string;
  cv_data : list Z;
  cv_format : string;
}.

(** [isVideoKeyframe(frameMsg)] (lines 35-43). *)
Definition isVideoKeyframe (frameMsg : CompressedVideo) : bool :=
  if String.eqb (cv_format frameMsg) "h264" then IsKeyframe (cv_data frameMsg) else false.

(** [getVideoDecoderConfig(frameMsg)] (lines 45-54). *)
Definition getVideoDecoderConfig (frameMsg : CompressedVideo) : option VideoDecoderConfig :=
  if String.eqb (cv_format frameMsg) "h264" then ParseDecoderConfig (cv_data frameMsg) else None.

Inductive EncodedChunkType := ChunkKey | ChunkDelta.

Record FrameInfo := mkFrameInfo { fi_width : Z; fi_height : Z; fi_timestamp : Q }.

Class VideoPlayer (P : Type) := {
  vp_isInitialized : P -> bool;
  vp_codedSize : P -> option (Z * Z);
  vp_decode : P -> list Z -> Q -> EncodedChunkType -> P * option FrameInfo;
}.

Inductive BitmapSource :=
| SrcBlank
| SrcVideoFrame (info : FrameInfo)
| SrcBlob (data : list Z) (mime : string).

Record ImageBitmap := mkBitmap { bm_width : Z; bm_height : Z; bm_source : BitmapSource }.

(** The browser's [createImageBitmap(source, {resizeWidth})] for a
    [w x h] source (HTML, ImageBitmap creation): the promise rejects with
    an [InvalidStateError] when [resizeWidth] is 0 or when the source is
    not usable (no pixels, a blob the browser cannot decode); otherwise the
    bitmap has the source size, or is [resizeWidth] wide with the height
    scaled to keep the aspect ratio, rounded up.  [resizeWidth] is a width
    in pixels, never negative. *)
Definition createImageBitmap (src : BitmapSource) (w h : Z) (resizeWidth : option Z)
    : result ImageBitmap :=
  if bool_decide (resizeWidth = Some 0) then Err "InvalidStateError"
  else if bool_decide (w = 0 \/ h = 0) then Err "InvalidStateError"
  else match resizeWidth with
       | Some rw => Ok (mkBitmap rw ((h * rw + w - 1) / w) src)
       | None => Ok (mkBitmap w h src)
       end.

(** [decodeCompressedImageToBitmap(image, resizeWidth)] (lines 27-33); the
    size of the encoded picture is what the browser's decoder reads from
    the blob, [None] when it cannot decode it. *)
Definition decodeCompressedImageToBitmap (blobSize : list Z -> string -> option (Z * Z))
    (image : CompressedImage) (resizeWidth : option Z) : result ImageBitmap :=
  let mime := "image/" +:+ ci_format image in
  let '(w, h) := default (0, 0) (blobSize (ci_data image) mime) in
  createImageBitmap (SrcBlob (ci_data image) mime) w h resizeWidth.

Section Video.
Context {P : Type} `{VideoPlayer P}.

(** The player and the [VideoFrame]s not yet closed, by id. *)
Record VideoWorld := mkWorld {
  vw_player : P;
  vw_liveFrames : gset nat;
  vw_nextFrame : nat;
}.

(** [emptyVideoFrame(videoPlayer?, resizeWidth?)] (lines 152-160); the
    [ImageData] constructor throws an [IndexSizeError] for a zero size. *)
Definition emptyVideoFrame (videoPlayer : option P) (resizeWidth : option Z) : result ImageBitmap :=
  let width := default 32 resizeWidth in
  let '(w, h) := default (width, width) (videoPlayer ≫= vp_codedSize) in
  if bool_decide (w = 0 \/ h = 0) then Err "IndexSizeError"
  else createImageBitmap SrcBlank w h resizeWidth.

(** Lines 66-74: the arguments of [videoPlayer.decode]; the BigInt
    quotient is converted with [Number], the subtraction is a [number]
    one. *)
Definition decodeRequest (frameMsg : CompressedVideo) (firstMessageTime : Z)
    : list Z * Q * EncodedChunkType :=
  let firstTimestampMicros := numberOfBigInt (Z.quot firstMessageTime 1000) in
  let timestampMicros := roundDouble (toMicroSec (cv_timestamp frameMsg) - firstTimestampMicros)%Q in
  (cv_data frameMsg, timestampMicros,
   if isVideoKeyframe frameMsg then ChunkKey else ChunkDelta).

(** [videoFrame.close()] *)
Definition closeFrame (id : nat) (w : VideoWorld) : VideoWorld :=
  mkWorld (vw_player w) (vw_liveFrames w ∖ {[id]}) (vw_nextFrame w).

(** [decodeCompressedVideoToBitmap(frameMsg, videoPlayer, firstMessageTime,
    resizeWidth)] (lines 56-81): the world after the call and the
    promise's outcome.  When [createImageBitmap] rejects, the [await] of
    line 76 throws before [videoFrame.close()] of line 77 runs. *)
Definition decodeCompressedVideoToBitmap (frameMsg : CompressedVideo) (w : VideoWorld)
    (firstMessageTime : Z) (resizeWidth : option Z) : VideoWorld * result ImageBitmap :=
  if negb (vp_isInitialized (vw_player w)) then
    (w, emptyVideoFrame (Some (vw_player w)) resizeWidth)
  else
    let '(data, timestampMicros, chunkType) := decodeRequest frameMsg firstMessageTime in
    let '(player', videoFrame) := vp_decode (vw_player w) data timestampMicros chunkType in
    match videoFrame with
    | Some info =>
        let id := vw_nextFrame w in
        let w1 := mkWorld player' ({[id]} ∪ vw_liveFrames w) (S id) in
        match createImageBitmap (SrcVideoFrame info) (fi_width info) (fi_height info) resizeWidth with
        | Ok imageBitmap => (closeFrame id w1, Ok imageBitmap)
        | Err e => (w1, Err e)
        end
    | None =>
        let w1 := mkWorld player' (vw_liveFrames w) (vw_nextFrame w) in
        (w1, emptyVideoFrame (Some player') resizeWidth)
    end.

(** The frame ids handed out so far are below [vw_nextFrame]. *)
Definition worldWf (w : VideoWorld) : Prop := forall i, i ∈ vw_liveFrames w -> (i < vw_nextFrame w)%nat.
End Video.

(** ** Lemmas *)

Lemma div_ceil_self r : 0 < r -> (r * r + r - 1) / r = r.
Proof.
  intros Hr. replace (r * r + r - 1) with (r * r + (r - 1)) by lia.
  rewrite Z.div_add_l by lia. rewrite (Z.div_small (r - 1) r) by lia. lia.
Qed.

Lemma quot_1000_bound z : 0 <= z < 2 ^ 53 -> 0 <= Z.quot z 1000 <= z.
Proof.
  intros Hz. rewrite Z.quot_div_nonneg by lia. split; [apply Z.div_pos; lia|].
  apply Z.div_le_upper_bound; lia.
Qed.

(** ** Claims on the raw dispatch *)

(** [decodeRawImage] throws exactly for an encoding outside the
    18 strings of its switch, with the message "Unsupported encoding <e>". *)
Theorem decodeRawImage_Err_iff img o m :
  decodeRawImage img o = Err m <->
  img_encoding img ∉ supportedEncodings /\ m = ("Unsupported encoding " +:+ img_encoding img)%string.
Proof.
  unfold decodeRawImage, supportedEncodings.
  remember (img_encoding img) as enc eqn:Henc. clear Henc.
  case_string_eqb.
  all: try (split; [intros Hm; discriminate Hm|intros [Hn _]; exfalso; apply Hn; set_solver]).
  split; [intros [= <-]; split; [|done]|intros [_ ->]; done].
  repeat (rewrite not_elem_of_cons; split; [done|]). apply not_elem_of_nil.
Qed.

(** Claim C10: the min/max options reach only the 16-bit mono decoder:
    for every other encoding, including the floating-point [32FC1] whose
    values the options would normalise, the result does not depend on
    them. *)
Theorem decodeRawImage_options_ignored img o1 o2 :
  img_encoding img ∉ ["mono16"; "16UC1"]%string -> decodeRawImage img o1 = decodeRawImage img o2.
Proof.
  unfold decodeRawImage. remember (img_encoding img) as enc eqn:Henc. clear Henc.
  intros Hn. case_string_eqb; first [reflexivity|exfalso; set_solver].
Qed.

(** [mono16] and [16UC1] call the 16-bit mono decoder with the
    endianness flag (false when the message has none) and the options. *)
Theorem decodeRawImage_mono16 img o :
  img_encoding img ∈ ["mono16"; "16UC1"]%string ->
  decodeRawImage img o =
    Ok (mkCall DecodeMono16 (img_data img) (img_width img) (img_height img)
          (Some (default false (img_is_bigendian img))) (Some o)).
Proof.
  unfold decodeRawImage. remember (img_encoding img) as enc eqn:Henc. clear Henc.
  intros Hin. case_string_eqb; first [reflexivity|exfalso; set_solver].
Qed.

(** ** Claims on the video path *)

(** Claim C11: [isVideoKeyframe] dispatches on the format: a frame is a
    keyframe exactly when its format is ["h264"] and its data holds, at a
    start code, a NAL unit of type IDR (5). *)
Theorem isVideoKeyframe_spec frameMsg :
  isVideoKeyframe frameMsg = true <->
  cv_format frameMsg = "h264"%string /\ exists b, nalAt (cv_data frameMsg) b /\ nalType b = NAL_IDR.
Proof.
  unfold isVideoKeyframe, IsKeyframe.
  destruct (String.eqb_spec (cv_format frameMsg) "h264") as [Hf|Hf]; [|naive_solver].
  rewrite existsb_exists. split.
  - intros (t & Ht%list_elem_of_In & Heq%Z.eqb_eq). apply nalTypes_spec in Ht as (b & ? & <-).
    eauto.
  - intros [_ (b & Hb & Ht)]. exists (nalType b). split; [|by apply Z.eqb_eq].
    apply list_elem_of_In, nalTypes_spec. by exists b.
Qed.

Section VideoClaims.
Context {P : Type} `{VideoPlayer P}.

(** Claim C9: the [VideoFrame] the decoder returns is closed whenever a
    bitmap is returned, but not when [createImageBitmap] rejects: then the
    frame stays open.  The set of open frames is unchanged, or it gains
    exactly the new frame and the call rejects; ids stay below the
    counter. *)
Theorem decodeCompressedVideoToBitmap_frames (fm : CompressedVideo) (w : @VideoWorld P) first rw :
  worldWf w ->
  worldWf (decodeCompressedVideoToBitmap fm w first rw).1 /\
  ((exists b, (decodeCompressedVideoToBitmap fm w first rw).2 = Ok b) ->
   vw_liveFrames (decodeCompressedVideoToBitmap fm w first rw).1 = vw_liveFrames w) /\
  (vw_liveFrames (decodeCompressedVideoToBitmap fm w first rw).1 = vw_liveFrames w \/
   (vw_liveFrames (decodeCompressedVideoToBitmap fm w first rw).1 = {[vw_nextFrame w]} ∪ vw_liveFrames w /\
    vw_nextFrame w ∉ vw_liveFrames w /\
    (decodeCompressedVideoToBitmap fm w first rw).2 = Err "InvalidStateError")).
Proof.
  intros Hwf. unfold decodeCompressedVideoToBitmap.
  destruct (decodeRequest fm first) as [[data ts] ty].
  destruct (vp_isInitialized (vw_player w)); cbn [negb]; [|split_and!; [done|done|by left]].
  assert (Hfresh : vw_nextFrame w ∉ vw_liveFrames w) by (intros Hin; specialize (Hwf _ Hin); lia).
  destruct (vp_decode (vw_player w) data ts ty) as [p' [info|]]; [|split_and!; [done|done|by left]].
  unfold createImageBitmap. repeat case_bool_decide; cbn [fst snd vw_liveFrames closeFrame].
  all: try (split_and!; [intros i Hi; simpl in *; apply elem_of_union in Hi as [->%elem_of_singleton|Hi%Hwf]; lia
                        |by intros [? ?]|right; split_and!; done]).
  all: destruct rw as [r|]; cbn [fst snd vw_liveFrames closeFrame];
    (split_and!; [intros i Hi; simpl in *; assert (i ∈ vw_liveFrames w) as Hl%Hwf by set_solver; lia
                 |intros _; set_solver|left; set_solver]).
Qed.

(** Before the decoder is initialised no frame is decoded: the
    world is unchanged and the result is a blank bitmap, [resizeWidth]
    square (32 x 32 by default) when no coded size is known. *)
Theorem decodeCompressedVideoToBitmap_uninitialized (fm : CompressedVideo) (w : @VideoWorld P)
    first rw :
  vp_isInitialized (vw_player w) = false -> vp_codedSize (vw_player w) = None ->
  (forall r, rw = Some r -> 0 < r) ->
  decodeCompressedVideoToBitmap fm w first rw =
    (w, Ok (mkBitmap (default 32 rw) (default 32 rw) SrcBlank)).
Proof.
  intros Hinit Hsize Hpos. unfold decodeCompressedVideoToBitmap, emptyVideoFrame, createImageBitmap.
  rewrite Hinit. cbn [negb mbind option_bind]. rewrite Hsize. cbn [default].
  destruct rw as [r|]; cbn [default].
  - specialize (Hpos r eq_refl). repeat case_bool_decide; try (exfalso; naive_solver lia).
    by rewrite div_ceil_self.
  - repeat case_bool_decide; try (exfalso; naive_solver lia). done.
Qed.
End VideoClaims.

(** Claim C30: for a frame whose nanosecond count is a whole number of
    microseconds below 2^53 (a log starting near time zero), and a first
    message time below 2^53, the timestamp handed to the decoder is exact:
    the frame's microseconds minus the truncated microseconds of the first
    message.  At epoch times (about 1.7e18 ns) the sum [sec * 1e9 + nsec]
    is rounded to a multiple of 256 ns and exactness is lost, see
    [decodeRequest_epoch_timestamp]. *)
Theorem decodeRequest_timestamp_exact fm first :
  0 <= sec (cv_timestamp fm) -> 0 <= nsec (cv_timestamp fm) ->
  toNanoSec (cv_timestamp fm) < 2 ^ 53 -> 0 <= first < 2 ^ 53 ->
  toNanoSec (cv_timestamp fm) mod 1000 = 0 ->
  (decodeRequest fm first).1.2 = inject_Z (toNanoSec (cv_timestamp fm) / 1000 - Z.quot first 1000).
Proof.
  intros Hs Hn Hlt Hf Hm. unfold decodeRequest. cbn [fst].
  pose proof (quot_1000_bound first Hf).
  assert (0 <= toNanoSec (cv_timestamp fm) / 1000 < 2 ^ 53).
  { split; [apply Z.div_pos; unfold toNanoSec, NSEC_PER_SEC in *; lia|].
    apply Z.div_lt_upper_bound; lia. }
  rewrite toMicroSec_exact, numberOfBigInt_Z by lia.
  rewrite (roundDouble_Qeq _ (inject_Z (toNanoSec (cv_timestamp fm) / 1000 - Z.quot first 1000)))
    by (unfold Qeq, Qminus, Qplus, Qopp, inject_Z; simpl; lia).
  apply roundDouble_Z. lia.
Qed.

(** ** A player for the witnesses: decodes to a frame of its coded size
    once initialised. *)

Record MockPlayer := mkMockPlayer { mp_initialized : bool; mp_size : option (Z * Z) }.

#[export] Instance MockPlayer_VideoPlayer : VideoPlayer MockPlayer := {
  vp_isInitialized := mp_initialized;
  vp_codedSize := mp_size;
  vp_decode p data ts ty :=
    (p, match mp_size p with
        | Some (w, h) => if mp_initialized p then Some (mkFrameInfo w h ts) else None
        | None => None
        end);
}.

Definition exFrame : CompressedVideo :=
  mkCompressedVideo (mkTime 1 500000) "camera" [0; 0; 1; 101; 136] "h264".

Definition exImage (enc : string) : RawImageMsg := mkImage enc 2 1 None [1; 2; 3; 4].

Example decodeRawImage_unsupported :
  decodeRawImage (exImage "rgb16") (mkRawOpts None None) = Err "Unsupported encoding rgb16".
Proof. reflexivity. Qed.

(** At epoch times the decoder's timestamp is rounded: 16 us after the
    first message arrives as 15.75 us, and 0.1 us after it as 0. *)
Example decodeRequest_epoch_timestamp :
  (decodeRequest (mkCompressedVideo (mkTime 1700000000 16000) "camera" [] "h264")
     1700000000000000000).1.2 = 63 # 4 /\
  (decodeRequest (mkCompressedVideo (mkTime 1700000000 100) "camera" [] "h264")
     1700000000000000000).1.2 = 0%Q.
Proof. vm_compute. split; reflexivity. Qed.

Lemma decodeRequest_timestamp_exact_witness :
  (decodeRequest exFrame 1000000000).1.2 = inject_Z 500.
Proof.
  apply (decodeRequest_timestamp_exact exFrame 1000000000);
    [simpl; lia|simpl; lia|vm_compute; reflexivity|lia|vm_compute; reflexivity].
Defined.

Lemma decodeRawImage_options_ignored_witness :
  decodeRawImage (exImage "32FC1") (mkRawOpts (Some 0%Q) (Some 10%Q)) =
  decodeRawImage (exImage "32FC1") (mkRawOpts None None).
Proof. apply decodeRawImage_options_ignored. simpl. set_solver. Defined.

Lemma decodeRawImage_mono16_witness :
  decodeRawImage (exImage "16UC1") (mkRawOpts None (Some 4096%Q)) =
    Ok (mkCall DecodeMono16 [1; 2; 3; 4] 2 1 (Some false) (Some (mkRawOpts None (Some 4096%Q)))).
Proof. apply (decodeRawImage_mono16 (exImage "16UC1")). simpl. set_solver. Defined.

Definition exWorld : @VideoWorld MockPlayer := mkWorld (mkMockPlayer true (Some (640, 480))) {[0%nat]} 1.

Lemma decodeCompressedVideoToBitmap_frames_witness :
  worldWf (decodeCompressedVideoToBitmap exFrame exWorld 1000000000 (Some 320)).1 /\
  ((exists b, (decodeCompressedVideoToBitmap exFrame exWorld 1000000000 (Some 320)).2 = Ok b) ->
   vw_liveFrames (decodeCompressedVideoToBitmap exFrame exWorld 1000000000 (Some 320)).1 =
     vw_liveFrames exWorld) /\
  (vw_liveFrames (decodeCompressedVideoToBitmap exFrame exWorld 1000000000 (Some 320)).1 =
     vw_liveFrames exWorld \/
   (vw_liveFrames (decodeCompressedVideoToBitmap exFrame exWorld 1000000000 (Some 320)).1 =
      {[vw_nextFrame exWorld]} ∪ vw_liveFrames exWorld /\
    vw_nextFrame exWorld ∉ vw_liveFrames exWorld /\
    (decodeCompressedVideoToBitmap exFrame exWorld 1000000000 (Some 320)).2 = Err "InvalidStateError")).
Proof.
  apply (decodeCompressedVideoToBitmap_frames exFrame exWorld 1000000000 (Some 320)).
  intros i Hi. unfold exWorld in *. simpl in *. set_solver.
Defined.

(** With [resizeWidth] 0 the decoded frame is never closed. *)
Example exFrame_leak :
  vw_liveFrames (decodeCompressedVideoToBitmap exFrame exWorld 1000000000 (Some 0)).1 = {[1%nat; 0%nat]} /\
  (decodeCompressedVideoToBitmap exFrame exWorld 1000000000 (Some 0)).2 = Err "InvalidStateError".
Proof. split; [vm_compute|reflexivity]. set_solver. Qed.

Lemma decodeCompressedVideoToBitmap_uninitialized_witness :
  decodeCompressedVideoToBitmap exFrame (mkWorld (mkMockPlayer false None) ∅ 0) 1000000000 (Some 32) =
    (mkWorld (mkMockPlayer false None) ∅ 0, Ok (mkBitmap 32 32 SrcBlank)).
Proof.
  apply (decodeCompressedVideoToBitmap_uninitialized exFrame (mkWorld (mkMockPlayer false None) ∅ 0)
           1000000000 (Some 32)); [reflexivity|reflexivity|].
  intros r [= <-]. lia.
Defined.
