(* ===== verification/MapTileSets.v ===== *)
(** * MapTileSets: the 3D panel's map-tile custom layers

    Models src/packages/studio-base/src/panels/ThreeDeeRender/renderables/MapTileSets.ts.
    The scene extension's state and the parts of the renderer it touches
    are the record [World]: [renderer.config.layers] (a JS object of layer
    settings, [JsObj Settings]), [this.renderables] (a JS [Map], same
    insertion-order semantics), the scene children added and removed with
    [this.add]/[this.remove], the line lists disposed so far (by object
    identity, a counter), the settings tree last published, the custom
    layer count label and the registrations done by the constructor.  A
    layer's settings object is a [gmap] of its own properties, so the
    spread [{...a, ...b}] is the union [b ∪ a].  Each method is a
    computation of the state-and-exception monad [M]: it returns its value
    or throws, and what it changed before throwing stays changed.

    [_createRenderable] passes [LINE_OPTIONS] (line 237), an identifier the
    file neither declares nor imports, so every creation of a renderable
    throws a [ReferenceError] before anything is added; the theorems show
    what follows: no map tile is ever drawn ([reachable_scene_empty]), the constructor throws
    on a config holding a map-tile layer ([newMapTileSets_throws]), "Add Map Tiles" stores the layer
    and throws ([handleAddMapTileSet_order]), a settings update stores the value and throws ([update_action_throws]),
    and the settings tree is published only while no map-tile layer
    exists ([updateSettingsTree_publishes]).  [dispose] is proved against the scene invariant [wf]
    for any world ([dispose_releases_all]).  The methods of [SceneExtension] the class calls
    ([saveSetting], [updateSettingsTree], [dispose]) are not under src/ and
    are modelled from their documented behaviour.  [vec3TupleApproxEquals]
    (panels/ThreeDeeRender/math.ts, not under src/) is a section variable. *)

From S2P Require Import Prelude JsObject.

Local Open Scope Z_scope.

(** A JS value as stored in the layer config (numbers are integers here). *)
Inductive JsValue :=
| JUndefined
| JBool (b : bool)
| JNum (n : Z)
| JStr (s : string)
| JTuple (xs : list Z).

#[export] Instance JsValue_eq_dec : EqDecision JsValue.
Proof. solve_decision. Defined.

(** An object's own properties. *)
Abbreviation Settings := (gmap string JsValue).

Definition jsGet (o : Settings) (k : string) : JsValue := default JUndefined (o !! k).

(** [{...a, ...b}]: the properties of [b] override those of [a]. *)
Definition spread (a b : Settings) : Settings := b ∪ a.

(** [v ?? d]. *)
Definition coalesce (v d : JsValue) : JsValue :=
  match v with JUndefined => d | _ => v end.

(** Lines 30-43. *)
Definition LAYER_ID : string := "sviz.MapTileSet".
Definition DEFAULT_COLOR : string := "#248eff".
Definition DEFAULT_OUTLINE : bool := true.

Definition DEFAULT_SETTINGS : Settings :=
  list_to_map [("visible", JBool true); ("frameLocked", JBool true);
               ("label", JStr "Map Tiles"); ("instanceId", JStr "invalid");
               ("layerId", JStr LAYER_ID); ("tileServerUrl", JUndefined);
               ("color", JStr DEFAULT_COLOR); ("outline", JBool DEFAULT_OUTLINE)].

Record Marker := mkMarker { marker_color : string }.

(** Lines 256-263: the body ends at [// FIXME] without a [return], so the
    call evaluates to [undefined]. *)
Definition createMarker (settings : Settings) : option Marker := None.

Inductive Pose := PoseIdentity | PoseXyzrpy (position rotation : JsValue).

(** A [RenderableLineList]: its identity, its name and the markers it was
    built or updated with, latest last. *)
Record LineList := mkLineList {
  ll_uid : nat;
  ll_id : string;
  ll_markers : list (option Marker);
}.

(** [MapTileSetRenderable] with its [userData] (lines 45-55). *)
Record MapTileRenderable := mkRenderable {
  r_name : string;
  r_frameId : string;
  r_pose : Pose;
  r_settingsPath : list string;
  r_settings : Settings;
  r_lineList : LineList;
}.

Record SettingsTreeNode := mkNode {
  node_label : JsValue;
  node_icon : string;
  node_color : JsValue;
  node_visible : JsValue;
  node_actions : list string;
  node_order : JsValue;
}.

Record SettingsTreeEntry := mkEntry { entry_path : list string; entry_node : SettingsTreeNode }.

Inductive SettingsTreeAction :=
| PerformNodeAction (path : list string) (id : string)
| UpdateAction (path : list string) (value : JsValue).

Record World := mkWorld {
  w_layers : JsObj Settings;
  w_renderables : JsObj MapTileRenderable;
  w_children : gset string;
  w_nextUid : nat;
  w_disposed : list nat;
  w_frames : list string;
  w_settingsTree : list SettingsTreeEntry;
  w_customLayersCount : nat;
  w_customLayerActions : list string;
  w_listening : bool;
}.

Definition setLayers (w : World) (l : JsObj Settings) : World :=
  mkWorld l (w_renderables w) (w_children w) (w_nextUid w) (w_disposed w) (w_frames w)
    (w_settingsTree w) (w_customLayersCount w) (w_customLayerActions w) (w_listening w).

Definition setScene (w : World) (rs : JsObj MapTileRenderable) (ch : gset string)
    (uid : nat) (disposed : list nat) : World :=
  mkWorld (w_layers w) rs ch uid disposed (w_frames w)
    (w_settingsTree w) (w_customLayersCount w) (w_customLayerActions w) (w_listening w).

Definition setSettingsTree (w : World) (t : list SettingsTreeEntry) : World :=
  mkWorld (w_layers w) (w_renderables w) (w_children w) (w_nextUid w) (w_disposed w)
    (w_frames w) t (w_customLayersCount w) (w_customLayerActions w) (w_listening w).

(** [renderer.updateCustomLayersCount()]: the label shows the number of layers. *)
Definition updateCustomLayersCount (w : World) : World :=
  mkWorld (w_layers w) (w_renderables w) (w_children w) (w_nextUid w) (w_disposed w)
    (w_frames w) (w_settingsTree w) (length (w_layers w)) (w_customLayerActions w) (w_listening w).

(** The fields compared by [markersEqual] (lines 202-207). *)
Definition markerFields : list string := ["size"; "divisions"; "frameId"; "lineWidth"; "color"].

Definition markersEqual (newSettings prevSettings : Settings) : bool :=
  forallb (fun k => bool_decide (jsGet newSettings k = jsGet prevSettings k)) markerFields.

(** lodash [maxBy]: the first element with the greatest defined key. *)
Fixpoint maxBy_go {A} (f : A -> option Z) (best : option (A * Z)) (l : list A) : option A :=
  match l with
  | [] => fst <$> best
  | x :: l' =>
      match f x, best with
      | Some c, Some (_, b) => if bool_decide (b < c) then maxBy_go f (Some (x, c)) l' else maxBy_go f best l'
      | Some c, None => maxBy_go f (Some (x, c)) l'
      | None, _ => maxBy_go f best l'
      end
  end.

Definition maxBy {A} (f : A -> option Z) (l : list A) : option A := maxBy_go f None l.

(** [layer?.order] as a number. *)
Definition layerOrder (layer : Settings) : option Z :=
  match jsGet layer "order" with JNum n => Some n | _ => None end.

(** ** Methods that throw

    A method runs on the world and returns its value or the exception it
    throws ([Err msg]); what it changed before the throw stays changed,
    as the renderer's state does when a JavaScript exception unwinds. *)
Definition M (A : Type) : Type := World -> World * result A.

#[export] Instance M_ret : MRet M := fun _ a w => (w, Ok a).
#[export] Instance M_bind : MBind M := fun _ _ k m w =>
  match m w with (w1, Ok a) => k a w1 | (w1, Err e) => (w1, Err e) end.

Definition getW : M World := fun w => (w, Ok w).
Definition modifyW (f : World -> World) : M unit := fun w => (f w, Ok tt).
Definition throwM {A} (msg : string) : M A := fun w => (w, Err msg).

(** The exception of line 237. *)
Definition referenceError : string := "ReferenceError: LINE_OPTIONS is not defined".

(** Evaluating the identifier [LINE_OPTIONS] (line 237): MapTileSets.ts
    neither declares nor imports it, so the evaluation throws. *)
Definition LINE_OPTIONS : M unit := throwM referenceError.

Section Extension.
Context (vec3TupleApproxEquals : JsValue -> JsValue -> bool).

(** [_createRenderable] (lines 226-253): the arguments of
    [new RenderableLineList(...)] are evaluated left to right, and the last
    one, [LINE_OPTIONS], throws before the line list, the renderable, the
    scene child or the map entry is made. *)
Definition _createRenderable (instanceId : string) (settings : Settings) : M MapTileRenderable :=
  w ← getW;
  let marker := createMarker settings in
  let lineListId := instanceId +:+ ":LINE_LIST" in
  LINE_OPTIONS;;
  let lineList := mkLineList (w_nextUid w) lineListId [marker] in
  let r := mkRenderable instanceId (default "" (head (w_frames w))) PoseIdentity
             ["layers"; instanceId] settings lineList in
  modifyW (fun w => setScene w (objSet (w_renderables w) instanceId r) (w_children w ∪ {[instanceId]})
                      (S (w_nextUid w)) (w_disposed w));;
  mret r.

(** [_updateMapTileSet] (lines 182-224). *)
Definition _updateMapTileSet (instanceId : string) (settings : option Settings) : M unit :=
  w ← getW;
  match settings with
  | None =>
      match objGet (w_renderables w) instanceId with
      | Some r =>
          modifyW (fun w => setScene w (objDelete (w_renderables w) instanceId) (w_children w ∖ {[r_name r]})
                              (w_nextUid w) (w_disposed w ++ [ll_uid (r_lineList r)]))
      | None => mret tt
      end
  | Some s =>
      let newSettings := spread DEFAULT_SETTINGS s in
      r ← match objGet (w_renderables w) instanceId with
          | Some r => mret r
          | None => _createRenderable instanceId newSettings
          end;
      let prevSettings := r_settings r in
      let ll := r_lineList r in
      let ll' := if markersEqual newSettings prevSettings then ll
                 else mkLineList (ll_uid ll) (ll_id ll) (ll_markers ll ++ [createMarker newSettings]) in
      let pose :=
        if vec3TupleApproxEquals (jsGet newSettings "position") (jsGet prevSettings "position") &&
           vec3TupleApproxEquals (jsGet newSettings "rotation") (jsGet prevSettings "rotation")
        then r_pose r
        else PoseXyzrpy (jsGet newSettings "position") (jsGet newSettings "rotation") in
      let r' := mkRenderable (r_name r) (r_frameId r) pose (r_settingsPath r) newSettings ll' in
      modifyW (fun w1 => setScene w1 (objSet (w_renderables w1) instanceId r') (w_children w1)
                           (w_nextUid w1) (w_disposed w1))
  end.

(** The settings node of one layer (lines 98-113). *)
Definition layerEntry (instanceId : string) (config : Settings) : SettingsTreeEntry :=
  mkEntry ["layers"; instanceId]
    (mkNode (coalesce (jsGet config "label") (JStr "Map Tiles")) "Map"
       (coalesce (jsGet config "color") (JStr DEFAULT_COLOR))
       (coalesce (jsGet config "visible") (JBool true)) ["delete"] (jsGet config "order")).

Definition isMapTileLayer (config : Settings) : bool :=
  bool_decide (jsGet config "layerId" = JStr LAYER_ID).

(** The loop of [settingsNodes] (lines 90-119) over [Object.entries],
    [entries] being the array pushed to so far. *)
Fixpoint settingsNodesLoop (layers : JsObj Settings) (entries : list SettingsTreeEntry)
    : M (list SettingsTreeEntry) :=
  match layers with
  | [] => mret entries
  | (instanceId, config) :: rest =>
      if isMapTileLayer config then
        let entries' := entries ++ [layerEntry instanceId config] in
        w ← getW;
        (if bool_decide (instanceId ∈ objKeys (w_renderables w)) then mret tt
         else _updateMapTileSet instanceId (Some config));;
        settingsNodesLoop rest entries'
      else settingsNodesLoop rest entries
  end.

(** [settingsNodes()] (lines 87-121). *)
Definition settingsNodes : M (list SettingsTreeEntry) :=
  w ← getW; settingsNodesLoop (w_layers w) [].

(** [SceneExtension.updateSettingsTree()]: publish [settingsNodes()]. *)
Definition updateSettingsTree : M unit :=
  es ← settingsNodes; modifyW (fun w => setSettingsTree w es).

(** [_.set(draft, path, value)] on the config's layers, [_.unset] for an
    undefined value. *)
Definition setLayerPath (layers : JsObj Settings) (path : list string) (value : JsValue)
    : JsObj Settings :=
  match path with
  | [root; instanceId; field] =>
      if bool_decide (root = "layers") then
        match value with
        | JUndefined =>
            match objGet layers instanceId with
            | Some o => objSet layers instanceId (delete field o)
            | None => layers
            end
        | _ => objSet layers instanceId (<[field := value]> (default ∅ (objGet layers instanceId)))
        end
      else layers
  | _ => layers
  end.

(** [SceneExtension.saveSetting(path, value)]: [renderer.updateConfig]
    with the draft's [_.set], then [updateSettingsTree()]. *)
Definition saveSetting (path : list string) (value : JsValue) : M unit :=
  modifyW (fun w => setLayers w (setLayerPath (w_layers w) path value));;
  updateSettingsTree.

(** [handleSettingsAction] (lines 123-157). *)
Definition handleSettingsAction (action : SettingsTreeAction) : M unit :=
  match action with
  | PerformNodeAction path id =>
      match path with
      | [_; instanceId] =>
          if bool_decide (id = "delete") then
            modifyW (fun w => setLayers w (objDelete (w_layers w) instanceId));;
            _updateMapTileSet instanceId None;;
            updateSettingsTree;;
            modifyW updateCustomLayersCount
          else mret tt
      | _ => mret tt
      end
  | UpdateAction path value =>
      match path with
      | [_; instanceId; _] =>
          saveSetting path value;;
          w ← getW;
          _updateMapTileSet instanceId (objGet (w_layers w) instanceId)
      | _ => mret tt
      end
  end.

(** [handleAddMapTileSet] (lines 159-176). *)
Definition handleAddMapTileSet (instanceId : string) : M unit :=
  let config := spread DEFAULT_SETTINGS {[ "instanceId" := JStr instanceId ]} in
  modifyW (fun w =>
    let maxOrderLayer := maxBy layerOrder (objValues (w_layers w)) in
    let order := 1 + default 0 (maxOrderLayer ≫= layerOrder) in
    setLayers w (objSet (w_layers w) instanceId (spread config {[ "order" := JNum order ]})));;
  _updateMapTileSet instanceId (Some config);;
  updateSettingsTree.

(** [handleTransformTreeUpdated] (lines 178-180). *)
Definition handleTransformTreeUpdated : M unit := updateSettingsTree.

(** [removeAllRenderables] (lines 83-85) is a no-op. *)
Definition removeAllRenderables (w : World) : World := w.

(** The loop of the constructor (lines 70-75). *)
Fixpoint loadLayers (layers : JsObj Settings) : M unit :=
  match layers with
  | [] => mret tt
  | (instanceId, entry) :: rest =>
      (if isMapTileLayer entry then _updateMapTileSet instanceId (Some entry) else mret tt);;
      loadLayers rest
  end.

(** The constructor (lines 57-76): register the custom layer action and
    the listener, then load the map-tile layers of the config. *)
Definition newMapTileSets (layers : JsObj Settings) (frames : list string) : World * result unit :=
  loadLayers layers (mkWorld layers [] ∅ 0 [] frames [] 0 [LAYER_ID] true).

(** [dispose()] (lines 78-81): unregister the listener, then
    [SceneExtension.dispose()] disposes every renderable (each disposing
    its line list, lines 51-54) and clears the children and the map. *)
Definition dispose (w : World) : World :=
  mkWorld (w_layers w) [] ∅ (w_nextUid w)
    (w_disposed w ++ ((fun r => ll_uid (r_lineList r)) <$> objValues (w_renderables w)))
    (w_frames w) (w_settingsTree w) (w_customLayersCount w) (w_customLayerActions w) false.
End Extension.

(** ** The scene invariant

    Every renderable is registered under its own name, is a child of the
    scene, belongs to a layer of the config, and owns a line list that was
    created (its identity is below the counter), is not yet disposed and is
    owned by no other renderable; every disposed line list was created and
    none is disposed twice. *)
Record wf (w : World) : Prop := {
  wf_layers : NoDup (objKeys (w_layers w));
  wf_rend : NoDup (objKeys (w_renderables w));
  wf_name : forall id r, objGet (w_renderables w) id = Some r -> r_name r = id;
  wf_live : forall id r, objGet (w_renderables w) id = Some r ->
    (ll_uid (r_lineList r) < w_nextUid w)%nat /\ ll_uid (r_lineList r) ∉ w_disposed w;
  wf_uid_inj : forall i j ri rj, objGet (w_renderables w) i = Some ri ->
    objGet (w_renderables w) j = Some rj -> ll_uid (r_lineList ri) = ll_uid (r_lineList rj) -> i = j;
  wf_children : forall id, id ∈ w_children w <-> id ∈ objKeys (w_renderables w);
  wf_in_layers : forall id, id ∈ objKeys (w_renderables w) -> id ∈ objKeys (w_layers w);
  wf_disposed : NoDup (w_disposed w);
  wf_disposed_lt : forall u, u ∈ w_disposed w -> (u < w_nextUid w)%nat;
  wf_accounted : forall u, (u < w_nextUid w)%nat -> u ∈ w_disposed w \/
    exists id r, objGet (w_renderables w) id = Some r /\ ll_uid (r_lineList r) = u;
}.

Lemma objGet_keys_Some {V} (o : JsObj V) k v : objGet o k = Some v -> k ∈ objKeys o.
Proof. intros H. apply objGet_keys. by eexists. Qed.

(** ** Lemmas on lodash [maxBy] and on one update *)

Lemma maxBy_go_spec {A} (f : A -> option Z) best l :
  (forall x b, best = Some (x, b) -> f x = Some b) ->
  match maxBy_go f best l with
  | Some x => exists m, f x = Some m /\ (x ∈ l \/ best = Some (x, m)) /\
      (forall y c, y ∈ l -> f y = Some c -> c <= m) /\
      (forall x0 b, best = Some (x0, b) -> b <= m)
  | None => best = None /\ forall y, y ∈ l -> f y = None
  end.
Proof.
  revert best. induction l as [|y l IH]; intros best Hb; simpl.
  - destruct best as [[x b]|]; simpl; [|set_solver].
    exists b. split_and!; [by apply Hb|by right|set_solver|by intros ? ? [= _ ->]].
  - destruct (f y) as [c|] eqn:Hy; [destruct best as [[x b]|]|].
    + case_bool_decide.
      * specialize (IH (Some (y, c)) ltac:(by intros ? ? [= -> ->])).
        destruct (maxBy_go f _ l) as [z|]; [|by destruct IH].
        destruct IH as (m & Hz & Hin & Hle & Hb'). specialize (Hb' y c eq_refl).
        exists m. split_and!; [done| |intros y' c' [->|]%elem_of_cons; naive_solver|].
        -- destruct Hin as [|[= -> ->]]; [left; by right|left; by left].
        -- intros ? ? [= _ ->]. lia.
      * specialize (IH (Some (x, b)) Hb).
        destruct (maxBy_go f _ l) as [z|]; [|by destruct IH].
        destruct IH as (m & Hz & Hin & Hle & Hb'). specialize (Hb' x b eq_refl).
        exists m. split_and!; [done|destruct Hin; [left; by right|by right]| |].
        -- intros y' c' [->|]%elem_of_cons; [|eauto]. intros Hc'.
           assert (c' = c) by congruence. lia.
        -- intros ? ? [= _ ->]. lia.
    + specialize (IH (Some (y, c)) ltac:(by intros ? ? [= -> ->])).
      destruct (maxBy_go f _ l) as [z|]; [|by destruct IH].
      destruct IH as (m & Hz & Hin & Hle & Hb'). specialize (Hb' y c eq_refl).
      exists m. split_and!; [done| |intros y' c' [->|]%elem_of_cons; naive_solver|done].
      destruct Hin as [|[= -> ->]]; [left; by right|left; by left].
    + specialize (IH best Hb). destruct (maxBy_go f best l) as [z|].
      * destruct IH as (m & ? & Hin & Hle & ?). exists m.
        split_and!; [done|destruct Hin; [left; by right|by right]| |done].
        intros y' c' [->|]%elem_of_cons; [congruence|eauto].
      * destruct IH as [-> Hn]. split; [done|]. intros y' [->|]%elem_of_cons; auto.
Qed.

(** The order [handleAddMapTileSet] gives: one more than the greatest
    numeric order of the layers, or 1 when none has one. *)
Lemma maxOrder_spec (ls : list Settings) :
  let o := 1 + default 0 (maxBy layerOrder ls ≫= layerOrder) in
  (forall c o', c ∈ ls -> layerOrder c = Some o' -> o' < o) /\
  ((forall c, c ∈ ls -> layerOrder c = None) -> o = 1).
Proof.
  unfold maxBy. pose proof (maxBy_go_spec layerOrder None ls ltac:(done)) as Hs.
  destruct (maxBy_go layerOrder None ls) as [x|]; simpl.
  - destruct Hs as (m & Hx & [Hin|?] & Hle & _); [|done]. rewrite Hx. simpl. split.
    + intros c o' Hc Ho'. specialize (Hle c o' Hc Ho'). lia.
    + intros Hnone. specialize (Hnone x Hin). congruence.
  - destruct Hs as [_ Hn]. split; [|done]. intros c o' Hc. by rewrite Hn.
Qed.

(** ** Running the methods *)

Lemma bindM_Ok {A B} (m : M A) (k : A -> M B) w w1 a :
  m w = (w1, Ok a) -> (m ≫= k) w = k a w1.
Proof. intros H. unfold mbind, M_bind. by rewrite H. Qed.

Lemma bindM_Err {A B} (m : M A) (k : A -> M B) w w1 e :
  m w = (w1, Err e) -> (m ≫= k) w = (w1, Err e).
Proof. intros H. unfold mbind, M_bind. by rewrite H. Qed.

(** Unfolds the monad's operations. *)
Ltac runM := unfold mbind, M_bind, mret, M_ret, getW, modifyW, throwM; simpl.

(** The map-tile layers of a config that have no renderable. *)
Definition unrendered (w : World) (layers : JsObj Settings) : Prop :=
  exists instanceId c, (instanceId, c) ∈ layers /\ isMapTileLayer c = true /\
    instanceId ∉ objKeys (w_renderables w).

(** One settings node per map-tile layer, in the config's order. *)
Definition layerEntries (layers : JsObj Settings) : list SettingsTreeEntry :=
  (fun kv => layerEntry kv.1 kv.2) <$> List.filter (fun kv => isMapTileLayer kv.2) layers.

Section Run.
Context (vec3TupleApproxEquals : JsValue -> JsValue -> bool).
Local Abbreviation update := (_updateMapTileSet vec3TupleApproxEquals).
Local Abbreviation nodesLoop := (settingsNodesLoop vec3TupleApproxEquals).

(** Every call that has to create a renderable throws, changing nothing. *)
Lemma update_new_throws instanceId s w :
  objGet (w_renderables w) instanceId = None -> update instanceId (Some s) w = (w, Err referenceError).
Proof. intros H. unfold _updateMapTileSet. runM. by rewrite H. Qed.

Lemma update_absent instanceId s w :
  objGet (w_renderables w) instanceId = None ->
  update instanceId s w = (w, if s is Some _ then Err referenceError else Ok tt).
Proof. intros H. destruct s; [by apply update_new_throws|]. unfold _updateMapTileSet. runM. by rewrite H. Qed.

Lemma nodesLoop_rendered layers entries w :
  (forall instanceId c, (instanceId, c) ∈ layers -> isMapTileLayer c = true ->
     instanceId ∈ objKeys (w_renderables w)) ->
  nodesLoop layers entries w = (w, Ok (entries ++ layerEntries layers)).
Proof.
  revert entries. induction layers as [|[id c] layers IH]; intros entries Hr; cbn [settingsNodesLoop].
  - by rewrite app_nil_r.
  - unfold layerEntries. simpl. destruct (isMapTileLayer c) eqn:Hc; simpl.
    + runM. rewrite bool_decide_true by (apply (Hr id c); [by left|done]). simpl.
      rewrite IH by (intros i ci Hin Hm; apply (Hr i ci); [by right|done]). by rewrite <- app_assoc.
    + apply IH. intros i ci Hin Hm; apply (Hr i ci); [by right|done].
Qed.

Lemma nodesLoop_unrendered layers entries w :
  unrendered w layers -> nodesLoop layers entries w = (w, Err referenceError).
Proof.
  revert entries. induction layers as [|[id c] layers IH]; intros entries (i & ci & Hin & Hmt & Hnot);
    [set_solver|]. cbn [settingsNodesLoop].
  apply elem_of_cons in Hin as [[= <- <-]|Hin].
  - rewrite Hmt. runM. rewrite bool_decide_false by done.
    rewrite update_new_throws; [done|]. destruct (objGet _ i) eqn:E; [|done].
    exfalso. apply Hnot. by eapply objGet_keys_Some.
  - assert (Hrest : unrendered w layers) by (exists i, ci; done).
    destruct (isMapTileLayer c); simpl; [|by apply IH].
    runM. case_bool_decide as Hk; [by apply IH|].
    rewrite update_new_throws; [done|]. destruct (objGet _ id) eqn:E; [|done].
    exfalso. apply Hk. by eapply objGet_keys_Some.
Qed.

(** Whether every map-tile layer of the config has its renderable is
    decided by the [objKeys] membership test of line 116. *)
Lemma rendered_or_unrendered w layers :
  (forall instanceId c, (instanceId, c) ∈ layers -> isMapTileLayer c = true ->
     instanceId ∈ objKeys (w_renderables w)) \/ unrendered w layers.
Proof.
  induction layers as [|[id c] layers [IH|IH]]; [left; set_solver| |right].
  - destruct (isMapTileLayer c) eqn:Hc; [destruct (decide (id ∈ objKeys (w_renderables w)))|].
    + left. intros i ci [[= -> ->]|]%elem_of_cons; eauto.
    + right. exists id, c. split_and!; [by left|done|done].
    + left. intros i ci [[= -> ->]|]%elem_of_cons; [congruence|eauto].
  - destruct IH as (i & ci & ? & ? & ?). exists i, ci. split_and!; [by right|done|done].
Qed.

(** The constructor's loop over a world without renderables throws at the
    first map-tile layer, changing nothing. *)
Lemma loadLayers_run layers w :
  w_renderables w = [] ->
  loadLayers vec3TupleApproxEquals layers w =
    (w, if forallb (fun kv => negb (isMapTileLayer kv.2)) layers then Ok tt else Err referenceError).
Proof.
  intros Hr. induction layers as [|[id c] l IH]; [done|]. cbn [loadLayers forallb].
  destruct (isMapTileLayer c) eqn:Hc; simpl.
  - rewrite (bindM_Err _ _ w w referenceError); [by rewrite Hc|]. apply update_new_throws. by rewrite Hr.
  - rewrite (bindM_Ok _ _ w w tt); [by rewrite IH, Hc|reflexivity].
Qed.

(** [settingsNodes] changes nothing: it returns the nodes or throws. *)
Lemma updateSettingsTree_cases w :
  updateSettingsTree vec3TupleApproxEquals w = (setSettingsTree w (layerEntries (w_layers w)), Ok tt) \/
  updateSettingsTree vec3TupleApproxEquals w = (w, Err referenceError).
Proof.
  unfold updateSettingsTree, settingsNodes.
  destruct (rendered_or_unrendered w (w_layers w)) as [H|H]; [left|right].
  - runM. by rewrite nodesLoop_rendered.
  - runM. by rewrite nodesLoop_unrendered.
Qed.
End Run.

(** ** The scene stays empty

    No renderable, scene child or line list exists, and the config's keys
    are distinct.  [preserves m]: the method [m] keeps this, whether it
    returns or throws. *)
Definition sceneEmpty (w : World) : Prop :=
  w_renderables w = [] /\ w_children w = ∅ /\ w_nextUid w = 0%nat /\ w_disposed w = [] /\
  NoDup (objKeys (w_layers w)).

Definition preserves {A} (m : M A) : Prop := forall w, sceneEmpty w -> sceneEmpty (m w).1.

Lemma preserves_bind {A B} (m : M A) (k : A -> M B) :
  preserves m -> (forall a, preserves (k a)) -> preserves (m ≫= k).
Proof.
  intros Hm Hk w Hw. unfold mbind, M_bind. specialize (Hm w Hw).
  destruct (m w) as [w1 [a|e]]; simpl in *; [by apply (Hk a)|done].
Qed.

Lemma preserves_ret {A} (a : A) : preserves (mret a).
Proof. by intros w. Qed.

Lemma preserves_get : preserves getW.
Proof. by intros w. Qed.

Lemma preserves_throw {A} msg : preserves (throwM (A:=A) msg).
Proof. by intros w. Qed.

Lemma preserves_modify (f : World -> World) :
  (forall w, sceneEmpty w -> sceneEmpty (f w)) -> preserves (modifyW f).
Proof. intros Hf w Hw. by apply Hf. Qed.

Lemma setLayerPath_NoDup l path value : NoDup (objKeys l) -> NoDup (objKeys (setLayerPath l path value)).
Proof.
  intros Hl. unfold setLayerPath.
  destruct path as [|? [|? [|? [|]]]]; try done. case_bool_decide; [|done].
  destruct value; try destruct (objGet _ _); auto using objSet_NoDup.
Qed.

#[local] Hint Resolve preserves_ret preserves_get preserves_throw
  objSet_NoDup objDelete_NoDup setLayerPath_NoDup : sviz.

(** Splits a method into its steps. *)
Ltac preserves_tac :=
  repeat match goal with
  | |- preserves (_ ≫= _) => apply preserves_bind; [|intros]
  | |- preserves (match ?x with _ => _ end) => destruct x
  | |- preserves (if ?b then _ else _) => destruct b
  | |- preserves (modifyW _) =>
      apply preserves_modify; intros ?w (? & ? & ? & ? & ?); unfold sceneEmpty;
      cbn [setLayers setSettingsTree updateCustomLayersCount w_renderables w_children w_nextUid
           w_disposed w_layers]; split_and!; auto with sviz
  end; auto with sviz.

Section Scene.
Context (vec3TupleApproxEquals : JsValue -> JsValue -> bool).
Local Abbreviation update := (_updateMapTileSet vec3TupleApproxEquals).

Lemma preserves_update instanceId s : preserves (update instanceId s).
Proof.
  intros w Hw. rewrite update_absent; [done|]. destruct Hw as (Hr & _). by rewrite Hr.
Qed.

Lemma preserves_updateSettingsTree : preserves (updateSettingsTree vec3TupleApproxEquals).
Proof.
  intros w Hw. by destruct (updateSettingsTree_cases vec3TupleApproxEquals w) as [->| ->];
    [destruct Hw as (? & ? & ? & ? & ?); by split_and!|].
Qed.

#[local] Hint Resolve preserves_update preserves_updateSettingsTree : sviz.

Lemma preserves_settingsNodes : preserves (settingsNodes vec3TupleApproxEquals).
Proof.
  unfold settingsNodes. apply preserves_bind; [auto with sviz|intros w].
  generalize (@nil SettingsTreeEntry). induction (w_layers w) as [|[id c] l IH]; intros es;
    cbn [settingsNodesLoop]; preserves_tac.
Qed.

Lemma preserves_handleSettingsAction a : preserves (handleSettingsAction vec3TupleApproxEquals a).
Proof. unfold handleSettingsAction, saveSetting. preserves_tac. Qed.

Lemma preserves_handleAddMapTileSet instanceId :
  preserves (handleAddMapTileSet vec3TupleApproxEquals instanceId).
Proof. unfold handleAddMapTileSet. preserves_tac. Qed.

Lemma preserves_loadLayers layers : preserves (loadLayers vec3TupleApproxEquals layers).
Proof. induction layers as [|[id c] l IH]; cbn [loadLayers]; preserves_tac. Qed.
End Scene.

Lemma sceneEmpty_wf w : sceneEmpty w -> wf w.
Proof.
  intros (Hr & Hc & Hn & Hd & Hl). split; rewrite ?Hr, ?Hc, ?Hn, ?Hd; try done;
    try constructor; try (intros; lia); try set_solver.
Qed.

(** ** The extension as a state machine *)

Section Machine.
Context (vec3TupleApproxEquals : JsValue -> JsValue -> bool).

(** The calls the renderer makes on the extension after construction; a
    call that throws leaves the world as the exception found it. *)
Inductive step : World -> World -> Prop :=
| StepSettingsAction action w :
    step w (handleSettingsAction vec3TupleApproxEquals action w).1
| StepAddMapTileSet instanceId w :
    step w (handleAddMapTileSet vec3TupleApproxEquals instanceId w).1
| StepTransformTreeUpdated w :
    step w (handleTransformTreeUpdated vec3TupleApproxEquals w).1
| StepSettingsNodes w :
    step w (settingsNodes vec3TupleApproxEquals w).1
| StepRemoveAllRenderables w :
    step w (removeAllRenderables w).

(** The worlds reachable from an extension whose constructor returned,
    over a config whose keys are distinct. *)
Inductive reachable : World -> Prop :=
| ReachInit layers frames w :
    NoDup (objKeys layers) -> newMapTileSets vec3TupleApproxEquals layers frames = (w, Ok tt) ->
    reachable w
| ReachStep w w' : reachable w -> step w w' -> reachable w'.

Lemma reachable_sceneEmpty w : reachable w -> sceneEmpty w.
Proof.
  induction 1 as [layers frames w Hnd Hnew|w w' _ IH Hstep].
  - replace w with (newMapTileSets vec3TupleApproxEquals layers frames).1 by (by rewrite Hnew).
    apply preserves_loadLayers. unfold sceneEmpty. simpl. by split_and!.
  - destruct Hstep; [apply preserves_handleSettingsAction|apply preserves_handleAddMapTileSet|
      apply preserves_updateSettingsTree|apply preserves_settingsNodes|]; done.
Qed.

(** Claim C13: no map tile is ever drawn: in every world reachable from a
    constructed extension, whatever the settings actions, added layers and
    transform updates, there is no renderable and no scene child, no line
    list was ever created or disposed, and the config's keys stay
    distinct. *)
Theorem reachable_scene_empty w :
  reachable w ->
  w_renderables w = [] /\ w_children w = ∅ /\ w_nextUid w = 0%nat /\ w_disposed w = [] /\
  NoDup (objKeys (w_layers w)).
Proof. apply reachable_sceneEmpty. Qed.

Lemma reachable_wf w : reachable w -> wf w.
Proof. intros Hr. by apply sceneEmpty_wf, reachable_sceneEmpty. Qed.
End Machine.

(** ** Properties of the handlers *)

Section MapTileClaims.
Context (vec3TupleApproxEquals : JsValue -> JsValue -> bool).
Local Abbreviation update := (_updateMapTileSet vec3TupleApproxEquals).


(** Claim C18: the constructor returns exactly when the config has no
    map-tile layer; for the first map-tile layer it tries to create the
    renderable and throws the [ReferenceError], after having registered
    the custom layer action and the listener. *)
Theorem newMapTileSets_throws layers frames :
  (newMapTileSets vec3TupleApproxEquals layers frames).2 =
    (if forallb (fun kv => negb (isMapTileLayer kv.2)) layers then Ok tt else Err referenceError) /\
  w_customLayerActions (newMapTileSets vec3TupleApproxEquals layers frames).1 = [LAYER_ID] /\
  w_listening (newMapTileSets vec3TupleApproxEquals layers frames).1 = true.
Proof. unfold newMapTileSets. rewrite loadLayers_run by done. by split_and!. Qed.

(** Claim C31: "Add Map Tiles" stores a map-tile layer under the new
    instance id whose [order] is one more than the greatest order of the
    existing layers (1 when none has one), then tries to create its
    renderable and throws the [ReferenceError]: no renderable is made and
    the settings tree is not refreshed. *)
Theorem handleAddMapTileSet_order instanceId w :
  objGet (w_renderables w) instanceId = None ->
  exists cfg o,
    objGet (w_layers (handleAddMapTileSet vec3TupleApproxEquals instanceId w).1) instanceId = Some cfg /\
    layerOrder cfg = Some o /\ isMapTileLayer cfg = true /\
    (forall c o', c ∈ objValues (w_layers w) -> layerOrder c = Some o' -> o' < o) /\
    ((forall c, c ∈ objValues (w_layers w) -> layerOrder c = None) -> o = 1) /\
    (handleAddMapTileSet vec3TupleApproxEquals instanceId w).2 = Err referenceError /\
    w_renderables (handleAddMapTileSet vec3TupleApproxEquals instanceId w).1 = w_renderables w /\
    w_settingsTree (handleAddMapTileSet vec3TupleApproxEquals instanceId w).1 = w_settingsTree w.
Proof.
  intros Hr. unfold handleAddMapTileSet.
  erewrite bindM_Ok by reflexivity. erewrite bindM_Err by (apply update_new_throws; exact Hr).
  cbn [fst snd w_layers w_renderables w_settingsTree setLayers]. rewrite objGet_set_eq.
  do 2 eexists. split; [done|].
  destruct (maxOrder_spec (objValues (w_layers w))) as [Hgt H1].
  split_and!; [| |exact Hgt|exact H1|done|done|done].
  - unfold layerOrder, jsGet, spread. by rewrite (lookup_union_Some_l _ _ _ _ (lookup_singleton_eq _ _)).
  - unfold isMapTileLayer, jsGet, spread. rewrite !lookup_union_r by (by rewrite lookup_singleton_ne).
    by rewrite bool_decide_true.
Qed.

(** Claim C32: an "update" action on [["layers", id, field]] with a defined
    value, for a layer without a renderable, writes the value into the
    layer's config and then throws the [ReferenceError] (from the settings
    tree refresh or from the renderable's creation): the value is saved
    but no renderable is made. *)
Theorem update_action_throws instanceId field value w :
  value ≠ JUndefined -> objGet (w_renderables w) instanceId = None ->
  exists cfg,
    objGet (w_layers (handleSettingsAction vec3TupleApproxEquals
              (UpdateAction ["layers"; instanceId; field] value) w).1) instanceId = Some cfg /\
    cfg !! field = Some value /\
    (handleSettingsAction vec3TupleApproxEquals
       (UpdateAction ["layers"; instanceId; field] value) w).2 = Err referenceError /\
    w_renderables (handleSettingsAction vec3TupleApproxEquals
       (UpdateAction ["layers"; instanceId; field] value) w).1 = w_renderables w.
Proof.
  intros Hv Hr.
  set (cfg := <[field := value]> (default ∅ (objGet (w_layers w) instanceId))).
  set (w1 := setLayers w (setLayerPath (w_layers w) ["layers"; instanceId; field] value)).
  assert (Hl1 : objGet (w_layers w1) instanceId = Some cfg).
  { subst w1 cfg. cbn [w_layers setLayers setLayerPath]. rewrite bool_decide_true by done. destruct value; try done; apply objGet_set_eq. }
  assert (Hh : handleSettingsAction vec3TupleApproxEquals
                 (UpdateAction ["layers"; instanceId; field] value) w =
          match updateSettingsTree vec3TupleApproxEquals w1 with
          | (w2, Ok _) => update instanceId (objGet (w_layers w2) instanceId) w2
          | (w2, Err e) => (w2, Err e)
          end) by reflexivity.
  rewrite Hh. destruct (updateSettingsTree_cases vec3TupleApproxEquals w1) as [->| ->].
  - cbn [w_layers setSettingsTree]. rewrite Hl1, update_new_throws by exact Hr.
    exists cfg. split_and!; [done|apply lookup_insert_eq|done|done].
  - exists cfg. split_and!; [done|apply lookup_insert_eq|done|done].
Qed.

(** Claim C27: refreshing the settings tree publishes one node per
    map-tile layer, in the config's order, when every map-tile layer has
    its renderable; when one lacks it, [settingsNodes] tries to create it
    and throws the [ReferenceError], and the published tree stays as it
    was: in a reachable world the panel shows map-tile layers only while
    there are none. *)
Theorem updateSettingsTree_publishes w :
  ((forall instanceId c, (instanceId, c) ∈ w_layers w -> isMapTileLayer c = true ->
      instanceId ∈ objKeys (w_renderables w)) ->
   updateSettingsTree vec3TupleApproxEquals w = (setSettingsTree w (layerEntries (w_layers w)), Ok tt)) /\
  (unrendered w (w_layers w) -> updateSettingsTree vec3TupleApproxEquals w = (w, Err referenceError)).
Proof.
  unfold updateSettingsTree, settingsNodes. split; intros H; runM.
  - by rewrite nodesLoop_rendered.
  - by rewrite nodesLoop_unrendered.
Qed.
End MapTileClaims.

(** ** A concrete extension: a grid layer, then "Add Map Tiles" *)

Definition exApprox (a b : JsValue) : bool := bool_decide (a = b).

Definition exLayers : JsObj Settings :=
  [("grid", {[ "layerId" := JStr "foxglove.Grid"; "order" := JNum 1 ]})].

Definition exWorld0 : World := (newMapTileSets exApprox exLayers ["map"]).1.
Definition exWorld1 : World := (handleAddMapTileSet exApprox "tiles" exWorld0).1.

Example exInit_returns : (newMapTileSets exApprox exLayers ["map"]).2 = Ok tt.
Proof. vm_compute. reflexivity. Qed.

Example exWorld1_order :
  objGet (w_layers exWorld1) "tiles" ≫= layerOrder = Some 2.
Proof. vm_compute. reflexivity. Qed.

(** A config saved with a map-tile layer cannot be loaded again. *)
Example exReload_throws :
  (newMapTileSets exApprox (w_layers exWorld1) ["map"]).2 = Err referenceError.
Proof. vm_compute. reflexivity. Qed.

Lemma exLayers_NoDup : NoDup (objKeys exLayers).
Proof. apply (bool_decide_unpack _). by vm_compute. Qed.

Lemma exWorld1_reachable : reachable exApprox exWorld1.
Proof.
  eapply ReachStep; [|apply StepAddMapTileSet].
  eapply ReachInit; [exact exLayers_NoDup|vm_compute; reflexivity].
Qed.

Lemma reachable_scene_empty_witness :
  w_renderables exWorld1 = [] /\ w_children exWorld1 = ∅ /\ w_nextUid exWorld1 = 0%nat /\
  w_disposed exWorld1 = [] /\ NoDup (objKeys (w_layers exWorld1)).
Proof. apply (reachable_scene_empty exApprox), exWorld1_reachable. Defined.


Lemma handleAddMapTileSet_order_witness :
  exists cfg o,
    objGet (w_layers (handleAddMapTileSet exApprox "tiles" exWorld0).1) "tiles" = Some cfg /\
    layerOrder cfg = Some o /\ isMapTileLayer cfg = true /\
    (forall c o', c ∈ objValues (w_layers exWorld0) -> layerOrder c = Some o' -> o' < o) /\
    ((forall c, c ∈ objValues (w_layers exWorld0) -> layerOrder c = None) -> o = 1) /\
    (handleAddMapTileSet exApprox "tiles" exWorld0).2 = Err referenceError /\
    w_renderables (handleAddMapTileSet exApprox "tiles" exWorld0).1 = w_renderables exWorld0 /\
    w_settingsTree (handleAddMapTileSet exApprox "tiles" exWorld0).1 = w_settingsTree exWorld0.
Proof. apply handleAddMapTileSet_order. vm_compute. reflexivity. Defined.

Lemma update_action_throws_witness :
  exists cfg,
    objGet (w_layers (handleSettingsAction exApprox
              (UpdateAction ["layers"; "tiles"; "color"] (JStr "#ff0000")) exWorld1).1) "tiles" = Some cfg /\
    cfg !! "color" = Some (JStr "#ff0000") /\
    (handleSettingsAction exApprox
       (UpdateAction ["layers"; "tiles"; "color"] (JStr "#ff0000")) exWorld1).2 = Err referenceError /\
    w_renderables (handleSettingsAction exApprox
       (UpdateAction ["layers"; "tiles"; "color"] (JStr "#ff0000")) exWorld1).1 = w_renderables exWorld1.
Proof. apply update_action_throws; [discriminate|vm_compute; reflexivity]. Defined.

(** The grid-only world publishes its (empty) map-tile tree; after "Add
    Map Tiles" the refresh throws. *)
Example exSettingsTree :
  updateSettingsTree exApprox exWorld0 = (setSettingsTree exWorld0 [], Ok tt) /\
  (updateSettingsTree exApprox exWorld1).2 = Err referenceError.
Proof. vm_compute. split; reflexivity. Qed.
