(* ===== verification/NodePlayground.v ===== *)
(** * NodePlayground: the user-script panel's editing state

    Models src/packages/studio-base/src/panels/NodePlayground/index.tsx.
    The React component's state and the layout state it reads are the
    record [Panel]: the panel [config] (selected node, auto-format flag,
    extra backstack items), the layout's [userNodes] (a JS object of
    nodes), the [scriptBackStack] of scripts open in the editor (the
    current script is its last element), the title of the name input and
    the explorer tab.  The callbacks of the component are functions on
    [Panel]; an event is one callback followed by the layout effects React
    runs after the re-render ([selectedNodeEffect] of lines 270-278 and the
    title effect of lines 280-286).  React compares effect dependencies by
    object identity, so each user-node object carries an identity
    [un_uid] allocated when an object literal creates it, and each entry of
    the backstack carries the identity of its script object ([ScriptRef]):
    the layout effect creates a new object for the node's script and
    reuses the objects of [additionalBackStackItems], [setScriptCode]
    creates a new object, the editor hands [setScriptOverride] a new one.
    The title effect runs only when the current script object changes.
    [setUserNodes] and [saveConfig] belong to the layout and panel
    contexts (not under src/): they merge the given keys into the current
    value, a key set to [undefined] is removed. *)

From S2P Require Import Prelude JsObject.

Record Script := mkScript { filePath : string; code : string; readOnly : bool }.

#[export] Instance Script_eq_dec : EqDecision Script.
Proof. solve_decision. Defined.

(** A user node ([{name, sourceCode}]) with its object identity. *)
Record UserNode := mkUserNode { un_name : string; un_sourceCode : string; un_uid : nat }.

Record Config := mkConfig {
  selectedNodeId : option string;
  autoFormatOnSave : option bool;
  additionalBackStackItems : option (list Script);
}.

(** [Explorer] (line 144). *)
Inductive Explorer := ExplorerNone | ExplorerNodes | ExplorerUtils | ExplorerTemplates.

(** The identity of a backstack entry: the [i]th object of the config's
    [additionalBackStackItems] array (the same objects on every reset), or
    an object literal created by the panel or handed to it by the editor,
    numbered by the identity counter. *)
Inductive ScriptRef := ExtraItem (i : nat) | ScriptObj (uid : nat).

#[export] Instance ScriptRef_eq_dec : EqDecision ScriptRef.
Proof. solve_decision. Defined.

Record Panel := mkPanel {
  p_config : Config;
  p_userNodes : JsObj UserNode;
  p_scriptBackStack : list (ScriptRef * Script);
  p_inputTitle : string;
  p_explorer : Explorer;
  p_nextUid : nat;
}.

Definition nl : string := String.String (Ascii.ascii_of_nat 10) String.EmptyString.

(** [skeletonBody] (lines 61-95). *)
Definition skeletonBody : string :=
  "// The ./types module provides helper types for your Input events and messages." +:+ nl +:+
  "import { Input, Message } from " +:+ dq +:+ "./types" +:+ dq +:+ ";" +:+ nl +:+
  nl +:+
  "// Your script can output well-known message types, any of your custom message types, or" +:+ nl +:+
  "// complete custom message types." +:+ nl +:+
  "//" +:+ nl +:+
  "// Use `Message` to access types from the schemas defined in your data source:" +:+ nl +:+
  "// type Twist = Message<" +:+ dq +:+ "geometry_msgs/Twist" +:+ dq +:+ ">;" +:+ nl +:+
  "//" +:+ nl +:+
  "// Import from the @foxglove/schemas package to use foxglove schema types:" +:+ nl +:+
  "// import { Pose, LocationFix } from " +:+ dq +:+ "@foxglove/schemas" +:+ dq +:+ ";" +:+ nl +:+
  "//" +:+ nl +:+
  "// Conventionally, it's common to make a _type alias_ for your script's output type" +:+ nl +:+
  "// and use that type name as the return type for your script function." +:+ nl +:+
  "// Here we've called the type `Output` but you can pick any type name." +:+ nl +:+
  "type Output = {" +:+ nl +:+
  "  hello: string;" +:+ nl +:+
  "};" +:+ nl +:+
  nl +:+
  "// These are the topics your script " +:+ dq +:+ "subscribes" +:+ dq +:+ " to. Studio will invoke your script function" +:+ nl +:+
  "// when any message is received on one of these topics." +:+ nl +:+
  "export const inputs = [" +:+ dq +:+ "/input/topic" +:+ dq +:+ "];" +:+ nl +:+
  nl +:+
  "// Any output your script produces is " +:+ dq +:+ "published" +:+ dq +:+ " to this topic. Published messages are only visible within Studio, not to your original data source." +:+ nl +:+
  "export const output = " +:+ dq +:+ "/studio_script/output_topic" +:+ dq +:+ ";" +:+ nl +:+
  nl +:+
  "// This function is called with messages from your input topics." +:+ nl +:+
  "// The first argument is an event with the topic, receive time, and message." +:+ nl +:+
  "// Use the `Input<...>` helper to get the correct event type for your input topic messages." +:+ nl +:+
  "export default function script(event: Input<" +:+ dq +:+ "/input/topic" +:+ dq +:+ ">): Output {" +:+ nl +:+
  "  return {" +:+ nl +:+
  "    hello: " +:+ dq +:+ "world!" +:+ dq +:+ "," +:+ nl +:+
  "  };" +:+ nl +:+
  "};".

(** [newNodeId.split("-")[0]]. *)
Fixpoint beforeDash (s : string) : string :=
  match s with
  | String.EmptyString => String.EmptyString
  | String.String c s' =>
      if bool_decide (c = Ascii.ascii_of_nat 45) then String.EmptyString
      else String.String c (beforeDash s')
  end.

(** Derived values of the render (lines 216-229). *)
Definition selectedNode (p : Panel) : option UserNode :=
  selectedNodeId (p_config p) ≫= objGet (p_userNodes p).

(** The scripts of the backstack, bottom first. *)
Definition p_backStack (p : Panel) : list Script := (p_scriptBackStack p).*2.

Definition currentScript (p : Panel) : option Script := last (p_backStack p).

Definition isCurrentScriptSelectedNode (p : Panel) : bool :=
  match selectedNode p, currentScript p with
  | Some n, Some s => bool_decide (filePath s = un_name n)
  | _, _ => false
  end.

Definition isNodeSaved (p : Panel) : bool :=
  match selectedNode p, currentScript p with
  | Some n, Some s =>
      negb (isCurrentScriptSelectedNode p) || bool_decide (code s = un_sourceCode n)
  | _, _ => true
  end.

(** The title of the name input (lines 236-240 and 282-284). *)
Definition titleOf (s : option Script) : string :=
  match s with
  | Some s => filePath s +:+ (if readOnly s then " (READONLY)" else String.EmptyString)
  | None => "script name"
  end.

(** [setScriptBackStack(bs)] followed by the title layout effect of lines
    280-286.  Its dependency is the [currentScript] object, which React
    compares by identity: the title is recomputed when the identity of the
    last entry changes (the stack becoming empty or non-empty included),
    and kept otherwise. *)
Definition setScriptBackStack (p : Panel) (bs : list (ScriptRef * Script)) : Panel :=
  mkPanel (p_config p) (p_userNodes p) bs
    (if bool_decide (fst <$> last (p_scriptBackStack p) = fst <$> last bs) then p_inputTitle p
     else titleOf (snd <$> last bs))
    (p_explorer p) (p_nextUid p).

Definition setInputTitle (p : Panel) (t : string) : Panel :=
  mkPanel (p_config p) (p_userNodes p) (p_scriptBackStack p) t (p_explorer p) (p_nextUid p).

(** [updateExplorer] (line 207). *)
Definition updateExplorer (p : Panel) (e : Explorer) : Panel :=
  mkPanel (p_config p) (p_userNodes p) (p_scriptBackStack p) (p_inputTitle p) e (p_nextUid p).

(** A new object literal [{name, sourceCode}]. *)
Definition newUserNode (p : Panel) (name sourceCode : string) : UserNode * Panel :=
  (mkUserNode name sourceCode (p_nextUid p),
   mkPanel (p_config p) (p_userNodes p) (p_scriptBackStack p) (p_inputTitle p) (p_explorer p)
     (S (p_nextUid p))).

(** A new script object literal [{filePath, code, readOnly}]. *)
Definition newScript (p : Panel) (s : Script) : (ScriptRef * Script) * Panel :=
  ((ScriptObj (p_nextUid p), s),
   mkPanel (p_config p) (p_userNodes p) (p_scriptBackStack p) (p_inputTitle p) (p_explorer p)
     (S (p_nextUid p))).

(** [...testItems] (lines 273-274): the objects of the config's array. *)
Definition testItems (config : Config) : list (ScriptRef * Script) :=
  imap (fun i s => (ExtraItem i, s)) (default [] (additionalBackStackItems config)).

(** The reset of the backstack by the layout effect of lines 271-276:
    a new script object for the node, then the configured items. *)
Definition resetBackStack (p : Panel) (n : UserNode) : Panel :=
  let '(top, p1) := newScript p (mkScript (un_name n) (un_sourceCode n) false) in
  setScriptBackStack p1 (top :: testItems (p_config p)).

(** [setUserNodes(partial)]: merge, dropping the keys set to [undefined]. *)
Definition setUserNodes (p : Panel) (updates : list (string * option UserNode)) : Panel :=
  mkPanel (p_config p)
    (foldl (fun o kv => match kv.2 with
                        | Some n => objSet o kv.1 n
                        | None => objDelete o kv.1
                        end) (p_userNodes p) updates)
    (p_scriptBackStack p) (p_inputTitle p) (p_explorer p) (p_nextUid p).

(** [saveConfig({selectedNodeId})] and [saveConfig({autoFormatOnSave})]. *)
Definition saveSelectedNodeId (p : Panel) (id : option string) : Panel :=
  mkPanel (mkConfig id (autoFormatOnSave (p_config p)) (additionalBackStackItems (p_config p)))
    (p_userNodes p) (p_scriptBackStack p) (p_inputTitle p) (p_explorer p) (p_nextUid p).

Definition saveAutoFormatOnSave (p : Panel) (v : bool) : Panel :=
  mkPanel (mkConfig (selectedNodeId (p_config p)) (Some v) (additionalBackStackItems (p_config p)))
    (p_userNodes p) (p_scriptBackStack p) (p_inputTitle p) (p_explorer p) (p_nextUid p).

(** ** The callbacks *)

(** [saveCurrentNode] (lines 288-299). *)
Definition saveCurrentNode (p : Panel) : Panel :=
  match selectedNodeId (p_config p), selectedNode p, currentScript p with
  | Some id, Some n, Some s =>
      if isCurrentScriptSelectedNode p then
        let '(n', p1) := newUserNode p (un_name n) (code s) in
        setUserNodes p1 [(id, Some n')]
      else p
  | _, _, _ => p
  end.

(** [addNewNode(code?)] (lines 301-315); [newNodeId] is the [uuidv4()]. *)
Definition addNewNode (newNodeId : string) (code : option string) (p : Panel) : Panel :=
  let p1 := saveCurrentNode p in
  let sourceCode := default skeletonBody code in
  let '(n, p2) := newUserNode p1 (beforeDash newNodeId) sourceCode in
  let p3 := setUserNodes p2 [(newNodeId, Some n)] in
  saveSelectedNodeId p3 (Some newNodeId).

(** [saveNode(script)] (lines 317-325). *)
Definition saveNode (script : option string) (p : Panel) : Panel :=
  match selectedNodeId (p_config p), script, selectedNode p with
  | Some id, Some s, Some n =>
      if bool_decide (s = String.EmptyString) then p
      else let '(n', p1) := newUserNode p (un_name n) s in setUserNodes p1 [(id, Some n')]
  | _, _, _ => p
  end.

(** [setScriptOverride(script, maxDepth?)] (lines 327-336); the editor
    hands over a new script object. *)
Definition setScriptOverride (script : Script) (maxDepth : option nat) (p : Panel) : Panel :=
  let '(s, p1) := newScript p script in
  let bs := p_scriptBackStack p in
  match maxDepth with
  | Some d =>
      if bool_decide (0 < d /\ d <= length bs)%nat then setScriptBackStack p1 (take (d - 1) bs ++ [s])
      else setScriptBackStack p1 (bs ++ [s])
  | None => setScriptBackStack p1 (bs ++ [s])
  end.

(** [goBack] (lines 338-340): [slice(0, length - 1)]. *)
Definition goBack (p : Panel) : Panel :=
  setScriptBackStack p (take (length (p_scriptBackStack p) - 1) (p_scriptBackStack p)).

(** The "Go back" button is shown (lines 412-413). *)
Definition goBackVisible (p : Panel) : bool := bool_decide (1 < length (p_backStack p))%nat.

(** [setScriptCode(code)] (lines 342-354). *)
Definition setScriptCode (newCode : string) (p : Panel) : Panel :=
  match last (p_scriptBackStack p) with
  | Some (_, s) =>
      if readOnly s then p
      else
        let '(s', p1) := newScript p (mkScript (filePath s) newCode (readOnly s)) in
        setScriptBackStack p1 (removelast (p_scriptBackStack p) ++ [s'])
  | None => p
  end.

(** [saveOnLeave] (lines 356-362), run when the panel unmounts. *)
Definition saveOnLeave (p : Panel) : Panel :=
  if isNodeSaved p then p else saveCurrentNode p.

(** The sidebar's [selectNode] and [deleteNode] (lines 389-396). *)
Definition selectNode (nodeId : string) (p : Panel) : Panel :=
  saveSelectedNodeId (saveCurrentNode p) (Some nodeId).

Definition deleteNode (nodeId : string) (p : Panel) : Panel :=
  saveSelectedNodeId (setUserNodes p [(nodeId, None)]) None.

(** Another panel of the layout deletes node [nodeId]: the layout's
    [setUserNodes({[nodeId]: undefined})] without this panel's config. *)
Definition externalDelete (nodeId : string) (p : Panel) : Panel :=
  setUserNodes p [(nodeId, None)].

(** The name input's [onChange] (lines 426-433), shown only when a node is
    selected. *)
Definition renameNode (newNodeName : string) (p : Panel) : Panel :=
  match selectedNodeId (p_config p), selectedNode p with
  | Some id, Some n =>
      let p1 := setInputTitle p newNodeName in
      let '(n', p2) := newUserNode p1 newNodeName (un_sourceCode n) in
      setUserNodes p2 [(id, Some n')]
  | _, _ => p
  end.

Record SettingsUpdate := mkSettingsUpdate { su_input : string; su_value : bool; su_path : list string }.

(** [SettingsTreeAction]: an "update" of a field or a node action. *)
Inductive SettingsAction :=
| SaUpdate (payload : SettingsUpdate)
| SaPerformNodeAction (id : string) (path : list string).

(** [actionHandler] (lines 249-261). *)
Definition actionHandler (a : SettingsAction) (p : Panel) : Panel :=
  match a with
  | SaUpdate u =>
      if bool_decide (su_input u = "boolean" /\ su_path u !! 1%nat = Some "autoFormatOnSave")
      then saveAutoFormatOnSave p (su_value u) else p
  | SaPerformNodeAction _ _ => p
  end.

(** A boolean field of the settings tree. *)
Record SettingsField := mkSettingsField {
  sf_input : string; sf_label : string; sf_value : option bool }.

(** [buildSettingsTree(config)] (lines 145-158): node -> field -> field. *)
Definition buildSettingsTree (config : Config) : list (string * list (string * SettingsField)) :=
  [("general", [("autoFormatOnSave",
      mkSettingsField "boolean" "Auto-format on save" (autoFormatOnSave config))])].

(** The field the settings editor shows at [[node; field]]. *)
Definition settingsFieldAt (tree : list (string * list (string * SettingsField)))
    (node field : string) : option SettingsField :=
  objGet tree node ≫= fun fields => objGet fields field.

(** The editor's option (line 195: [autoFormatOnSave = false]). *)
Definition effectiveAutoFormat (config : Config) : bool := default false (autoFormatOnSave config).

(** The layout effect of lines 270-278: when the selected node object
    changes, the backstack is reset to the node's saved script followed by
    the configured extra items. *)
Definition selectedNodeEffect (before after : Panel) : Panel :=
  if bool_decide (un_uid <$> selectedNode before = un_uid <$> selectedNode after) then after
  else match selectedNode after with
       | Some n => resetBackStack after n
       | None => after
       end.

Inductive Event :=
| EvAddNewNode (newNodeId : string) (code : option string)
| EvSave                               (* the bottom bar's save button, lines 499-501 *)
| EvSaveNode (script : option string)  (* the editor's [save] *)
| EvSetScriptOverride (script : Script) (maxDepth : option nat)
| EvGoBack
| EvSetScriptCode (code : string)
| EvSelectNode (nodeId : string)
| EvDeleteNode (nodeId : string)
| EvRename (newNodeName : string)
| EvSettingsAction (a : SettingsAction)
| EvUpdateExplorer (e : Explorer)
| EvExternalDelete (nodeId : string).  (* another panel deletes a node *)

Definition handler (ev : Event) (p : Panel) : Panel :=
  match ev with
  | EvAddNewNode id c => addNewNode id c p
  | EvSave => saveNode (code <$> currentScript p) p
  | EvSaveNode s => saveNode s p
  | EvSetScriptOverride s d => setScriptOverride s d p
  | EvGoBack => goBack p
  | EvSetScriptCode c => setScriptCode c p
  | EvSelectNode id => selectNode id p
  | EvDeleteNode id => deleteNode id p
  | EvRename n => renameNode n p
  | EvSettingsAction a => actionHandler a p
  | EvUpdateExplorer e => updateExplorer p e
  | EvExternalDelete id => externalDelete id p
  end.

(** One user event: the callback, then the effects of the re-render. *)
Definition dispatch (ev : Event) (p : Panel) : Panel := selectedNodeEffect p (handler ev p).

(** Mounting the panel over a config and the layout's nodes (lines
    220-240 and the first run of the layout effects). *)
Definition mount (config : Config) (userNodes : JsObj UserNode) (nextUid : nat) : Panel :=
  let p0 := mkPanel config userNodes [] (titleOf None) ExplorerNone nextUid in
  match selectedNode p0 with
  | Some n => resetBackStack p0 n
  | None => p0
  end.

(** [userNodeSelector] (lines 194-199): the selected layout's user
    nodes, the frozen empty object when the layout or its data is missing. *)
Definition userNodeSelector (selectedLayout : option (option (option (JsObj UserNode)))) : JsObj UserNode :=
  match selectedLayout with
  | Some (Some (Some nodes)) => nodes
  | _ => []
  end.

(** The welcome screen is rendered (line 452). *)
Definition welcomeScreenShown (p : Panel) : bool := bool_decide (selectedNodeId (p_config p) = None).

(** [defaultConfig] (lines 511-514). *)
Definition defaultConfig : Config := mkConfig None (Some true) None.

(** ** Invariant: object identities are fresh and the title follows the script *)

(** Every node object was created before the identity counter. *)
Definition uidFresh (p : Panel) : Prop :=
  forall id n, objGet (p_userNodes p) id = Some n -> (un_uid n < p_nextUid p)%nat.

(** The identities of the backstack's entries. *)
Definition stackRefs (p : Panel) : list ScriptRef := (p_scriptBackStack p).*1.

(** The backstack holds distinct objects, the script objects among them
    created before the identity counter. *)
Definition stackFresh (p : Panel) : Prop :=
  NoDup (stackRefs p) /\ forall u, ScriptObj u ∈ stackRefs p -> (u < p_nextUid p)%nat.

Record wf (p : Panel) : Prop := {
  wf_uid : uidFresh p;
  wf_stack : stackFresh p;
  wf_title : p_inputTitle p = titleOf (currentScript p);
}.

Inductive reachable : Panel -> Prop :=
| ReachMount config userNodes nextUid :
    (forall id n, objGet userNodes id = Some n -> (un_uid n < nextUid)%nat) ->
    reachable (mount config userNodes nextUid)
| ReachDispatch ev p : reachable p -> reachable (dispatch ev p).

Lemma last_fmap {A B} (f : A -> B) (l : list A) : last (f <$> l) = f <$> last l.
Proof.
  induction l as [|x l IH]; [done|]. destruct l as [|y l]; [done|].
  rewrite fmap_cons, !last_cons_cons. exact IH.
Qed.

Lemma currentScript_last p : currentScript p = snd <$> last (p_scriptBackStack p).
Proof. apply last_fmap. Qed.

Lemma last_ref_elem_of (l : list (ScriptRef * Script)) r : fst <$> last l = Some r -> r ∈ l.*1.
Proof. rewrite <- last_fmap. apply last_Some_elem_of. Qed.

Lemma testItems_nil c : default [] (additionalBackStackItems c) = [] -> testItems c = [].
Proof. unfold testItems. by intros ->. Qed.

Lemma testItems_scripts c : (testItems c).*2 = default [] (additionalBackStackItems c).
Proof.
  unfold testItems. rewrite fmap_imap.
  rewrite (imap_ext _ (const id)) by done. by rewrite imap_const, list_fmap_id.
Qed.

Lemma setScriptBackStack_stack p bs : p_scriptBackStack (setScriptBackStack p bs) = bs.
Proof. done. Qed.

Lemma selectedNode_resetBackStack a n : selectedNode (resetBackStack a n) = selectedNode a.
Proof. done. Qed.

Lemma setScriptBackStack_title p bs :
  p_inputTitle (setScriptBackStack p bs) =
    if bool_decide (fst <$> last (p_scriptBackStack p) = fst <$> last bs) then p_inputTitle p
    else titleOf (snd <$> last bs).
Proof. done. Qed.

Lemma resetBackStack_backStack a n :
  p_backStack (resetBackStack a n) =
    mkScript (un_name n) (un_sourceCode n) false :: default [] (additionalBackStackItems (p_config a)).
Proof. unfold resetBackStack, p_backStack. simpl. by rewrite testItems_scripts. Qed.

Lemma selectedNodeEffect_same before after :
  un_uid <$> selectedNode before = un_uid <$> selectedNode after ->
  selectedNodeEffect before after = after.
Proof. intros H. unfold selectedNodeEffect. by rewrite bool_decide_true. Qed.

(** [setScriptBackStack] keeps the invariant when the new stack holds
    distinct objects, its script objects created before the counter, and
    the title is already right in case the current object stays. *)
Lemma setScriptBackStack_wf p bs :
  uidFresh p -> NoDup bs.*1 -> (forall u, ScriptObj u ∈ bs.*1 -> (u < p_nextUid p)%nat) ->
  (fst <$> last (p_scriptBackStack p) = fst <$> last bs -> p_inputTitle p = titleOf (snd <$> last bs)) ->
  wf (setScriptBackStack p bs).
Proof.
  intros Hu Hnd Hf Ht. split; [exact Hu|split; [exact Hnd|exact Hf]|].
  rewrite currentScript_last. unfold setScriptBackStack. simpl. case_bool_decide; auto.
Qed.

(** Pushing a new script object on a prefix of the stack. *)
Lemma push_new_wf p k s :
  wf p ->
  wf (setScriptBackStack (newScript p s).2 (take k (p_scriptBackStack p) ++ [(newScript p s).1])).
Proof.
  intros [Hu [Hnd Hf] _]. unfold stackRefs in *.
  assert (Hsub : (take k (p_scriptBackStack p)).*1 `sublist_of` (p_scriptBackStack p).*1)
    by (rewrite fmap_take; apply sublist_take).
  assert (Hold : forall u, ScriptObj u ∈ (take k (p_scriptBackStack p)).*1 -> (u < p_nextUid p)%nat)
    by (intros u Hin; apply Hf, (elem_of_sublist _ _ _ Hin Hsub)).
  apply setScriptBackStack_wf; simpl.
  - intros id n Hn. simpl in *. specialize (Hu id n Hn). lia.
  - rewrite fmap_app. apply NoDup_app. split_and!.
    + eapply sublist_NoDup; eauto.
    + intros x Hx Hx'. apply list_elem_of_singleton in Hx'. subst x.
      specialize (Hold _ Hx). lia.
    + apply NoDup_singleton.
  - intros u. rewrite fmap_app, elem_of_app.
    intros [Hin%Hold|[= ->]%list_elem_of_singleton]; lia.
  - rewrite last_snoc. intros Hr%last_ref_elem_of%Hf. simpl in Hr. lia.
Qed.

Lemma goBack_wf p : wf p -> wf (goBack p).
Proof.
  intros [Hu [Hnd Hf] Ht]. unfold goBack, stackRefs in *.
  destruct (decide (p_scriptBackStack p = [])) as [E|E].
  { apply setScriptBackStack_wf; rewrite ?E; [done|constructor|set_solver|].
    by rewrite Ht, currentScript_last, E. }
  apply exists_last in E as (l & x & E). rewrite E in Hnd, Hf |- *.
  rewrite length_app, Nat.add_sub, take_app_length.
  rewrite fmap_app in Hnd, Hf. apply NoDup_app in Hnd as (Hnd & Hx & _).
  apply setScriptBackStack_wf; [done|done|intros u Hin; apply Hf, elem_of_app; by left|].
  rewrite E, last_snoc. intros Hr%eq_sym%last_ref_elem_of. exfalso. apply (Hx _ Hr). set_solver.
Qed.

(** The reset by a new node object when the config has no test items. *)
Lemma resetBackStack_wf a n :
  uidFresh a -> stackFresh a -> testItems (p_config a) = [] -> wf (resetBackStack a n).
Proof.
  intros Hu [_ Hf] Hx. unfold resetBackStack. simpl. rewrite Hx.
  apply setScriptBackStack_wf; simpl.
  - intros id m Hm. simpl in *. specialize (Hu id m Hm). lia.
  - apply NoDup_singleton.
  - intros u [= ->]%list_elem_of_singleton. lia.
  - intros Hr%last_ref_elem_of%Hf. simpl in Hr. lia.
Qed.

Lemma setUserNodes_uidFresh p updates :
  uidFresh p -> (forall k n, (k, Some n) ∈ updates -> (un_uid n < p_nextUid p)%nat) ->
  uidFresh (setUserNodes p updates).
Proof.
  unfold uidFresh, setUserNodes. cbn [p_userNodes p_nextUid]. generalize (p_userNodes p) as o.
  induction updates as [|[k [n0|]] updates IH]; intros o Ho Hu; cbn [foldl fst snd]; [done|..];
    (apply IH; [|intros k' n' Hin; apply (Hu k'); apply elem_of_cons; by right]).
  - intros id n. rewrite objGet_set. case_bool_decide; [|apply Ho].
    intros [= <-]. apply (Hu k). by apply elem_of_cons; left.
  - intros id n. rewrite objGet_delete. case_bool_decide; [done|apply Ho].
Qed.

Lemma newUserNode_uidFresh p name sourceCode id n' p1 :
  newUserNode p name sourceCode = (n', p1) -> uidFresh p -> uidFresh (setUserNodes p1 [(id, Some n')]).
Proof.
  intros [= <- <-] Hp. apply setUserNodes_uidFresh.
  - intros i n Hn. specialize (Hp i n Hn). simpl. lia.
  - intros k n [[= _ ->]|Hn%elem_of_nil]%elem_of_cons; [simpl; lia|done].
Qed.

(** A callback that leaves the backstack and the title alone, keeps the
    identities fresh and does not move the counter back. *)
Definition keepsView (p p' : Panel) : Prop :=
  p_scriptBackStack p' = p_scriptBackStack p /\ p_inputTitle p' = p_inputTitle p /\
  (uidFresh p -> uidFresh p') /\ (p_nextUid p <= p_nextUid p')%nat.

Lemma keepsView_refl p : keepsView p p.
Proof. by split_and!. Qed.

Lemma keepsView_trans p1 p2 p3 : keepsView p1 p2 -> keepsView p2 p3 -> keepsView p1 p3.
Proof. intros (? & ? & ? & ?) (? & ? & ? & ?). split_and!; [congruence|congruence|auto|lia]. Qed.

Lemma keepsView_saveSelectedNodeId p id : keepsView p (saveSelectedNodeId p id).
Proof. by split_and!. Qed.

Lemma keepsView_newNode p name sourceCode id n' p1 :
  newUserNode p name sourceCode = (n', p1) -> keepsView p (setUserNodes p1 [(id, Some n')]).
Proof.
  intros E. split_and!; [by inversion E|by inversion E|by eapply newUserNode_uidFresh|].
  inversion E. simpl. lia.
Qed.

#[local] Hint Resolve keepsView_refl keepsView_saveSelectedNodeId : sviz.
#[local] Hint Extern 1 (keepsView _ (setUserNodes _ _)) => eapply keepsView_newNode; eassumption : sviz.

Lemma keepsView_saveCurrentNode p : keepsView p (saveCurrentNode p).
Proof.
  unfold saveCurrentNode. destruct (selectedNodeId (p_config p)), (selectedNode p), (currentScript p); auto with sviz.
  destruct (isCurrentScriptSelectedNode p); [|auto with sviz].
  destruct (newUserNode _ _ _) eqn:E. eauto with sviz.
Qed.

#[local] Hint Resolve keepsView_saveCurrentNode : sviz.

Lemma keepsView_saveNode script p : keepsView p (saveNode script p).
Proof.
  unfold saveNode. destruct (selectedNodeId (p_config p)), script, (selectedNode p); auto with sviz.
  case_bool_decide; [auto with sviz|]. destruct (newUserNode _ _ _) eqn:E. eauto with sviz.
Qed.

Lemma keepsView_addNewNode id c p : keepsView p (addNewNode id c p).
Proof.
  unfold addNewNode. destruct (newUserNode _ _ _) eqn:E.
  eapply keepsView_trans; [apply keepsView_saveCurrentNode|].
  eapply keepsView_trans; [eapply keepsView_newNode, E|apply keepsView_saveSelectedNodeId].
Qed.

Lemma keepsView_deleteNode id p : keepsView p (deleteNode id p).
Proof.
  split_and!; [done|done| |done]. intros Hp. apply setUserNodes_uidFresh; [done|].
  intros k n [[=]|[]%elem_of_nil]%elem_of_cons.
Qed.

Lemma keepsView_externalDelete id p : keepsView p (externalDelete id p).
Proof.
  split_and!; [done|done| |done]. intros Hp. apply setUserNodes_uidFresh; [done|].
  intros k n [[=]|[]%elem_of_nil]%elem_of_cons.
Qed.

Lemma keepsView_actionHandler a p : keepsView p (actionHandler a p).
Proof. unfold actionHandler. destruct a; [case_bool_decide|]; by split_and!. Qed.

Lemma keepsView_updateExplorer p e : keepsView p (updateExplorer p e).
Proof. by split_and!. Qed.

Lemma keepsView_stackFresh p p' : keepsView p p' -> stackFresh p -> stackFresh p'.
Proof.
  intros (Hb & _ & _ & Hn) [Hnd Hf]. unfold stackFresh, stackRefs in *. rewrite Hb.
  split; [done|]. intros u Hu%Hf. lia.
Qed.

Lemma keepsView_wf p p' : keepsView p p' -> wf p -> wf p'.
Proof.
  intros Hk [Hu Hs Ht]. pose proof Hk as (Hb & Ht' & Hu' & _). split; [auto|by eapply keepsView_stackFresh|].
  rewrite !currentScript_last in *. by rewrite Ht', Hb.
Qed.

Lemma selectedNodeEffect_wf b a :
  uidFresh a -> stackFresh a -> testItems (p_config a) = [] ->
  (p_inputTitle a = titleOf (currentScript a) \/
   (un_uid <$> selectedNode b ≠ un_uid <$> selectedNode a /\ is_Some (selectedNode a))) ->
  wf (selectedNodeEffect b a).
Proof.
  intros Hu Hs Hx Ht. unfold selectedNodeEffect. case_bool_decide as E.
  - destruct Ht as [Ht|[Hne _]]; [by split|done].
  - destruct (selectedNode a) as [n|] eqn:Hn; [by apply resetBackStack_wf|].
    destruct Ht as [Ht|[_ [? ?]]]; [by split|done].
Qed.

Lemma renameNode_fires newName p n :
  uidFresh p -> selectedNode p = Some n ->
  exists n', selectedNode (renameNode newName p) = Some n' /\ (un_uid n < un_uid n')%nat /\
    un_name n' = newName /\ un_sourceCode n' = un_sourceCode n.
Proof.
  intros Hu Hn. unfold renameNode. pose proof Hn as Hn'. unfold selectedNode in Hn'.
  destruct (selectedNodeId (p_config p)) as [id|] eqn:Hid; [|done]. simpl in Hn'.
  rewrite Hn. eexists. unfold selectedNode. simpl. rewrite Hid. simpl.
  rewrite objGet_set_eq. split_and!; [done| |done|done]. simpl. by apply (Hu id).
Qed.

Lemma renameNode_view newName p :
  p_scriptBackStack (renameNode newName p) = p_scriptBackStack p /\
  (uidFresh p -> uidFresh (renameNode newName p)) /\ (p_nextUid p <= p_nextUid (renameNode newName p))%nat.
Proof.
  unfold renameNode. destruct (selectedNodeId (p_config p)), (selectedNode p); try by split_and!.
  destruct (newUserNode _ _ _) eqn:E. split_and!; [by inversion E|intros Hu; eapply newUserNode_uidFresh; [exact E|exact Hu]|].
  inversion E. simpl. lia.
Qed.

Lemma keepsView_effect_wf p a :
  wf p -> keepsView p a -> testItems (p_config a) = [] -> wf (selectedNodeEffect p a).
Proof.
  intros Hw Hk Hx. destruct (keepsView_wf _ _ Hk Hw) as [Hu Hs Ht].
  apply selectedNodeEffect_wf; auto.
Qed.

Lemma wf_effect_wf p a : wf a -> testItems (p_config a) = [] -> wf (selectedNodeEffect p a).
Proof. intros [Hu Hs Ht] Hx. apply selectedNodeEffect_wf; auto. Qed.

Lemma setScriptOverride_wf script d p : wf p -> wf (setScriptOverride script d p).
Proof.
  intros Hw. unfold setScriptOverride. destruct (newScript p script) as [s p1] eqn:E.
  pose proof (push_new_wf p (length (p_scriptBackStack p)) script Hw) as Hall.
  rewrite firstn_all, E in Hall.
  destruct d as [d|]; [case_bool_decide|]; [|exact Hall|exact Hall].
  pose proof (push_new_wf p (d - 1) script Hw) as Hd. by rewrite E in Hd.
Qed.

Lemma setScriptCode_wf c p : wf p -> wf (setScriptCode c p).
Proof.
  intros Hw. unfold setScriptCode. destruct (last (p_scriptBackStack p)) as [[r s]|]; [|done].
  destruct (readOnly s); [done|]. destruct (newScript p _) as [s' p1] eqn:E.
  pose proof (push_new_wf p (pred (length (p_scriptBackStack p))) (mkScript (filePath s) c false) Hw) as H.
  by rewrite E, <- removelast_firstn_len in H.
Qed.

(** The config's test items never change. *)
Lemma handler_extras ev p :
  additionalBackStackItems (p_config (handler ev p)) = additionalBackStackItems (p_config p).
Proof.
  destruct ev; cbn [handler];
    unfold addNewNode, selectNode, saveCurrentNode, saveNode, setScriptOverride, goBack, setScriptCode,
      deleteNode, renameNode, actionHandler, externalDelete, newUserNode, newScript;
    repeat case_match; simplify_eq; reflexivity.
Qed.

Lemma dispatch_extras ev p :
  additionalBackStackItems (p_config (dispatch ev p)) = additionalBackStackItems (p_config p).
Proof.
  unfold dispatch, selectedNodeEffect. rewrite <- (handler_extras ev p).
  case_bool_decide; [done|]. destruct (selectedNode (handler ev p)); [|done].
  unfold resetBackStack. done.
Qed.

Lemma dispatch_wf ev p : wf p -> testItems (p_config p) = [] -> wf (dispatch ev p).
Proof.
  intros Hw Hx0.
  assert (Hx : testItems (p_config (handler ev p)) = []) by (unfold testItems; by rewrite handler_extras).
  unfold dispatch. clear Hx0. destruct ev; cbn [handler] in *.
  - apply keepsView_effect_wf; [done|apply keepsView_addNewNode|done].
  - apply keepsView_effect_wf; [done|apply keepsView_saveNode|done].
  - apply keepsView_effect_wf; [done|apply keepsView_saveNode|done].
  - apply wf_effect_wf; [by apply setScriptOverride_wf|done].
  - apply wf_effect_wf; [by apply goBack_wf|done].
  - apply wf_effect_wf; [by apply setScriptCode_wf|done].
  - apply keepsView_effect_wf; [done| |done]. unfold selectNode.
    eapply keepsView_trans; [apply keepsView_saveCurrentNode|apply keepsView_saveSelectedNodeId].
  - apply keepsView_effect_wf; [done|apply keepsView_deleteNode|done].
  - destruct (renameNode_view newNodeName p) as (Hb & Hu & Hn).
    destruct Hw as [Hu0 Hs0 Ht0].
    assert (Hs : stackFresh (renameNode newNodeName p)).
    { destruct Hs0 as [Hnd Hf]. unfold stackFresh, stackRefs. rewrite Hb.
      split; [done|]. intros u Hu'%Hf. lia. }
    destruct (selectedNode p) as [n|] eqn:Hn0.
    + destruct (renameNode_fires newNodeName p n Hu0 Hn0) as (n' & Hn' & Hlt & _).
      apply selectedNodeEffect_wf; [by apply Hu|done|done|right].
      rewrite Hn0, Hn'. split; [|by eexists]. intros [= ?]. lia.
    + apply wf_effect_wf; [|done]. unfold renameNode in *. rewrite Hn0 in *.
      destruct (selectedNodeId _); by split.
  - apply keepsView_effect_wf; [done|apply keepsView_actionHandler|done].
  - apply keepsView_effect_wf; [done|apply keepsView_updateExplorer|done].
  - apply keepsView_effect_wf; [done|apply keepsView_externalDelete|done].
Qed.

Lemma mount_wf config userNodes nextUid :
  (forall id n, objGet userNodes id = Some n -> (un_uid n < nextUid)%nat) ->
  testItems config = [] -> wf (mount config userNodes nextUid).
Proof.
  intros Hu Hx. unfold mount. destruct (selectedNode _) as [n|].
  - apply resetBackStack_wf; [exact Hu|split; [constructor|set_solver]|exact Hx].
  - split; [exact Hu|split; [constructor|set_solver]|done].
Qed.

(** Claim C15: in every state of the panel reachable from mounting it
    with a config without [additionalBackStackItems] (the panel's own
    configs; the items are a testing hook), the node objects' identities
    are fresh and the name input shows the current script's title: its
    path, with " (READONLY)" for a read-only script, or "script name" when
    the backstack is empty.  With test items the title can go stale after
    a rename, as the example session below shows. *)
Theorem reachable_title p :
  reachable p -> default [] (additionalBackStackItems (p_config p)) = [] ->
  p_inputTitle p = titleOf (currentScript p) /\ uidFresh p.
Proof.
  intros Hr Hx. enough (wf p) as [? ? ?] by done.
  induction Hr as [config userNodes nextUid Hu|ev p Hr IH].
  - apply mount_wf, testItems_nil; [exact Hu|]. unfold mount in Hx.
    destruct (selectedNode _); [unfold resetBackStack in Hx|]; exact Hx.
  - rewrite dispatch_extras in Hx. apply dispatch_wf; [by apply IH|by apply testItems_nil].
Qed.


(** ** Behaviour of the events *)

Lemma selectedNode_setScriptBackStack p bs : selectedNode (setScriptBackStack p bs) = selectedNode p.
Proof. done. Qed.

Lemma saveCurrentNode_next p : (p_nextUid p <= p_nextUid (saveCurrentNode p))%nat.
Proof.
  unfold saveCurrentNode. destruct (selectedNodeId (p_config p)), (selectedNode p), (currentScript p); try done.
  destruct (isCurrentScriptSelectedNode p); simpl; lia.
Qed.

(** The backstack operations leave the selected node alone, so the
    layout effect does nothing after them. *)
Lemma dispatch_backStack_op ev p :
  (exists s d, ev = EvSetScriptOverride s d) \/ ev = EvGoBack \/ (exists c, ev = EvSetScriptCode c) ->
  dispatch ev p = handler ev p.
Proof.
  intros Hev. unfold dispatch. apply selectedNodeEffect_same.
  destruct Hev as [(s & d & ->)|[->|(c & ->)]]; cbn [handler].
  - unfold setScriptOverride. destruct d; [case_bool_decide|]; done.
  - done.
  - unfold setScriptCode. destruct (last _) as [[r s]|]; [destruct (readOnly s)|]; done.
Qed.

(** Saving a non-empty script replaces the selected node by a new object
    holding it; the layout effect then resets the backstack. *)
Lemma saveNode_nonempty script p n :
  uidFresh p -> selectedNode p = Some n -> script ≠ String.EmptyString ->
  exists n', selectedNode (dispatch (EvSaveNode (Some script)) p) = Some n' /\
    un_sourceCode n' = script /\ un_name n' = un_name n /\
    p_backStack (dispatch (EvSaveNode (Some script)) p) =
      mkScript (un_name n) script false :: default [] (additionalBackStackItems (p_config p)).
Proof.
  intros Hu Hn Hs. pose proof Hn as Hn'. unfold selectedNode in Hn'.
  destruct (selectedNodeId (p_config p)) as [id|] eqn:Hid; [|done]. simpl in Hn'.
  assert (Hsel : selectedNode (saveNode (Some script) p) = Some (mkUserNode (un_name n) script (p_nextUid p))).
  { unfold saveNode. rewrite Hid, Hn, bool_decide_false by done.
    unfold selectedNode. simpl. rewrite Hid. simpl. by rewrite objGet_set_eq. }
  unfold dispatch. cbn [handler]. unfold selectedNodeEffect. rewrite Hsel, Hn.
  rewrite bool_decide_false by (simpl; intros [= ?]; specialize (Hu id n Hn'); lia).
  eexists. split_and!; [done|done|done|]. rewrite resetBackStack_backStack.
  unfold saveNode. rewrite Hid, Hn, bool_decide_false by done. done.
Qed.

(** Claim C34: overriding the current script with a depth limit [d > 0]
    keeps a backstack of at most [d] scripts within [d]: the new script is
    on top, and when [d > 1] the bottom entry (the node's own script) is
    kept, the entries dropped being those just below the top. *)
Theorem setScriptOverride_depth script d p :
  (0 < d)%nat -> (length (p_backStack p) <= d)%nat ->
  (length (p_backStack (dispatch (EvSetScriptOverride script (Some d)) p)) <= d)%nat /\
  currentScript (dispatch (EvSetScriptOverride script (Some d)) p) = Some script /\
  ((1 < d)%nat -> p_backStack p ≠ [] ->
   head (p_backStack (dispatch (EvSetScriptOverride script (Some d)) p)) = head (p_backStack p)).
Proof.
  intros Hd Hl. rewrite dispatch_backStack_op by (left; by do 2 eexists).
  cbn [handler]. unfold setScriptOverride, currentScript, p_backStack in *. cbn [newScript fst snd].
  rewrite length_fmap in Hl.
  case_bool_decide as Hc; rewrite !setScriptBackStack_stack, fmap_app, fmap_cons, fmap_nil, last_snoc, length_app, length_fmap; cbn [snd length].
  - rewrite length_take. split_and!; [lia|done|].
    intros Hd1 Hne. destruct (p_scriptBackStack p) as [|x bs]; [done|].
    destruct d as [|[|d]]; [lia|lia|done].
  - split_and!; [lia|done|]. intros _ Hne. by destruct (p_scriptBackStack p).
Qed.

(** Claim C35: going back after opening a script without a depth limit
    restores the backstack and the title shown before. *)
Theorem goBack_setScriptOverride script p :
  wf p ->
  p_backStack (dispatch EvGoBack (dispatch (EvSetScriptOverride script None) p)) = p_backStack p /\
  p_inputTitle (dispatch EvGoBack (dispatch (EvSetScriptOverride script None) p)) = p_inputTitle p.
Proof.
  intros [_ [_ Hf] Ht]. rewrite !dispatch_backStack_op by (first [left; by do 2 eexists|by right; left]).
  cbn [handler]. unfold goBack, setScriptOverride. cbn [newScript fst snd].
  rewrite setScriptBackStack_title, !setScriptBackStack_stack, length_app, Nat.add_sub, take_app_length.
  split; [done|]. rewrite last_snoc. case_bool_decide as E.
  - exfalso. symmetry in E. simpl in E. apply last_ref_elem_of, Hf in E. simpl in E. lia.
  - by rewrite Ht, currentScript_last.
Qed.

Lemma iter_goBack_stack k p :
  p_scriptBackStack (Nat.iter k (dispatch EvGoBack) p) =
    take (length (p_scriptBackStack p) - k) (p_scriptBackStack p).
Proof.
  induction k as [|k IH]; simpl; [by rewrite Nat.sub_0_r, firstn_all|].
  rewrite dispatch_backStack_op by (right; by left). cbn [handler]. unfold goBack.
  rewrite setScriptBackStack_stack, IH, length_take, take_take. f_equal. lia.
Qed.

Lemma iter_goBack_backStack k p :
  p_backStack (Nat.iter k (dispatch EvGoBack) p) = take (length (p_backStack p) - k) (p_backStack p).
Proof. unfold p_backStack. by rewrite iter_goBack_stack, length_fmap, fmap_take. Qed.

(** Claim C21: going back always ends at the node's own script: while
    the "Go back" button is shown a click removes the top script, so after
    exactly one click per script above the bottom one the button is gone,
    the bottom script is current and the name input shows its title. *)
Theorem goBack_reaches_base p b rest :
  wf p -> p_backStack p = b :: rest ->
  (forall k, (k < length rest)%nat -> goBackVisible (Nat.iter k (dispatch EvGoBack) p) = true) /\
  p_backStack (Nat.iter (length rest) (dispatch EvGoBack) p) = [b] /\
  goBackVisible (Nat.iter (length rest) (dispatch EvGoBack) p) = false /\
  p_inputTitle (Nat.iter (length rest) (dispatch EvGoBack) p) = titleOf (Some b).
Proof.
  intros [_ [Hnd _] Ht] Hbs. unfold goBackVisible. rewrite !iter_goBack_backStack, Hbs.
  replace (length (b :: rest) - length rest)%nat with 1%nat by (simpl; lia).
  split_and!; [|done|done|].
  - intros k Hk. rewrite bool_decide_true; [done|]. rewrite iter_goBack_backStack, Hbs, length_take. simpl. lia.
  - destruct rest as [|r rest]; simpl length; [change (Nat.iter 0 (dispatch EvGoBack) p) with p|rewrite Nat.iter_succ].
    + rewrite Ht. unfold currentScript. by rewrite Hbs.
    + rewrite dispatch_backStack_op by (right; by left). cbn [handler]. unfold goBack.
      rewrite setScriptBackStack_title, iter_goBack_stack. unfold stackRefs, p_backStack in *.
      destruct (p_scriptBackStack p) as [|[rb sb] [|[rr sr] l]]; simplify_eq/=.
      replace (S (S (length l)) - length (l.*2))%nat with 2%nat by (rewrite length_fmap; lia).
      simpl. rewrite bool_decide_false; [done|]. apply NoDup_cons in Hnd as [Hn _]. set_solver.
Qed.

(** Claim C16: renaming the selected node resets the backstack to the
    node's saved source under the new name, so an edit of the current
    script that was not saved is dropped and the node then reads as saved. *)
Theorem rename_discards_unsaved newName p n :
  uidFresh p -> selectedNode p = Some n -> additionalBackStackItems (p_config p) = None ->
  p_backStack (dispatch (EvRename newName) p) = [mkScript newName (un_sourceCode n) false] /\
  isNodeSaved (dispatch (EvRename newName) p) = true.
Proof.
  intros Hu Hn Hx. destruct (renameNode_fires newName p n Hu Hn) as (n' & Hn' & Hlt & Hname & Hsrc).
  unfold dispatch. cbn [handler]. unfold selectedNodeEffect. rewrite Hn, Hn'.
  rewrite bool_decide_false by (simpl; intros [= ?]; lia).
  assert (Hcfg : p_config (renameNode newName p) = p_config p).
  { unfold renameNode. destruct (selectedNodeId _), (selectedNode p); done. }
  split.
  - by rewrite resetBackStack_backStack, Hcfg, Hx, Hname, Hsrc.
  - unfold isNodeSaved, isCurrentScriptSelectedNode. rewrite selectedNode_resetBackStack, Hn'.
    unfold currentScript. rewrite resetBackStack_backStack, Hcfg, Hx. simpl.
    rewrite Hname, Hsrc, !bool_decide_true by done. done.
Qed.

(** Claim C37: [saveNode] ignores an empty script; a non-empty one becomes
    the selected node's source, under the same name, and the backstack is
    reset to that script. *)
Theorem saveNode_spec script p n :
  uidFresh p -> selectedNode p = Some n ->
  (script = String.EmptyString -> dispatch (EvSaveNode (Some script)) p = p) /\
  (script ≠ String.EmptyString ->
   exists n', selectedNode (dispatch (EvSaveNode (Some script)) p) = Some n' /\
     un_sourceCode n' = script /\ un_name n' = un_name n /\
     p_backStack (dispatch (EvSaveNode (Some script)) p) =
       mkScript (un_name n) script false :: default [] (additionalBackStackItems (p_config p))).
Proof.
  intros Hu Hn. split; [|by apply saveNode_nonempty].
  intros ->. unfold dispatch. cbn [handler]. unfold saveNode.
  destruct (selectedNodeId (p_config p)), (selectedNode p); by apply selectedNodeEffect_same.
Qed.

(** Claim C17: the save action of the bottom bar writes the code of the
    current script into the selected node whatever that script is: when
    the editor shows another script (an override), its code replaces the
    node's source. *)
Theorem save_writes_current_script p n s :
  uidFresh p -> selectedNode p = Some n -> currentScript p = Some s -> code s ≠ String.EmptyString ->
  exists n', selectedNode (dispatch EvSave p) = Some n' /\ un_sourceCode n' = code s /\
    un_name n' = un_name n.
Proof.
  intros Hu Hn Hs Hc.
  assert (dispatch EvSave p = dispatch (EvSaveNode (Some (code s))) p) as ->.
  { unfold dispatch. cbn [handler]. by rewrite Hs. }
  destruct (saveNode_nonempty (code s) p n Hu Hn Hc) as (n' & ? & ? & ? & _). by exists n'.
Qed.

(** Claim C23: unmounting the panel never loses an edit of the selected
    node's own script: [saveOnLeave] does nothing when the node reads as
    saved, and otherwise leaves the node holding the current script's code
    under its name. *)
Theorem saveOnLeave_saves_edits p n s :
  selectedNode p = Some n -> currentScript p = Some s ->
  (isNodeSaved p = true -> saveOnLeave p = p) /\
  (isCurrentScriptSelectedNode p = true ->
   exists n', selectedNode (saveOnLeave p) = Some n' /\ un_sourceCode n' = code s /\
     un_name n' = un_name n).
Proof.
  intros Hn Hs. unfold saveOnLeave. split; [by intros ->|]. intros Hc.
  destruct (isNodeSaved p) eqn:Hsaved.
  - exists n. split_and!; [done| |done]. unfold isNodeSaved in Hsaved.
    rewrite Hn, Hs, Hc in Hsaved. simpl in Hsaved. by apply bool_decide_eq_true in Hsaved.
  - pose proof Hn as Hn'. unfold selectedNode in Hn'.
    destruct (selectedNodeId (p_config p)) as [id|] eqn:Hid; [|done].
    unfold saveCurrentNode. rewrite Hid, Hn, Hs, Hc. simpl.
    exists (mkUserNode (un_name n) (code s) (p_nextUid p)). split_and!; [|done|done].
    unfold selectedNode. simpl. rewrite Hid. simpl. by rewrite objGet_set_eq.
Qed.

(** Claim C36: the settings tree round trip: toggling "Auto-format on
    save" in the panel settings (an update of the boolean field at
    [["general"; "autoFormatOnSave"]]) makes the rebuilt tree show the new
    value and the editor use it, and leaves the nodes and the backstack
    alone. *)
Theorem settings_autoFormat_roundtrip p v :
  settingsFieldAt (buildSettingsTree (p_config
      (dispatch (EvSettingsAction (SaUpdate (mkSettingsUpdate "boolean" v ["general"; "autoFormatOnSave"]))) p)))
    "general" "autoFormatOnSave" = Some (mkSettingsField "boolean" "Auto-format on save" (Some v)) /\
  effectiveAutoFormat (p_config
      (dispatch (EvSettingsAction (SaUpdate (mkSettingsUpdate "boolean" v ["general"; "autoFormatOnSave"]))) p)) = v /\
  p_userNodes (dispatch (EvSettingsAction (SaUpdate (mkSettingsUpdate "boolean" v ["general"; "autoFormatOnSave"]))) p) =
    p_userNodes p /\
  p_backStack (dispatch (EvSettingsAction (SaUpdate (mkSettingsUpdate "boolean" v ["general"; "autoFormatOnSave"]))) p) =
    p_backStack p.
Proof.
  unfold dispatch. cbn [handler]. unfold actionHandler. cbn [su_input su_path su_value].
  rewrite bool_decide_true by done.
  rewrite selectedNodeEffect_same by done. by split_and!.
Qed.

(** Claim C38: when another panel of the layout deletes this panel's
    selected node, the panel keeps the stale selection: the welcome screen
    stays hidden, no node is selected, the editor keeps showing the
    deleted node's script, and saving it does nothing at all. *)
Theorem external_delete_stale id n p :
  selectedNodeId (p_config p) = Some id -> selectedNode p = Some n ->
  welcomeScreenShown (dispatch (EvExternalDelete id) p) = false /\
  selectedNode (dispatch (EvExternalDelete id) p) = None /\
  p_backStack (dispatch (EvExternalDelete id) p) = p_backStack p /\
  (forall s, dispatch (EvSaveNode s) (dispatch (EvExternalDelete id) p) =
             dispatch (EvExternalDelete id) p).
Proof.
  intros Hid Hn.
  assert (Hsel : selectedNode (externalDelete id p) = None).
  { unfold selectedNode, externalDelete. simpl. rewrite Hid. simpl. apply objGet_delete_eq. }
  assert (Hd : dispatch (EvExternalDelete id) p = externalDelete id p).
  { unfold dispatch, selectedNodeEffect. cbn [handler]. rewrite Hsel.
    case_bool_decide; [done|]. done. }
  rewrite Hd. unfold welcomeScreenShown. split_and!; [|done|done|].
  - rewrite bool_decide_false; [done|]. simpl. by rewrite Hid.
  - intros sc. unfold dispatch. cbn [handler]. unfold saveNode. rewrite Hsel.
    destruct (selectedNodeId _), sc; rewrite selectedNodeEffect_same; done.
Qed.

(** Claim C39: deleting the selected node removes it and clears the
    selection, but leaves the backstack as it was: the editor keeps the
    deleted node's script. *)
Theorem deleteNode_keeps_backstack id p :
  selectedNodeId (p_config p) = Some id ->
  objGet (p_userNodes (dispatch (EvDeleteNode id) p)) id = None /\
  selectedNode (dispatch (EvDeleteNode id) p) = None /\
  p_backStack (dispatch (EvDeleteNode id) p) = p_backStack p.
Proof.
  intros Hid. unfold dispatch. cbn [handler].
  assert (Hsel : selectedNode (deleteNode id p) = None) by done.
  unfold selectedNodeEffect. rewrite Hsel.
  case_bool_decide; (split_and!; [apply objGet_delete_eq|done|done]).
Qed.

(** Adding a node (with the given [uuidv4()] id) selects it; the
    node is named after the id's first dash-separated segment, holds the
    given code or the skeleton, and the backstack is reset to its script. *)
Theorem addNewNode_selects newNodeId c p :
  uidFresh p ->
  selectedNodeId (p_config (dispatch (EvAddNewNode newNodeId c) p)) = Some newNodeId /\
  exists n', selectedNode (dispatch (EvAddNewNode newNodeId c) p) = Some n' /\
    un_name n' = beforeDash newNodeId /\ un_sourceCode n' = default skeletonBody c /\
    p_backStack (dispatch (EvAddNewNode newNodeId c) p) =
      mkScript (beforeDash newNodeId) (default skeletonBody c) false ::
        default [] (additionalBackStackItems (p_config p)).
Proof.
  intros Hu.
  assert (Hcfg : p_config (saveCurrentNode p) = p_config p).
  { unfold saveCurrentNode. destruct (selectedNodeId _), (selectedNode p), (currentScript p); try done.
    by destruct (isCurrentScriptSelectedNode p). }
  set (n' := mkUserNode (beforeDash newNodeId) (default skeletonBody c) (p_nextUid (saveCurrentNode p))).
  assert (Hsel : selectedNode (addNewNode newNodeId c p) = Some n').
  { unfold selectedNode, addNewNode. simpl. by rewrite objGet_set_eq. }
  assert (Hold : un_uid <$> selectedNode p ≠ Some (un_uid n')).
  { pose proof (saveCurrentNode_next p). unfold selectedNode.
    destruct (selectedNodeId _) as [id|]; simpl; [|done].
    destruct (objGet _ id) as [n|] eqn:Hn; simpl; [|done].
    intros [= ?]. specialize (Hu id n Hn). subst n'. simpl in *. lia. }
  unfold dispatch. cbn [handler]. unfold selectedNodeEffect. rewrite Hsel.
  rewrite bool_decide_false by done. split; [done|].
  exists n'. split_and!; [apply Hsel|done|done|]. rewrite resetBackStack_backStack. simpl. by rewrite Hcfg.
Qed.

(** ** A concrete session: one node, an unsaved edit, then a utility file opened *)

Definition exNodes : JsObj UserNode := [("a1b2c3-d4", mkUserNode "hello" "code v1" 0)].
Definition exConfig : Config := mkConfig (Some "a1b2c3-d4") (Some true) None.
Definition exPanel0 : Panel := mount exConfig exNodes 1.
Definition exPanel1 : Panel := dispatch (EvSetScriptCode "code v2") exPanel0.
Definition exUtils : Script := mkScript "utils/math.ts" "export {}" false.
Definition exPanel2 : Panel := dispatch (EvSetScriptOverride exUtils (Some 2)) exPanel1.

Lemma exNodes_fresh : forall id n, objGet exNodes id = Some n -> (un_uid n < 1)%nat.
Proof. intros id n. simpl. case_bool_decide; [intros [= <-]; simpl; lia|done]. Qed.

Definition exTestItem : Script := mkScript "test/item.ts" "// item" true.
Definition exConfigItems : Config := mkConfig (Some "a1b2c3-d4") (Some true) (Some [exTestItem]).


(** There: the editor shows the test item, the input the typed name. *)
Example exRename_testItems :
  currentScript (dispatch (EvRename "renamed") (mount exConfigItems exNodes 1)) = Some exTestItem /\
  p_inputTitle (dispatch (EvRename "renamed") (mount exConfigItems exNodes 1)) = "renamed" /\
  titleOf (Some exTestItem) = "test/item.ts (READONLY)".
Proof. vm_compute. auto. Qed.

Lemma exPanel1_wf : wf exPanel1.
Proof. apply dispatch_wf; [apply mount_wf; [exact exNodes_fresh|reflexivity]|reflexivity]. Qed.

Lemma exPanel2_wf : wf exPanel2.
Proof. apply dispatch_wf; [apply exPanel1_wf|reflexivity]. Qed.

(** The unsaved "code v2" is gone after a rename. *)
Example exRename_drops_edit :
  currentScript exPanel1 = Some (mkScript "hello" "code v2" false) /\
  isNodeSaved exPanel1 = false /\
  p_backStack (dispatch (EvRename "renamed") exPanel1) = [mkScript "renamed" "code v1" false].
Proof. vm_compute. auto. Qed.

(** Saving while the utility file is shown stores its code in the node. *)
Example exSave_override :
  (un_sourceCode <$> selectedNode (dispatch EvSave exPanel2)) = Some "export {}".
Proof. vm_compute. reflexivity. Qed.

Lemma reachable_title_witness :
  default [] (additionalBackStackItems (p_config exPanel2)) = [] /\
  p_inputTitle exPanel2 = titleOf (currentScript exPanel2) /\ uidFresh exPanel2.
Proof.
  split; [reflexivity|]. apply reachable_title; [|reflexivity].
  unfold exPanel2, exPanel1. apply ReachDispatch, ReachDispatch, ReachMount. exact exNodes_fresh.
Defined.

Lemma setScriptOverride_depth_witness :
  (length (p_backStack (dispatch (EvSetScriptOverride exUtils (Some 2)) exPanel2)) <= 2)%nat /\
  currentScript (dispatch (EvSetScriptOverride exUtils (Some 2)) exPanel2) = Some exUtils /\
  ((1 < 2)%nat -> p_backStack exPanel2 ≠ [] ->
   head (p_backStack (dispatch (EvSetScriptOverride exUtils (Some 2)) exPanel2)) =
     head (p_backStack exPanel2)).
Proof. apply setScriptOverride_depth; [lia|vm_compute; lia]. Defined.

Lemma goBack_setScriptOverride_witness :
  p_backStack (dispatch EvGoBack (dispatch (EvSetScriptOverride exUtils None) exPanel1)) =
    p_backStack exPanel1 /\
  p_inputTitle (dispatch EvGoBack (dispatch (EvSetScriptOverride exUtils None) exPanel1)) =
    p_inputTitle exPanel1.
Proof. apply goBack_setScriptOverride, exPanel1_wf. Defined.

Lemma rename_discards_unsaved_witness :
  p_backStack (dispatch (EvRename "renamed") exPanel1) = [mkScript "renamed" "code v1" false] /\
  isNodeSaved (dispatch (EvRename "renamed") exPanel1) = true.
Proof.
  apply (rename_discards_unsaved "renamed" exPanel1 (mkUserNode "hello" "code v1" 0)).
  - apply exPanel1_wf.
  - vm_compute. reflexivity.
  - reflexivity.
Defined.

Lemma saveNode_spec_witness :
  ("code v2" = String.EmptyString -> dispatch (EvSaveNode (Some "code v2")) exPanel1 = exPanel1) /\
  ("code v2" ≠ String.EmptyString ->
   exists n', selectedNode (dispatch (EvSaveNode (Some "code v2")) exPanel1) = Some n' /\
     un_sourceCode n' = "code v2" /\ un_name n' = un_name (mkUserNode "hello" "code v1" 0) /\
     p_backStack (dispatch (EvSaveNode (Some "code v2")) exPanel1) =
       mkScript (un_name (mkUserNode "hello" "code v1" 0)) "code v2" false ::
         default [] (additionalBackStackItems (p_config exPanel1))).
Proof.
  apply (saveNode_spec "code v2" exPanel1 (mkUserNode "hello" "code v1" 0)).
  - apply exPanel1_wf.
  - vm_compute. reflexivity.
Defined.

Lemma save_writes_current_script_witness :
  exists n', selectedNode (dispatch EvSave exPanel2) = Some n' /\ un_sourceCode n' = code exUtils /\
    un_name n' = un_name (mkUserNode "hello" "code v1" 0).
Proof.
  apply (save_writes_current_script exPanel2 (mkUserNode "hello" "code v1" 0) exUtils).
  - apply exPanel2_wf.
  - vm_compute. reflexivity.
  - vm_compute. reflexivity.
  - discriminate.
Defined.

Lemma deleteNode_keeps_backstack_witness :
  objGet (p_userNodes (dispatch (EvDeleteNode "a1b2c3-d4") exPanel1)) "a1b2c3-d4" = None /\
  selectedNode (dispatch (EvDeleteNode "a1b2c3-d4") exPanel1) = None /\
  p_backStack (dispatch (EvDeleteNode "a1b2c3-d4") exPanel1) = p_backStack exPanel1.
Proof. apply deleteNode_keeps_backstack. reflexivity. Defined.

Lemma addNewNode_selects_witness :
  selectedNodeId (p_config (dispatch (EvAddNewNode "e5f6-a7b8" None) exPanel1)) = Some "e5f6-a7b8" /\
  exists n', selectedNode (dispatch (EvAddNewNode "e5f6-a7b8" None) exPanel1) = Some n' /\
    un_name n' = beforeDash "e5f6-a7b8" /\ un_sourceCode n' = default skeletonBody None /\
    p_backStack (dispatch (EvAddNewNode "e5f6-a7b8" None) exPanel1) =
      mkScript (beforeDash "e5f6-a7b8") (default skeletonBody None) false ::
        default [] (additionalBackStackItems (p_config exPanel1)).
Proof. apply addNewNode_selects, exPanel1_wf. Defined.

Example exAddNewNode_name : beforeDash "e5f6-a7b8" = "e5f6".
Proof. reflexivity. Qed.

Lemma goBack_reaches_base_witness :
  (forall k, (k < length [exUtils])%nat ->
     goBackVisible (Nat.iter k (dispatch EvGoBack) exPanel2) = true) /\
  p_backStack (Nat.iter (length [exUtils]) (dispatch EvGoBack) exPanel2) =
    [mkScript "hello" "code v2" false] /\
  goBackVisible (Nat.iter (length [exUtils]) (dispatch EvGoBack) exPanel2) = false /\
  p_inputTitle (Nat.iter (length [exUtils]) (dispatch EvGoBack) exPanel2) =
    titleOf (Some (mkScript "hello" "code v2" false)).
Proof. apply goBack_reaches_base; [apply exPanel2_wf|vm_compute; reflexivity]. Defined.

Lemma saveOnLeave_saves_edits_witness :
  selectedNode exPanel1 = Some (mkUserNode "hello" "code v1" 0) /\
  currentScript exPanel1 = Some (mkScript "hello" "code v2" false) /\
  (isNodeSaved exPanel1 = true -> saveOnLeave exPanel1 = exPanel1) /\
  (isCurrentScriptSelectedNode exPanel1 = true ->
   exists n', selectedNode (saveOnLeave exPanel1) = Some n' /\
     un_sourceCode n' = code (mkScript "hello" "code v2" false) /\
     un_name n' = un_name (mkUserNode "hello" "code v1" 0)).
Proof.
  assert (Hn : selectedNode exPanel1 = Some (mkUserNode "hello" "code v1" 0)) by (vm_compute; reflexivity).
  assert (Hs : currentScript exPanel1 = Some (mkScript "hello" "code v2" false)) by (vm_compute; reflexivity).
  split_and!; [exact Hn|exact Hs|..];
    [apply (saveOnLeave_saves_edits exPanel1 _ _ Hn Hs)|apply (saveOnLeave_saves_edits exPanel1 _ _ Hn Hs)].
Defined.

(** Leaving with the unsaved edit of [exPanel1] stores it. *)
Example exSaveOnLeave :
  (un_sourceCode <$> selectedNode (saveOnLeave exPanel1)) = Some "code v2".
Proof. vm_compute. reflexivity. Qed.

Lemma external_delete_stale_witness :
  selectedNodeId (p_config exPanel1) = Some "a1b2c3-d4" /\
  selectedNode exPanel1 = Some (mkUserNode "hello" "code v1" 0) /\
  welcomeScreenShown (dispatch (EvExternalDelete "a1b2c3-d4") exPanel1) = false /\
  selectedNode (dispatch (EvExternalDelete "a1b2c3-d4") exPanel1) = None /\
  p_backStack (dispatch (EvExternalDelete "a1b2c3-d4") exPanel1) = p_backStack exPanel1 /\
  (forall s, dispatch (EvSaveNode s) (dispatch (EvExternalDelete "a1b2c3-d4") exPanel1) =
             dispatch (EvExternalDelete "a1b2c3-d4") exPanel1).
Proof.
  assert (Hid : selectedNodeId (p_config exPanel1) = Some "a1b2c3-d4") by (vm_compute; reflexivity).
  assert (Hn : selectedNode exPanel1 = Some (mkUserNode "hello" "code v1" 0)) by (vm_compute; reflexivity).
  split; [exact Hid|]. split; [exact Hn|]. exact (external_delete_stale _ _ _ Hid Hn).
Defined.

(** After the other panel's delete the editor still shows the edited script. *)
Example exExternalDelete_editor :
  currentScript (dispatch (EvExternalDelete "a1b2c3-d4") exPanel1) = Some (mkScript "hello" "code v2" false).
Proof. vm_compute. reflexivity. Qed.
