(* ===== verification/Uptime.v ===== *)
(** * Uptime: the app bar's elapsed-time label

    Models src/packages/studio-base/src/components/AppBar/Uptime.tsx.  The
    component reads [startTime] and [currentTime] of the player's active
    data and, in an effect, writes "(<duration>)" into its DOM node, where
    the duration is [formatDurationCustom] of the elapsed milliseconds.
    [formatDurationCustom] chooses a moment-duration-format template from
    moment's [hours()] and [minutes()] components; those components and
    the template formatter are libraries (not under src/) and are modelled
    from their documented behaviour: [hours()] and [minutes()] are the
    truncated components of the duration (hours below a day, minutes below
    an hour), and [format] gives the template's largest unit the whole
    duration in that unit, the others the remainder, digits grouped by
    thousands. *)

From S2P Require Import Prelude RosTime.
From stdpp Require Import pretty.
From Stdlib Require Import Ascii.

Local Open Scope Z_scope.

(** [PlayerStateActiveData] as far as the selectors read it. *)
Record ActiveData := mkActiveData { ad_startTime : Time; ad_currentTime : Time }.

(** Lines 15-16. *)
Definition selectStartTime (activeData : option ActiveData) : option Time := ad_startTime <$> activeData.
Definition selectCurrentTime (activeData : option ActiveData) : option Time := ad_currentTime <$> activeData.

(** moment's [duration.hours()] and [duration.minutes()]. *)
Definition momentHours (ms : Z) : Z := Z.rem (Z.quot ms 3600000) 24.
Definition momentMinutes (ms : Z) : Z := Z.rem (Z.quot ms 60000) 60.

(** Lines 54-61: the template built for the duration. *)
Definition formatString (ms : Z) : string :=
  (if bool_decide (momentHours ms > 0) then "h[h] " else String.EmptyString) +:+
  (if bool_decide (momentHours ms > 0 \/ momentMinutes ms > 0) then "m[m] " else String.EmptyString) +:+
  "s[s]".

Inductive Token := TokH | TokM | TokS.

#[export] Instance Token_eq_dec : EqDecision Token.
Proof. solve_decision. Defined.

(** The unit tokens of a template, skipping the bracketed literals. *)
Fixpoint templateTokens (inBracket : bool) (s : string) : list Token :=
  match s with
  | String.EmptyString => []
  | String.String c s' =>
      if inBracket then templateTokens (negb (bool_decide (c = "]"%char))) s'
      else if bool_decide (c = "["%char) then templateTokens true s'
      else if bool_decide (c = "h"%char) then TokH :: templateTokens false s'
      else if bool_decide (c = "m"%char) then TokM :: templateTokens false s'
      else if bool_decide (c = "s"%char) then TokS :: templateTokens false s'
      else templateTokens false s'
  end.

(** Decimal digits grouped by thousands. *)
Fixpoint groupRev (l : list Ascii.ascii) : list Ascii.ascii :=
  match l with
  | a :: b :: c :: (_ :: _) as rest => a :: b :: c :: ","%char :: groupRev rest
  | _ => l
  end.

Definition groupDigits (n : N) : string :=
  String.string_of_list_ascii (rev (groupRev (rev (String.list_ascii_of_string (pretty n))))).

(** moment-duration-format's [format(template)] on a duration of whole
    seconds: the largest unit takes the whole duration, a minus sign leads. *)
Definition durationFormat (template : string) (ms : Z) : string :=
  let toks := templateTokens false template in
  let secs := Z.abs (Z.quot ms 1000) in
  let value (t : Token) (largest : bool) : Z :=
    match t with
    | TokH => secs / 3600
    | TokM => if largest then secs / 60 else (secs / 60) mod 60
    | TokS => if largest then secs else secs mod 60
    end in
  let unit (t : Token) : string := match t with TokH => "h" | TokM => "m" | TokS => "s" end in
  let fix go (ts : list Token) (largest : bool) : string :=
    match ts with
    | [] => String.EmptyString
    | [t] => groupDigits (Z.to_N (value t largest)) +:+ unit t
    | t :: ts' => groupDigits (Z.to_N (value t largest)) +:+ unit t +:+ " " +:+ go ts' false
    end in
  (if bool_decide (ms < 0) then "-" else String.EmptyString) +:+ go toks true.

(** [formatDurationCustom] (lines 49-65); the template has no surrounding
    blanks, so [trim()] leaves it unchanged. *)
Definition formatDurationCustom (duration : Z) : string :=
  durationFormat (formatString duration) duration.

(** The effect of lines 26-39 on the node's [innerText]: nothing without
    the node, empty without a start time, otherwise the elapsed time. *)
Definition uptimeEffect (hasNode : bool) (activeData : option ActiveData) (innerText : string) : string :=
  if negb hasNode then innerText
  else match selectStartTime activeData with
       | None => String.EmptyString
       | Some startTime =>
           let uptimeSec := default 0 (sec <$> selectCurrentTime activeData) - sec startTime in
           "(" +:+ formatDurationCustom (uptimeSec * 1000) +:+ ")"
       end.

Lemma templateTokens_formatString ms :
  templateTokens false (formatString ms) =
    (if bool_decide (momentHours ms > 0) then [TokH] else []) ++
    (if bool_decide (momentHours ms > 0 \/ momentMinutes ms > 0) then [TokM] else []) ++ [TokS].
Proof. unfold formatString. by repeat case_bool_decide. Qed.

Lemma momentHours_nonneg ms : 0 <= ms -> momentHours ms = (ms / 3600000) mod 24.
Proof.
  intros Hms. unfold momentHours.
  rewrite Z.quot_div_nonneg by lia.
  rewrite Z.rem_mod_nonneg; [done| |lia]. apply Z.div_pos; lia.
Qed.

(** Claim C40: for a non-negative duration the template has an hours token
    exactly when moment's hour component (the hours below a whole day) is
    non-zero, so a duration of whole days is formatted with the seconds
    token alone. *)
Theorem formatString_hours ms :
  0 <= ms ->
  (TokH ∈ templateTokens false (formatString ms) <-> (ms / 3600000) mod 24 <> 0) /\
  (forall d, 1 <= d -> formatString (d * 86400000) = "s[s]").
Proof.
  intros Hms. split.
  - rewrite templateTokens_formatString, <-momentHours_nonneg by done.
    pose proof (Z.mod_pos_bound (ms / 3600000) 24 ltac:(lia)).
    rewrite <-momentHours_nonneg in * by done.
    case_bool_decide; simpl; rewrite ?elem_of_cons, ?elem_of_app; split; try lia;
      [intros _; by left|]. case_bool_decide; simpl; rewrite ?elem_of_cons, ?elem_of_nil; naive_solver.
  - intros d Hd. unfold formatString, momentHours, momentMinutes.
    replace (Z.quot (d * 86400000) 3600000) with (d * 24)
      by (replace (d * 86400000) with (d * 24 * 3600000) by lia; by rewrite Z.quot_mul).
    replace (Z.quot (d * 86400000) 60000) with (d * 1440)
      by (replace (d * 86400000) with (d * 1440 * 60000) by lia; by rewrite Z.quot_mul).
    replace (d * 1440) with (d * 24 * 60) by lia.
    rewrite !Z.rem_mod_nonneg, !Z.mod_mul by lia.
    rewrite !bool_decide_false by lia. done.
Qed.

Lemma formatString_hours_witness :
  0 <= 90061000 /\
  (TokH ∈ templateTokens false (formatString 90061000) <-> (90061000 / 3600000) mod 24 <> 0) /\
  (forall d, 1 <= d -> formatString (d * 86400000) = "s[s]").
Proof. split; [lia|]. apply formatString_hours. lia. Defined.

(** One day is shown as 86,400 seconds, a day and an hour with hours. *)
Example formatDurationCustom_one_day : formatDurationCustom 86400000 = "86,400s".
Proof. vm_compute. reflexivity. Qed.

Example formatDurationCustom_25h : formatDurationCustom 90061000 = "25h 1m 1s".
Proof. vm_compute. reflexivity. Qed.

Example uptimeEffect_example :
  uptimeEffect true (Some (mkActiveData (mkTime 100 0) (mkTime 3825 0))) "x" = "(1h 2m 5s)".
Proof. vm_compute. reflexivity. Qed.
