(* ===== verification/WebMain.v ===== *)
(** * WebMain: the studio-web entry point

    Models src/packages/studio-web/src/index.tsx.  [main] logs, installs
    [window.onerror], looks up the [#root] element (throwing when it is
    missing), reads the Chrome major version out of the user agent with
    the regular expression [/Chrome\/(\d+)\./] and [parseInt], and then
    either renders the compatibility banner alone (when [canRenderApp()]
    is false) or loads studio-base, waits for fonts and i18n, asks
    [getParams] for the data sources and renders the banner next to
    [Root].  [LogAfterRender] logs ["App rendered"] once after mounting.

    The regular-expression match is an executable scanner ([regexMatch])
    proved equal to the declarative leftmost-match semantics of the
    pattern ([firstMatch]).  [main] is a function of its environment (the
    DOM, the user agent, [canRenderApp()] and the outcome of each awaited
    promise) to the trace of effects it performs and its result, written
    in a small writer-and-error monad [TraceM].  [CompatibilityBanner],
    [canRenderApp] and [Root] are not part of src/ and appear only as the
    props they receive and the boolean [canRenderApp()] returns. *)

From S2P Require Import Prelude.
From Stdlib Require Import Ascii.

(** ** The pattern [/Chrome\/(\d+)\./] *)

Local Open Scope list_scope.

(** [\d]: an ASCII decimal digit. *)
Definition isDigit (c : ascii) : bool :=
  let n := nat_of_ascii c in (48 <=? n)%nat && (n <=? 57)%nat.

Definition chromeLit : list ascii := String.list_ascii_of_string "Chrome/".
Definition dot : ascii := "."%char.

(** Removes a literal prefix. *)
Fixpoint stripPrefix (p s : list ascii) : option (list ascii) :=
  match p, s with
  | [], _ => Some s
  | c :: p', d :: s' => if bool_decide (c = d) then stripPrefix p' s' else None
  | _ :: _, [] => None
  end.

(** [(\d+)] is greedy: it takes the longest run of digits. *)
Fixpoint digitsPrefix (s : list ascii) : list ascii * list ascii :=
  match s with
  | c :: s' => if isDigit c then let '(ds, r) := digitsPrefix s' in (c :: ds, r) else ([], s)
  | [] => ([], [])
  end.

(** The pattern tried at the start of [s]: the literal, the greedy digit
    group, then a dot.  Backtracking into the group never helps: a shorter
    run is followed by a digit, not by the dot. *)
Definition matchAt (s : list ascii) : option (list ascii) :=
  match stripPrefix chromeLit s with
  | None => None
  | Some s1 =>
      let '(ds, rest) := digitsPrefix s1 in
      match ds, rest with
      | _ :: _, c :: _ => if bool_decide (c = dot) then Some ds else None
      | _, _ => None
      end
  end.

(** [String.prototype.match] with a non-global pattern: the first
    position, from the left, where the pattern matches; its group 1. *)
Fixpoint regexMatch (s : list ascii) : option (list ascii) :=
  match matchAt s with
  | Some ds => Some ds
  | None => match s with [] => None | _ :: s' => regexMatch s' end
  end.

(** [parseInt(ds, 10)] on a non-empty string of decimal digits. *)
Definition parseInt10 (ds : list ascii) : Z :=
  fold_left (fun acc c => (10 * acc + (Z.of_nat (nat_of_ascii c) - 48))%Z) ds 0%Z.

(** Lines 43-44: [chromeMatch[1]] always takes part in a match, so the
    [?? ""] fallback is never used. *)
Definition chromeVersion (userAgent : string) : Z :=
  match regexMatch (String.list_ascii_of_string userAgent) with
  | Some ds => parseInt10 ds
  | None => 0%Z
  end.

(** Line 45. *)
Definition isChrome (userAgent : string) : bool :=
  negb (bool_decide (chromeVersion userAgent = 0%Z)).

(** The language of the pattern at a position: the group [ds] matches
    there when [s] starts with ["Chrome/"], the digits [ds] and a dot. *)
Definition matchesAt (s ds : list ascii) : Prop :=
  ds <> [] /\ Forall (fun c => isDigit c = true) ds /\
  exists rest, s = chromeLit ++ ds ++ dot :: rest.

(** The leftmost match. *)
Definition firstMatch (s ds : list ascii) : Prop :=
  exists i, matchesAt (drop i s) ds /\ forall j ds', (j < i)%nat -> ~ matchesAt (drop j s) ds'.

Lemma stripPrefix_Some p s s1 : stripPrefix p s = Some s1 <-> s = p ++ s1.
Proof.
  revert s. induction p as [|c p IH]; intros [|d s]; simpl; try naive_solver.
  case_bool_decide; subst; rewrite ?IH; naive_solver.
Qed.

Lemma digitsPrefix_spec s :
  s = (digitsPrefix s).1 ++ (digitsPrefix s).2 /\
  Forall (fun c => isDigit c = true) (digitsPrefix s).1 /\
  forall c r, (digitsPrefix s).2 = c :: r -> isDigit c = false.
Proof.
  induction s as [|c s (IH1 & IH2 & IH3)]; simpl; [naive_solver|].
  destruct (isDigit c) eqn:Hc; simpl; [|naive_solver].
  destruct (digitsPrefix s) as [ds r]; simpl in *. split_and!; [by f_equal|by constructor|done].
Qed.

Lemma digitsPrefix_app ds r :
  Forall (fun c => isDigit c = true) ds -> (forall c r', r = c :: r' -> isDigit c = false) ->
  digitsPrefix (ds ++ r) = (ds, r).
Proof.
  intros Hds Hr. induction Hds as [|c ds Hc _ IH]; simpl.
  - destruct r as [|c r]; simpl; [done|]. by rewrite (Hr c r).
  - by rewrite Hc, IH.
Qed.

Lemma isDigit_dot : isDigit dot = false.
Proof. reflexivity. Qed.

Lemma matchAt_spec s ds : matchAt s = Some ds <-> matchesAt s ds.
Proof.
  unfold matchAt, matchesAt. split.
  - destruct (stripPrefix chromeLit s) as [s1|] eqn:Hs; [|done].
    apply stripPrefix_Some in Hs as ->.
    pose proof (digitsPrefix_spec s1) as (Hs1 & Hds & _).
    destruct (digitsPrefix s1) as [ds' rest]; simpl in *.
    destruct ds' as [|d ds'], rest as [|c rest]; try done.
    case_bool_decide; [|done]. intros [= <-]; subst.
    split_and!; [done|done|]. by exists rest.
  - intros (Hne & Hds & rest & ->).
    rewrite (proj2 (stripPrefix_Some _ _ _) eq_refl).
    rewrite digitsPrefix_app; [|done|intros c r [= <- _]; apply isDigit_dot].
    destruct ds; [done|]. by rewrite bool_decide_true.
Qed.

Lemma matchAt_None s : matchAt s = None <-> forall ds, ~ matchesAt s ds.
Proof.
  split.
  - intros Hn ds Hm. apply matchAt_spec in Hm. congruence.
  - intros Hn. destruct (matchAt s) as [ds|] eqn:Hm; [|done].
    exfalso. apply (Hn ds), matchAt_spec, Hm.
Qed.

Lemma matchesAt_nil ds : ~ matchesAt [] ds.
Proof. intros (_ & _ & rest & Hs). destruct rest; discriminate Hs. Qed.

Lemma firstMatch_here s ds :
  matchAt s = Some ds -> forall ds', firstMatch s ds' <-> ds' = ds.
Proof.
  intros Hm ds'. split.
  - intros ([|i] & Hi & Hmin).
    + apply matchAt_spec in Hi. rewrite drop_0 in Hi. congruence.
    + exfalso. apply (Hmin 0%nat ds); [lia|]. rewrite drop_0. by apply matchAt_spec.
  - intros ->. exists 0%nat. split; [rewrite drop_0; by apply matchAt_spec|lia].
Qed.

Lemma firstMatch_cons_None c s ds :
  matchAt (c :: s) = None -> firstMatch (c :: s) ds <-> firstMatch s ds.
Proof.
  intros Hn. rewrite matchAt_None in Hn. split.
  - intros ([|i] & Hi & Hmin); [by apply Hn in Hi|].
    exists i. split; [done|]. intros j ds' Hj. apply (Hmin (S j)). lia.
  - intros (i & Hi & Hmin). exists (S i). split; [done|].
    intros [|j] ds' Hj; [apply Hn|]. apply Hmin. lia.
Qed.

Lemma regexMatch_None s : regexMatch s = None <-> forall i ds, ~ matchesAt (drop i s) ds.
Proof.
  induction s as [|c s IH]; simpl.
  - split; [|done]. intros _ i ds. rewrite drop_nil. apply matchesAt_nil.
  - destruct (matchAt (c :: s)) as [ds0|] eqn:Hm.
    + split; [done|]. intros Hn. exfalso. apply (Hn 0%nat ds0). by apply matchAt_spec.
    + rewrite IH. pose proof (proj1 (matchAt_None _) Hm) as Hn0. split.
      * intros Hn [|i] ds; [apply Hn0|apply Hn].
      * intros Hn i ds. apply (Hn (S i)).
Qed.

Lemma regexMatch_Some s ds : regexMatch s = Some ds <-> firstMatch s ds.
Proof.
  revert ds. induction s as [|c s IH]; intros ds; simpl.
  - split; [done|]. intros (i & Hi & _). rewrite drop_nil in Hi. by apply matchesAt_nil in Hi.
  - destruct (matchAt (c :: s)) as [ds0|] eqn:Hm.
    + rewrite (firstMatch_here _ _ Hm). naive_solver.
    + by rewrite (firstMatch_cons_None _ _ _ Hm).
Qed.

(** ** [parseInt] on digit strings *)

Local Open Scope Z_scope.

Definition digitValue (c : ascii) : Z := Z.of_nat (nat_of_ascii c) - 48.

Lemma digitValue_bounds c : isDigit c = true -> 0 <= digitValue c <= 9.
Proof.
  unfold isDigit, digitValue. intros [H1 H2]%andb_prop.
  apply Nat.leb_le in H1, H2. lia.
Qed.

Lemma digitValue_zero c : isDigit c = true -> digitValue c = 0 <-> c = "0"%char.
Proof.
  intros Hc. unfold digitValue. split; [|by intros ->].
  intros H. assert (nat_of_ascii c = 48)%nat as Hn by lia.
  rewrite <-(ascii_nat_embedding c), Hn. reflexivity.
Qed.

Lemma parseInt10_fold ds acc :
  fold_left (fun acc c => (10 * acc + (Z.of_nat (nat_of_ascii c) - 48))%Z) ds acc =
  (acc * 10 ^ Z.of_nat (length ds) + parseInt10 ds)%Z.
Proof.
  revert acc. induction ds as [|c ds IH]; intros acc; [unfold parseInt10; simpl; lia|].
  unfold parseInt10 in *. cbn [fold_left length].
  rewrite (IH (10 * acc + _)), (IH (10 * 0 + _)), Nat2Z.inj_succ, Z.pow_succ_r by lia. ring.
Qed.

Lemma parseInt10_cons c ds :
  parseInt10 (c :: ds) = (digitValue c * 10 ^ Z.of_nat (length ds) + parseInt10 ds)%Z.
Proof. unfold parseInt10 at 1. simpl. rewrite parseInt10_fold. unfold digitValue. ring. Qed.

(** [parseInt] of a digit string lies in [0, 10^n) and is zero exactly
    when every digit is ["0"]. *)
Lemma parseInt10_bounds ds :
  Forall (fun c => isDigit c = true) ds ->
  (0 <= parseInt10 ds < 10 ^ Z.of_nat (length ds))%Z /\
  (parseInt10 ds = 0%Z <-> Forall (fun c => c = "0"%char) ds).
Proof.
  induction 1 as [|c ds Hc Hds (IHb & IHz)]; [split; [unfold parseInt10; simpl; lia|split; constructor]|].
  rewrite parseInt10_cons. pose proof (digitValue_bounds c Hc).
  pose proof (Z.pow_pos_nonneg 10 (Z.of_nat (length ds)) ltac:(lia) ltac:(lia)).
  simpl length. rewrite Nat2Z.inj_succ, Z.pow_succ_r by lia. split; [nia|].
  rewrite Forall_cons, <-IHz, <-digitValue_zero by done. nia.
Qed.

(** ** [main] as a trace of effects *)

(** The props of [CompatibilityBanner] (lines 48-54). *)
Record BannerProps := mkBannerProps {
  bp_isChrome : bool; bp_currentVersion : Z; bp_isDismissable : bool }.

#[export] Instance BannerProps_eq_dec : EqDecision BannerProps.
Proof. solve_decision. Defined.

Section Main.
Context {Element DataSource Provider : Type}.

(** [MainParams] (lines 26-29): both fields optional. *)
Record MainParams := mkMainParams {
  mp_dataSources : option (list DataSource); mp_extraProviders : option (list Provider) }.

(** The React trees [main] renders. *)
Inductive Tree :=
| StrictMode (children : list Tree)
| LogAfterRender (children : list Tree)
| CssBaseline (children : list Tree)
| CompatibilityBanner (props : BannerProps)
| Root (extraProviders : option (list Provider)) (dataSources : option (list DataSource)).

(** What [main] does to the outside world, in order. *)
Inductive Effect :=
| LogDebug (msg : string)             (* log.debug *)
| SetWindowOnError                    (* window.onerror = ... *)
| ImportModule (name : string)        (* await import(name) *)
| InstallDevtoolsFormatters
| OverwriteFetch
| WaitForFonts
| InitI18n
| GetParams
| Render (t : Tree) (root : Element)  (* ReactDOM.render(t, root) *)
| ConsoleDebug (msg : string).        (* console.debug *)

(** The environment: the [#root] lookup, the user agent, [canRenderApp()]
    and the outcome of each awaited promise (a rejection is [Err]). *)
Record Env := mkEnv {
  env_root : option Element;
  env_userAgent : string;
  env_canRenderApp : bool;
  env_importStudioBase : result unit;
  env_waitForFonts : result unit;
  env_initI18n : result unit;
  env_importRoot : result unit;
  env_getParams : result MainParams }.

(** A writer-and-error monad: the effects performed so far and the
    outcome; after an error nothing more happens. *)
Definition TraceM (A : Type) : Type := (list Effect * result A)%type.

#[export] Instance TraceM_ret : MRet TraceM := fun _ a => ([], Ok a).
#[export] Instance TraceM_bind : MBind TraceM := fun _ _ k m =>
  match m.2 with
  | Ok a => let r := k a in (m.1 ++ r.1, r.2)
  | Err e => (m.1, Err e)
  end.

Definition emit (e : Effect) : TraceM unit := ([e], Ok ()).
Definition throw {A} (msg : string) : TraceM A := ([], Err msg).
(** [await p()]: the call is performed, then its promise settles. *)
Definition await {A} (call : Effect) (outcome : result A) : TraceM A := ([call], outcome).

(** The effects React runs when it mounts a tree: [LogAfterRender]'s
    [useEffect(..., [])] logs once, after its children's effects. *)
Fixpoint mountEffects (t : Tree) : list Effect :=
  let fix go (ts : list Tree) : list Effect :=
    match ts with [] => [] | t :: ts' => mountEffects t ++ go ts' end in
  match t with
  | StrictMode cs | CssBaseline cs => go cs
  | LogAfterRender cs => go cs ++ [ConsoleDebug "App rendered"]
  | CompatibilityBanner _ | Root _ _ => []
  end.

(** [ReactDOM.render(t, root)] in legacy mode: mounts synchronously. *)
Definition render (t : Tree) (root : Element) : TraceM unit :=
  (Render t root :: mountEffects t, Ok ()).

(** Lines 47-54. *)
Definition bannerProps (userAgent : string) (canRender : bool) : BannerProps :=
  mkBannerProps (isChrome userAgent) (chromeVersion userAgent) canRender.

Definition defaultGetParams : result MainParams := Ok (mkMainParams None None).

(** Lines 31-91. *)
Definition main (env : Env) : TraceM unit :=
  _ ← emit (LogDebug "initializing");
  _ ← emit SetWindowOnError;
  rootEl ← (match env_root env with
            | None => throw "missing #root element"
            | Some r => mret r
            end);
  let canRender := env_canRenderApp env in
  let banner := CompatibilityBanner (bannerProps (env_userAgent env) canRender) in
  if negb canRender then
    render (StrictMode [LogAfterRender [CssBaseline [banner]]]) rootEl
  else
    _ ← await (ImportModule "@foxglove/studio-base") (env_importStudioBase env);
    _ ← emit InstallDevtoolsFormatters;
    _ ← emit OverwriteFetch;
    _ ← await WaitForFonts (env_waitForFonts env);
    _ ← await InitI18n (env_initI18n env);
    _ ← await (ImportModule "./Root") (env_importRoot env);
    params ← await GetParams (env_getParams env);
    render (StrictMode [LogAfterRender
      [banner; Root (mp_extraProviders params) (mp_dataSources params)]]) rootEl.

End Main.

(** ** The version read from the user agent *)

Lemma regexMatch_digits s ds :
  regexMatch s = Some ds -> ds <> [] /\ Forall (fun c => isDigit c = true) ds.
Proof. intros (i & (? & ? & _) & _)%regexMatch_Some. done. Qed.

Lemma chromeVersion_nonneg ua : 0 <= chromeVersion ua.
Proof.
  unfold chromeVersion. destruct (regexMatch _) as [ds|] eqn:Hm; [|lia].
  apply regexMatch_digits in Hm as [_ Hd]. apply (parseInt10_bounds ds Hd).
Qed.

(** Claim C25: the app counts as Chrome exactly when the leftmost match
    of the pattern in the user agent has a digit other than ["0"]: a
    user agent reporting [Chrome/0.] (or [Chrome/00.]) is taken for a
    browser that is not Chrome. *)
Theorem isChrome_iff ua :
  isChrome ua = true <->
  exists ds, firstMatch (String.list_ascii_of_string ua) ds /\ exists c, c ∈ ds /\ c <> "0"%char.
Proof.
  unfold isChrome, chromeVersion. setoid_rewrite <-regexMatch_Some.
  destruct (regexMatch _) as [ds|] eqn:Hm; simpl; [|naive_solver].
  apply regexMatch_digits in Hm as [_ Hd]. destruct (parseInt10_bounds ds Hd) as [_ Hz].
  rewrite negb_true_iff, bool_decide_eq_false, Hz. split.
  - intros Hn. exists ds. split; [done|].
    apply not_Forall_Exists in Hn; [|apply _]. apply Exists_exists in Hn. naive_solver.
  - intros (ds' & [= <-] & c & Hc & Hne) Hall. rewrite Forall_forall in Hall. by apply Hne, Hall.
Qed.

(** ** Laws of the trace monad and facts about traces *)

Section Traces.
Context {Element DataSource Provider : Type}.
Local Abbreviation Effect := (@Effect Element DataSource Provider).
Local Abbreviation Tree := (@Tree DataSource Provider).
Local Abbreviation TM := (@TraceM Element DataSource Provider).

Lemma TraceM_ret_bind {A B} (a : A) (k : A -> TM B) : (mret a ≫= k) = k a.
Proof. unfold mbind, mret, TraceM_bind, TraceM_ret. simpl. by destruct (k a). Qed.

Lemma TraceM_bind_assoc {A B C} (m : TM A) (f : A -> TM B) (g : B -> TM C) :
  ((m ≫= f) ≫= g) = (m ≫= fun a => f a ≫= g).
Proof.
  unfold mbind, TraceM_bind. destruct m as [tr [a|e]]; simpl; [|done].
  destruct (f a) as [tr' [b|e]]; simpl; [|done]. by rewrite app_assoc.
Qed.

Definition isRender (e : Effect) : bool := match e with Render _ _ => true | _ => false end.

Definition isAppRendered (e : Effect) : bool :=
  match e with ConsoleDebug m => bool_decide (m = "App rendered") | _ => false end.

Fixpoint hasRoot (t : Tree) : bool :=
  match t with
  | StrictMode cs | LogAfterRender cs | CssBaseline cs => existsb hasRoot cs
  | CompatibilityBanner _ => false
  | Root _ _ => true
  end.

Definition rendersRoot (e : Effect) : bool :=
  match e with Render t _ => hasRoot t | _ => false end.

(** [a] happens before every effect satisfying [p]. *)
Definition precedes (a : Effect) (p : Effect -> bool) (tr : list Effect) : Prop :=
  forall pre e post, tr = pre ++ e :: post -> p e = true -> a ∈ pre.

Lemma precedes_nil a p : precedes a p [].
Proof. intros pre e post H. by destruct pre. Qed.

Lemma precedes_cons_skip a p c tr : p c = false -> precedes a p tr -> precedes a p (c :: tr).
Proof.
  intros Hc H [|c' pre] e post; simpl; intros [= -> ->] He; [congruence|].
  right. by apply (H pre e post).
Qed.

Lemma precedes_cons_hit a p tr : p a = false -> precedes a p (a :: tr).
Proof. intros Ha [|c' pre] e post; simpl; intros [= -> ->] He; [congruence|left]. Qed.

(** Props of the banner as the component's types require: a
    non-negative integer version, [isChrome] agreeing with it, and the
    banner dismissable exactly when the app itself renders. *)
Fixpoint treeWf (canRender : bool) (t : Tree) : Prop :=
  let fix go (ts : list Tree) : Prop :=
    match ts with [] => True | t :: ts' => treeWf canRender t /\ go ts' end in
  match t with
  | StrictMode cs | LogAfterRender cs | CssBaseline cs => go cs
  | CompatibilityBanner p =>
      0 <= bp_currentVersion p /\ (bp_isChrome p = true <-> bp_currentVersion p <> 0) /\
      bp_isDismissable p = canRender
  | Root _ _ => canRender = true
  end.

Lemma bannerProps_wf ua canRender :
  treeWf canRender (CompatibilityBanner (bannerProps ua canRender)).
Proof.
  simpl. split_and!; [apply chromeVersion_nonneg| |done].
  unfold isChrome. rewrite negb_true_iff, bool_decide_eq_false. done.
Qed.
End Traces.

#[export] Hint Resolve precedes_nil precedes_cons_hit precedes_cons_skip : sviz.

(** Every outcome of [main]: the root element, [canRenderApp()] and each
    awaited promise. *)
Ltac destruct_env env :=
  destruct env as [[?el|] ?ua [] [[]|?e1] [[]|?e2] [[]|?e3] [[]|?e4] [?prm|?e5]].

Ltac solve_precedes :=
  repeat first [ apply precedes_nil
               | apply precedes_cons_hit; reflexivity
               | apply precedes_cons_skip; [reflexivity|] ].

Section MainClaims.
Context {Element DataSource Provider : Type}.
Implicit Types env : @Env Element DataSource Provider.

(** without a [#root] element [main] logs, installs the error
    handler and then rejects with ["missing #root element"], rendering
    nothing. *)
Theorem main_missing_root env :
  env_root env = None ->
  main env = ([LogDebug "initializing"; SetWindowOnError], Err "missing #root element").
Proof. destruct env; simpl. intros ->. reflexivity. Qed.

(** when [canRenderApp()] is false, [main] renders the banner
    alone, not dismissable, inside [CssBaseline], never loads studio-base
    and resolves after ["App rendered"] is logged. *)
Theorem main_banner_only env el :
  env_root env = Some el -> env_canRenderApp env = false ->
  main env =
    ([LogDebug "initializing"; SetWindowOnError;
      Render (StrictMode [LogAfterRender [CssBaseline
        [CompatibilityBanner (bannerProps (env_userAgent env) false)]]]) el;
      ConsoleDebug "App rendered"], Ok ()).
Proof. destruct env; simpl. intros -> ->. reflexivity. Qed.

(** Claim C19: [main] renders at most once; its promise resolves exactly
    when it rendered a tree into the root element and then ran that
    tree's mount effects, and then ["App rendered"] was logged exactly
    once; a rejected promise on the way leaves nothing rendered. *)
Theorem main_renders_once env :
  (length (List.filter isRender (main env).1) <= 1)%nat /\
  ((main env).2 = Ok () <->
     exists t el pre, env_root env = Some el /\ List.filter isRender (main env).1 = [Render t el] /\
       (main env).1 = pre ++ Render t el :: mountEffects t) /\
  ((main env).2 = Ok () -> length (List.filter isAppRendered (main env).1) = 1%nat).
Proof.
  destruct_env env; cbn; split_and!; try lia; try done;
    try (split; [intros _; eexists _, _, [_; _]; split_and!; reflexivity|done]);
    try (split; [intros _; eexists _, _, [_; _; _; _; _; _; _; _; _]; split_and!; reflexivity|done]);
    split; try done; intros (t & el' & pre & _ & Hf & _); discriminate Hf.
Qed.

(** Claim C20: [Root] is only ever rendered after studio-base was
    loaded, the devtools formatters and the fetch override installed, the
    fonts and i18n awaited, [./Root] loaded and the params obtained, in
    every run of [main]. *)
Theorem main_root_after_init env :
  Forall (fun a => precedes a rendersRoot (main env).1)
    [ImportModule "@foxglove/studio-base"; InstallDevtoolsFormatters; OverwriteFetch;
     WaitForFonts; InitI18n; ImportModule "./Root"; GetParams].
Proof. destruct_env env; cbn; repeat constructor; solve_precedes. Qed.

(** Claim C24: every tree [main] renders is well-formed: the banner
    gets a non-negative integer version with [isChrome] agreeing with it
    and is dismissable exactly when [canRenderApp()] holds, and [Root]
    appears only when the app can render. *)
Theorem main_trees_wf env t el :
  Render t el ∈ (main env).1 -> treeWf (env_canRenderApp env) t.
Proof.
  destruct_env env; cbn; intros Hin; rewrite ?elem_of_cons, ?elem_of_nil in Hin;
    destruct_or!; simplify_eq; simpl;
    pose proof (bannerProps_wf (DataSource := DataSource) (Provider := Provider) ua true);
    pose proof (bannerProps_wf (DataSource := DataSource) (Provider := Provider) ua false);
    simpl in *; tauto.
Qed.
End MainClaims.

(** ** Examples *)

Definition uaChrome : string :=
  "Mozilla/5.0 (X11; Linux x86_64) AppleWebKit/537.36 (KHTML, like Gecko) Chrome/120.0.6099.109 Safari/537.36".
Definition uaFirefox : string := "Mozilla/5.0 (X11; Linux x86_64; rv:121.0) Gecko/20100101 Firefox/121.0".

Example chromeVersion_chrome : chromeVersion uaChrome = 120.
Proof. vm_compute. reflexivity. Qed.

Example chromeVersion_firefox : chromeVersion uaFirefox = 0 /\ isChrome uaFirefox = false.
Proof. vm_compute. split; reflexivity. Qed.

(** The leftmost occurrence wins, and a zero version is not Chrome. *)
Example chromeVersion_leftmost : chromeVersion "Chrome/9x Chrome/88.1 Chrome/99.2" = 88.
Proof. vm_compute. reflexivity. Qed.

Example isChrome_zero : isChrome "HeadlessChrome/0.1" = false.
Proof. vm_compute. reflexivity. Qed.

Definition exEnv (root : option unit) (canRender : bool) : @Env unit unit unit :=
  mkEnv root uaChrome canRender (Ok ()) (Ok ()) (Ok ()) (Ok ()) defaultGetParams.

Definition exAppTree : @Tree unit unit :=
  StrictMode [LogAfterRender [CompatibilityBanner (mkBannerProps true 120 true); Root None None]].

Example main_full_example :
  main (exEnv (Some ()) true) =
    ([LogDebug "initializing"; SetWindowOnError; ImportModule "@foxglove/studio-base";
      InstallDevtoolsFormatters; OverwriteFetch; WaitForFonts; InitI18n; ImportModule "./Root";
      GetParams; Render exAppTree (); ConsoleDebug "App rendered"], Ok ()).
Proof. vm_compute. reflexivity. Qed.

(** A rejected [initI18n()] rejects [main] before anything is rendered. *)
Example main_i18n_rejected :
  (main (mkEnv (Some ()) uaChrome true (Ok ()) (Ok ()) (Err "i18n") (Ok ()) defaultGetParams
           : @Env unit unit unit)).2 = Err "i18n".
Proof. vm_compute. reflexivity. Qed.

Lemma main_missing_root_witness :
  env_root (exEnv None true) = None /\
  main (exEnv None true) = ([LogDebug "initializing"; SetWindowOnError], Err "missing #root element").
Proof. split; [reflexivity|]. apply main_missing_root. reflexivity. Defined.

Lemma main_banner_only_witness :
  env_root (exEnv (Some ()) false) = Some () /\ env_canRenderApp (exEnv (Some ()) false) = false /\
  main (exEnv (Some ()) false) =
    ([LogDebug "initializing"; SetWindowOnError;
      Render (StrictMode [LogAfterRender [CssBaseline
        [CompatibilityBanner (bannerProps (env_userAgent (exEnv (Some ()) false)) false)]]]) ();
      ConsoleDebug "App rendered"], Ok ()).
Proof. split_and!; [reflexivity|reflexivity|]. apply main_banner_only; reflexivity. Defined.

Lemma main_trees_wf_witness :
  Render exAppTree () ∈ (main (exEnv (Some ()) true)).1 /\
  treeWf (env_canRenderApp (exEnv (Some ()) true)) exAppTree.
Proof.
  assert (Hin : Render exAppTree () ∈ (main (exEnv (Some ()) true)).1).
  { apply list_elem_of_In. vm_compute. repeat (first [left; reflexivity | right]). }
  split; [exact Hin|]. apply (main_trees_wf (exEnv (Some ()) true) exAppTree ()). exact Hin.
Defined.
