(* ===== verification/Stories.v ===== *)
(** * Stories: the panel catalog mock of the Workspace story

    src/packages/studio-base/src/Workspace.stories.tsx renders [Workspace]
    under a [PanelCatalogContext] whose value is [MockPanelCatalog], and a
    current layout made of the single panel type ["Fake"].  The
    [PanelCatalog] interface (studio-base's PanelCatalogContext, not under
    src/) is the typeclass [PanelCatalog] with the contract a lookup by
    type promises ([PanelCatalogLaws]: the panel found is listed and has
    the requested type).  The mock answers every lookup with its one fake
    panel, so it keeps the contract exactly for the type ["Fake"], which
    is the only type of the story's layout.  The decorator and the story
    bodies are JSX fixtures and are not modelled. *)

From S2P Require Import Prelude.

(** [PanelInfo] as far as the story sets it. *)
Record PanelInfo := mkPanelInfo { pi_title : string; pi_type : string }.

#[export] Instance PanelInfo_eq_dec : EqDecision PanelInfo.
Proof. solve_decision. Defined.

(** The [PanelCatalog] interface. *)
Class PanelCatalog (C : Type) := {
  getPanels : C -> list PanelInfo;
  getPanelByType : C -> string -> option PanelInfo;
}.

(** A lookup by type finds a listed panel of that type. *)
Definition lookupSound {C} `{PanelCatalog C} (c : C) (type : string) : Prop :=
  forall p, getPanelByType c type = Some p -> p ∈ getPanels c /\ pi_type p = type.

Class PanelCatalogLaws (C : Type) `{PanelCatalog C} := {
  getPanelByType_sound c type : lookupSound c type;
}.

(** [MockPanelCatalog] (lines 48-75): no state; the static [#fakePanel]. *)
Inductive MockPanelCatalog := mkMockPanelCatalog.

Definition fakePanel : PanelInfo := mkPanelInfo "Fake Panel" "Fake".

#[export] Instance MockPanelCatalog_catalog : PanelCatalog MockPanelCatalog := {
  getPanels _ := [fakePanel];
  getPanelByType _ _ := Some fakePanel;
}.

(** The layout of the [Basic] story (line 82: [{ layout: "Fake" }]). *)
Definition basicStoryLayoutTypes : list string := ["Fake"].

(** A catalog serves a layout when every type of it is found soundly. *)
Definition servesLayout {C} `{PanelCatalog C} (c : C) (types : list string) : Prop :=
  forall t, t ∈ types -> is_Some (getPanelByType c t) /\ lookupSound c t.

Lemma mock_lookup_sound_iff t : lookupSound mkMockPanelCatalog t <-> t = "Fake".
Proof.
  unfold lookupSound. simpl. split.
  - intros H. destruct (H fakePanel eq_refl) as [_ <-]. done.
  - intros -> p [= <-]. split; [set_solver|done].
Qed.

(** The mock serves exactly the layouts made of ["Fake"] panels, the
    story's among them; it is not a lawful catalog in general. *)
Lemma mock_serves_layout types :
  servesLayout mkMockPanelCatalog types <-> Forall (fun t => t = "Fake") types.
Proof.
  unfold servesLayout. rewrite Forall_forall. setoid_rewrite mock_lookup_sound_iff.
  simpl. naive_solver.
Qed.

Lemma mock_serves_basic_story : servesLayout mkMockPanelCatalog basicStoryLayoutTypes.
Proof. apply mock_serves_layout. by repeat constructor. Qed.

Lemma mock_not_lawful : PanelCatalogLaws MockPanelCatalog -> False.
Proof.
  intros [Hs]. pose proof (proj1 (mock_lookup_sound_iff "Plot") (Hs mkMockPanelCatalog "Plot")).
  discriminate.
Qed.
